(** * digit-client-tools: token lifecycle and workflow orchestration

    A shallow embedding of the JWT helpers (package [jwt]), the token
    refresh logic (package [auth]), the token endpoint client
    ([digit.GetJWTToken]) and the [create-workflow] command of the digit CLI,
    together with the properties the specification states about them.

    Go strings are byte sequences; they are modelled by [string], whose
    characters are the 256 values of [ascii]. *)

From Stdlib Require Import ZArith Lia Bool Ascii String List.
From stdpp Require Import base option list strings pretty gmap.

Set Warnings "-register-all,-clear-no-such-hyp".

Local Open Scope string_scope.
Local Open Scope list_scope.
Local Open Scope Z_scope.

(** ** Results: a Go pair [(value, error)] with [error != nil] or not *)

Inductive result (E A : Type) : Type :=
| Ok (a : A)
| Err (e : E).
Arguments Ok {E A} a.
Arguments Err {E A} e.

Definition is_ok {E A} (r : result E A) : bool :=
  match r with Ok _ => true | Err _ => false end.

(** ** Library functions on strings *)

Module GoStrings.

(** [strings.Split(s, sep)] for a one-byte separator: the substrings between
    the occurrences of [sep]; one more piece than there are separators. *)
Fixpoint Split (s : string) (sep : ascii) : list string :=
  match s with
  | EmptyString => [EmptyString]
  | String c s' =>
      if Ascii.eqb c sep then EmptyString :: Split s' sep
      else match Split s' sep with
           | piece :: pieces => String c piece :: pieces
           | [] => [String c EmptyString]
           end
  end.

(** [strings.Count(s, sep)] for a one-byte separator. *)
Fixpoint Count (s : string) (sep : ascii) : nat :=
  match s with
  | EmptyString => 0%nat
  | String c s' => ((if Ascii.eqb c sep then 1 else 0) + Count s' sep)%nat
  end.

(** [strings.TrimSuffix(s, "/")]. *)
Fixpoint TrimSuffixSlash (s : string) : string :=
  match s with
  | EmptyString => EmptyString
  | String c EmptyString => if Ascii.eqb c "/" then EmptyString else s
  | String c s' => String c (TrimSuffixSlash s')
  end.

End GoStrings.

(** ** encoding/base64, URL alphabet *)

Module Base64.

(** The URL-safe alphabet [encodeURL]. *)
Definition encodeURL : string :=
  "ABCDEFGHIJKLMNOPQRSTUVWXYZabcdefghijklmnopqrstuvwxyz0123456789-_".

Definition padChar : ascii := "="%char.

Fixpoint index_of (c : ascii) (s : string) (i : Z) : option Z :=
  match s with
  | EmptyString => None
  | String d s' => if Ascii.eqb c d then Some i else index_of c s' (i + 1)
  end.

(** [enc.decodeMap[in]]: the position of a byte in the alphabet; [None]
    stands for the table's 0xff. *)
Definition decodeMap (c : ascii) : option Z := index_of c encodeURL 0.

(** [enc.encode[i]]. *)
Definition encode_char (i : Z) : ascii :=
  match String.get (Z.to_nat i) encodeURL with
  | Some c => c
  | None => "A"%char
  end.

Definition byte_of_Z (z : Z) : ascii := ascii_of_N (Z.to_N (z mod 256)).
Definition Z_of_byte (c : ascii) : Z := Z.of_N (N_of_ascii c).

Definition is_newline (c : ascii) : bool :=
  Ascii.eqb c "010"%char || Ascii.eqb c "013"%char.

(** The loops [for si < len(src) && (src[si] == '\n' || src[si] == '\r')]. *)
Fixpoint skip_newlines (src : list ascii) : list ascii :=
  match src with
  | c :: rest => if is_newline c then skip_newlines rest else src
  | [] => []
  end.

(** [val := dbuf[0]<<18 | dbuf[1]<<12 | dbuf[2]<<6 | dbuf[3]], with the
    sextets that were not read left at zero. *)
Definition assemble (dbuf : list Z) : Z :=
  Z.lor (Z.lor (Z.lor (Z.shiftl (nth 0 dbuf 0) 18) (Z.shiftl (nth 1 dbuf 0) 12))
               (Z.shiftl (nth 2 dbuf 0) 6))
        (nth 3 dbuf 0).

(** The bytes a quantum of [dlen] sextets yields: [dlen - 1] of
    [byte(val>>16)], [byte(val>>8)], [byte(val)]. *)
Definition quantum_bytes (dbuf : list Z) : list ascii :=
  let val := assemble dbuf in
  take (Nat.pred (length dbuf))
       [byte_of_Z (Z.shiftr val 16); byte_of_Z (Z.shiftr val 8); byte_of_Z val].

(** [URLEncoding.DecodeString]: padded, not strict.  [dbuf] holds the sextets
    of the quantum being read.  Line breaks are skipped; the input must end
    on a quantum boundary; padding may only close the last quantum and may
    only be followed by line breaks.  Every [CorruptInputError] is [None]. *)
Fixpoint decode_from (src : list ascii) (dbuf : list Z) : option (list ascii) :=
  match src with
  | [] => match dbuf with [] => Some [] | _ => None end
  | c :: rest =>
      match decodeMap c with
      | Some out =>
          if (length dbuf =? 3)%nat
          then option_map (app (quantum_bytes (dbuf ++ [out]))) (decode_from rest [])
          else decode_from rest (dbuf ++ [out])
      | None =>
          if is_newline c then decode_from rest dbuf
          else if Ascii.eqb c padChar then
            match length dbuf with
            | 2%nat =>
                match skip_newlines rest with
                | c2 :: rest2 =>
                    if Ascii.eqb c2 padChar then
                      match skip_newlines rest2 with
                      | [] => Some (quantum_bytes dbuf)
                      | _ => None
                      end
                    else None
                | [] => None
                end
            | 3%nat =>
                match skip_newlines rest with
                | [] => Some (quantum_bytes dbuf)
                | _ => None
                end
            | _ => None
            end
          else None
      end
  end.

Definition DecodeString (s : string) : option string :=
  option_map string_of_list_ascii (decode_from (list_ascii_of_string s) []).

(** [RawURLEncoding.EncodeToString]: the same alphabet without padding. *)
Definition encode3 (a b c : ascii) : list ascii :=
  let val := Z.lor (Z.lor (Z.shiftl (Z_of_byte a) 16) (Z.shiftl (Z_of_byte b) 8))
                   (Z_of_byte c) in
  [encode_char (Z.land (Z.shiftr val 18) 63); encode_char (Z.land (Z.shiftr val 12) 63);
   encode_char (Z.land (Z.shiftr val 6) 63); encode_char (Z.land val 63)].

Fixpoint encode_raw (src : list ascii) : list ascii :=
  match src with
  | a :: b :: c :: rest => encode3 a b c ++ encode_raw rest
  | [a; b] => take 3 (encode3 a b "000"%char)
  | [a] => take 2 (encode3 a "000"%char "000"%char)
  | [] => []
  end.

Definition RawEncodeToString (s : string) : string :=
  string_of_list_ascii (encode_raw (list_ascii_of_string s)).

End Base64.

(** ** encoding/json: decoding into a struct of string and int64 fields *)

Module Json.

Inductive value : Type :=
| VNull
| VBool (b : bool)
| VNum (lit : list ascii)
| VStr (s : list ascii)
| VArr (elems : list value)
| VObj (members : list (list ascii * value)).

Definition is_space (c : ascii) : bool :=
  Ascii.eqb c " "%char || Ascii.eqb c "009"%char
  || Ascii.eqb c "010"%char || Ascii.eqb c "013"%char.

Fixpoint skip_space (s : list ascii) : list ascii :=
  match s with
  | c :: rest => if is_space c then skip_space rest else s
  | [] => []
  end.

Definition code (c : ascii) : Z := Z.of_N (N_of_ascii c).

Definition hex_digit (c : ascii) : option Z :=
  let n := code c in
  if (48 <=? n) && (n <=? 57) then Some (n - 48)
  else if (97 <=? n) && (n <=? 102) then Some (n - 87)
  else if (65 <=? n) && (n <=? 70) then Some (n - 55)
  else None.

Definition hex4 (a b c d : ascii) : option Z :=
  match hex_digit a, hex_digit b, hex_digit c, hex_digit d with
  | Some x, Some y, Some z, Some w => Some (((x * 16 + y) * 16 + z) * 16 + w)
  | _, _, _, _ => None
  end.

Definition chr (z : Z) : ascii := ascii_of_N (Z.to_N z).

(** [utf8.AppendRune]. *)
Definition utf8_encode (r : Z) : list ascii :=
  if r <? 128 then [chr r]
  else if r <? 2048 then [chr (192 + r / 64); chr (128 + r mod 64)]
  else if r <? 65536 then
    [chr (224 + r / 4096); chr (128 + (r / 64) mod 64); chr (128 + r mod 64)]
  else [chr (240 + r / 262144); chr (128 + (r / 4096) mod 64);
        chr (128 + (r / 64) mod 64); chr (128 + r mod 64)].

Definition replacement : Z := 65533.

Definition is_surrogate (r : Z) : bool := (55296 <=? r) && (r <? 57344).

(** A [\u] escape whose four digits gave [r], followed by [rest]: a high
    surrogate joins a low surrogate escape that follows it; a surrogate on
    its own becomes U+FFFD. *)
Definition unescape_u (r : Z) (rest : list ascii) : Z * bool :=
  if is_surrogate r then
    match rest with
    | bs :: u :: a :: b :: c :: d :: _ =>
        if Ascii.eqb bs "\"%char && Ascii.eqb u "u"%char then
          match hex4 a b c d with
          | Some r2 =>
              if (r <? 56320) && (56320 <=? r2) && (r2 <? 57344)
              then ((r - 55296) * 1024 + (r2 - 56320) + 65536, true)
              else (replacement, false)
          | None => (replacement, false)
          end
        else (replacement, false)
    | _ => (replacement, false)
    end
  else (r, false).

Definition simple_escape (c : ascii) : option ascii :=
  if Ascii.eqb c "034"%char then Some "034"%char
  else if Ascii.eqb c "\"%char then Some "\"%char
  else if Ascii.eqb c "/"%char then Some "/"%char
  else if Ascii.eqb c "b"%char then Some "008"%char
  else if Ascii.eqb c "f"%char then Some "012"%char
  else if Ascii.eqb c "n"%char then Some "010"%char
  else if Ascii.eqb c "r"%char then Some "013"%char
  else if Ascii.eqb c "t"%char then Some "009"%char
  else None.

Definition in_range (lo hi : Z) (c : ascii) : bool := (lo <=? code c) && (code c <=? hi).

(** [utf8.DecodeRune]: the number of bytes of the UTF-8 sequence that starts
    with [c], [0] when there is none. *)
Definition utf8_size (c : ascii) (rest : list ascii) : nat :=
  let cont := in_range 128 191 in
  if code c <? 128 then 1%nat
  else
    match rest with
    | b1 :: rest1 =>
        if in_range 194 223 c then (if cont b1 then 2%nat else 0%nat)
        else
          match rest1 with
          | b2 :: rest2 =>
              let second :=
                if code c =? 224 then in_range 160 191 b1
                else if code c =? 237 then in_range 128 159 b1
                else if code c =? 240 then in_range 144 191 b1
                else if code c =? 244 then in_range 128 143 b1
                else cont b1 in
              if in_range 224 239 c then (if second && cont b2 then 3%nat else 0%nat)
              else if in_range 240 244 c then
                match rest2 with
                | b3 :: _ => if second && cont b2 && cont b3 then 4%nat else 0%nat
                | [] => 0%nat
                end
              else 0%nat
          | [] => 0%nat
          end
    | [] => 0%nat
    end.

(** The characters of a string literal after its opening quote, unquoted, and
    what follows the closing quote.  A byte that starts no UTF-8 sequence
    becomes U+FFFD. *)
Fixpoint parse_string (s : list ascii) : option (list ascii * list ascii) :=
  match s with
  | [] => None
  | c :: rest =>
      if Ascii.eqb c "034"%char then Some ([], rest)
      else if Ascii.eqb c "\"%char then
        match rest with
        | e :: rest1 =>
            if Ascii.eqb e "u"%char then
              match rest1 with
              | a :: b :: c1 :: d :: rest2 =>
                  match hex4 a b c1 d with
                  | Some r =>
                      match unescape_u r rest2 with
                      | (r', true) =>
                          match rest2 with
                          | _ :: _ :: a2 :: b2 :: c2 :: d2 :: rest3 =>
                              match hex4 a2 b2 c2 d2, parse_string rest3 with
                              | Some _, Some (str, rest') => Some (utf8_encode r' ++ str, rest')
                              | _, _ => None
                              end
                          | _ => None
                          end
                      | (r', false) =>
                          match parse_string rest2 with
                          | Some (str, rest') => Some (utf8_encode r' ++ str, rest')
                          | None => None
                          end
                      end
                  | None => None
                  end
              | _ => None
              end
            else
              match simple_escape e, parse_string rest1 with
              | Some x, Some (str, rest') => Some (x :: str, rest')
              | _, _ => None
              end
        | [] => None
        end
      else if code c <? 32 then None
      else
        match utf8_size c rest, rest with
        | 1%nat, _ =>
            match parse_string rest with
            | Some (str, rest') => Some (c :: str, rest')
            | None => None
            end
        | 2%nat, b1 :: r =>
            match parse_string r with
            | Some (str, rest') => Some (c :: b1 :: str, rest')
            | None => None
            end
        | 3%nat, b1 :: b2 :: r =>
            match parse_string r with
            | Some (str, rest') => Some (c :: b1 :: b2 :: str, rest')
            | None => None
            end
        | 4%nat, b1 :: b2 :: b3 :: r =>
            match parse_string r with
            | Some (str, rest') => Some (c :: b1 :: b2 :: b3 :: str, rest')
            | None => None
            end
        | _, _ =>
            match parse_string rest with
            | Some (str, rest') => Some (utf8_encode replacement ++ str, rest')
            | None => None
            end
        end
  end.

Definition is_digit (c : ascii) : bool := (48 <=? code c) && (code c <=? 57).

Fixpoint span_digits (s : list ascii) : list ascii * list ascii :=
  match s with
  | c :: rest =>
      if is_digit c then let (ds, r) := span_digits rest in (c :: ds, r) else ([], s)
  | [] => ([], [])
  end.

(** A number literal: [-]? int frac? exp?. *)
Definition parse_number (s : list ascii) : option (list ascii * list ascii) :=
  let (sign, s1) := match s with
                    | c :: r => if Ascii.eqb c "-"%char then ([c], r) else ([], s)
                    | [] => ([], s)
                    end in
  let (int, s2) := span_digits s1 in
  match int with
  | [] => None
  | d :: ds =>
      if Ascii.eqb d "0"%char && negb (length ds =? 0)%nat then
        (* a leading zero ends the integer part *)
        Some (sign ++ [d], ds ++ s2)
      else
        let (frac, s3) :=
          match s2 with
          | c :: r =>
              if Ascii.eqb c "."%char then
                let (fs, r') := span_digits r in (Some (c :: fs), r')
              else (Some [], s2)
          | [] => (Some [], s2)
          end in
        match frac with
        | Some [_] => None
        | Some fr =>
            match s3 with
            | e :: r =>
                if Ascii.eqb e "e"%char || Ascii.eqb e "E"%char then
                  let (esign, r1) :=
                    match r with
                    | c :: r' =>
                        if Ascii.eqb c "+"%char || Ascii.eqb c "-"%char
                        then ([c], r') else ([], r)
                    | [] => ([], r)
                    end in
                  let (es, r2) := span_digits r1 in
                  match es with
                  | [] => None
                  | _ => Some (sign ++ int ++ fr ++ [e] ++ esign ++ es, r2)
                  end
                else Some (sign ++ int ++ fr, s3)
            | [] => Some (sign ++ int ++ fr, s3)
            end
        | None => None
        end
  end.

Definition strip_prefix (p : string) (s : list ascii) : option (list ascii) :=
  let l := list_ascii_of_string p in
  if decide (take (length l) s = l) then Some (drop (length l) s) else None.

(** [maxNestingDepth]: objects and arrays nest this deep at most. *)
Definition maxNestingDepth : Z := 10000.

(** One JSON value and the input after it, [depth] objects and arrays deep.
    [fuel] bounds the number of nested calls; the length of the input is
    always enough. *)
Fixpoint parse_value (fuel : nat) (depth : Z) (s : list ascii) : option (value * list ascii) :=
  match fuel with
  | O => None
  | S f =>
      match skip_space s with
      | [] => None
      | c :: rest =>
          if Ascii.eqb c "034"%char then
            match parse_string rest with
            | Some (str, r) => Some (VStr str, r)
            | None => None
            end
          else if Ascii.eqb c "{"%char then
            match skip_space rest with
            | c' :: r =>
                if maxNestingDepth <=? depth then None
                else if Ascii.eqb c' "}"%char then Some (VObj [], r)
                else match parse_members f (depth + 1) rest with
                     | Some (ms, r') => Some (VObj ms, r')
                     | None => None
                     end
            | [] => None
            end
          else if Ascii.eqb c "["%char then
            match skip_space rest with
            | c' :: r =>
                if maxNestingDepth <=? depth then None
                else if Ascii.eqb c' "]"%char then Some (VArr [], r)
                else match parse_elems f (depth + 1) rest with
                     | Some (vs, r') => Some (VArr vs, r')
                     | None => None
                     end
            | [] => None
            end
          else if Ascii.eqb c "t"%char then
            option_map (pair (VBool true)) (strip_prefix "rue" rest)
          else if Ascii.eqb c "f"%char then
            option_map (pair (VBool false)) (strip_prefix "alse" rest)
          else if Ascii.eqb c "n"%char then
            option_map (pair VNull) (strip_prefix "ull" rest)
          else
            match parse_number (c :: rest) with
            | Some (lit, r) => Some (VNum lit, r)
            | None => None
            end
      end
  end
with parse_members (fuel : nat) (depth : Z) (s : list ascii)
  : option (list (list ascii * value) * list ascii) :=
  match fuel with
  | O => None
  | S f =>
      match skip_space s with
      | q :: rest =>
          if Ascii.eqb q "034"%char then
            match parse_string rest with
            | Some (key, r) =>
                match skip_space r with
                | colon :: r1 =>
                    if Ascii.eqb colon ":"%char then
                      match parse_value f depth r1 with
                      | Some (v, r2) =>
                          match skip_space r2 with
                          | d :: r3 =>
                              if Ascii.eqb d ","%char then
                                match parse_members f depth r3 with
                                | Some (ms, r4) => Some ((key, v) :: ms, r4)
                                | None => None
                                end
                              else if Ascii.eqb d "}"%char then Some ([(key, v)], r3)
                              else None
                          | [] => None
                          end
                      | None => None
                      end
                    else None
                | [] => None
                end
            | None => None
            end
          else None
      | [] => None
      end
  end
with parse_elems (fuel : nat) (depth : Z) (s : list ascii)
  : option (list value * list ascii) :=
  match fuel with
  | O => None
  | S f =>
      match parse_value f depth s with
      | Some (v, r) =>
          match skip_space r with
          | d :: r1 =>
              if Ascii.eqb d ","%char then
                match parse_elems f depth r1 with
                | Some (vs, r2) => Some (v :: vs, r2)
                | None => None
                end
              else if Ascii.eqb d "]"%char then Some ([v], r1)
              else None
          | [] => None
          end
      | None => None
      end
  end.

(** The whole input is one value between optional space ([checkValid]). *)
Definition parse (data : string) : option value :=
  let s := list_ascii_of_string data in
  match parse_value (S (length s)) 0 s with
  | Some (v, rest) => match skip_space rest with [] => Some v | _ => None end
  | None => None
  end.

(** Field names match keys without regard to case; the two letters outside
    ASCII that fold to ASCII letters are U+017F (to s) and U+212A (to k). *)
Fixpoint fold_key (k : list ascii) : list ascii :=
  match k with
  | [] => []
  | c :: rest =>
      if (65 <=? code c) && (code c <=? 90) then chr (code c + 32) :: fold_key rest
      else
        match rest with
        | c1 :: rest1 =>
            if (code c =? 197) && (code c1 =? 191) then "s"%char :: fold_key rest1
            else
              match rest1 with
              | c2 :: rest2 =>
                  if (code c =? 226) && (code c1 =? 132) && (code c2 =? 170)
                  then "k"%char :: fold_key rest2
                  else c :: fold_key rest
              | [] => c :: fold_key rest
              end
        | [] => c :: fold_key rest
        end
  end.

Inductive kind : Type := KString | KInt64.

Inductive fval : Type := FStr (s : string) | FInt (z : Z).

Fixpoint digits_value (ds : list ascii) (acc : Z) : option Z :=
  match ds with
  | [] => Some acc
  | d :: rest => if is_digit d then digits_value rest (acc * 10 + (code d - 48)) else None
  end.

(** [strconv.ParseInt(lit, 10, 64)] on a number literal. *)
Definition parse_int64 (lit : list ascii) : option Z :=
  let r := match lit with
           | c :: ds =>
               if Ascii.eqb c "-"%char then option_map Z.opp (digits_value ds 0)
               else digits_value lit 0
           | [] => None
           end in
  match r with
  | Some z => if (- 2 ^ 63 <=? z) && (z <? 2 ^ 63) then Some z else None
  | None => None
  end.

(** What a member's value does to a field: [None] is an
    [UnmarshalTypeError], [Some None] leaves the field as it is (null). *)
Definition convert (k : kind) (v : value) : option (option fval) :=
  match k, v with
  | _, VNull => Some None
  | KString, VStr s => Some (Some (FStr (string_of_list_ascii s)))
  | KInt64, VNum lit => option_map (fun z => Some (FInt z)) (parse_int64 lit)
  | _, _ => None
  end.

Definition schema := list (string * kind).

Fixpoint find_field (sch : schema) (key : list ascii) : option (string * kind) :=
  match sch with
  | [] => None
  | (name, k) :: rest =>
      if decide (fold_key key = list_ascii_of_string name) then Some (name, k)
      else find_field rest key
  end.

(** The members of the object in order: a later member for the same field
    overwrites an earlier one; members that name no field are skipped. *)
Fixpoint fill (sch : schema) (ms : list (list ascii * value)) (acc : gmap string fval)
  : option (gmap string fval) :=
  match ms with
  | [] => Some acc
  | (key, v) :: rest =>
      match find_field sch key with
      | Some (name, k) =>
          match convert k v with
          | Some (Some x) => fill sch rest (<[name := x]> acc)
          | Some None => fill sch rest acc
          | None => None
          end
      | None => fill sch rest acc
      end
  end.

(** [json.Unmarshal(data, &s)] for a struct [s] with the fields of [sch],
    all zero before the call: the fields that were set. *)
Definition Unmarshal (sch : schema) (data : string) : option (gmap string fval) :=
  match parse data with
  | Some VNull => Some ∅
  | Some (VObj ms) => fill sch ms ∅
  | _ => None
  end.

Definition get_string (m : gmap string fval) (name : string) : string :=
  match m !! name with Some (FStr s) => s | _ => "" end.

Definition get_int (m : gmap string fval) (name : string) : Z :=
  match m !! name with Some (FInt z) => z | _ => 0 end.

End Json.

(** ** Errors

    An [error] is the value [fmt.Errorf] builds: a message, possibly
    wrapping another error with [%w]; errors returned by the standard
    library or the transport are opaque. *)

Inductive error : Type :=
| Errorf (msg : string)
| Wrapf (msg : string) (inner : error)
| LibError (origin : string).

(** ** Package jwt *)

Module jwt.

(** [JWTClaims]: the JWT payload structure. *)
Record JWTClaims : Type := mkClaims {
  Sub : string;
  Iss : string;
  PreferredUsername : string;
  Email : string;
  Name : string;
  GivenName : string;
  FamilyName : string;
  Exp : Z;
  Iat : Z
}.

Definition claims_schema : Json.schema :=
  [("sub", Json.KString); ("iss", Json.KString);
   ("preferred_username", Json.KString); ("email", Json.KString);
   ("name", Json.KString); ("given_name", Json.KString);
   ("family_name", Json.KString); ("exp", Json.KInt64); ("iat", Json.KInt64)].

(** [json.Unmarshal(decoded, &claims)]. *)
Definition unmarshal_claims (decoded : string) : option JWTClaims :=
  match Json.Unmarshal claims_schema decoded with
  | Some m =>
      Some {| Sub := Json.get_string m "sub";
              Iss := Json.get_string m "iss";
              PreferredUsername := Json.get_string m "preferred_username";
              Email := Json.get_string m "email";
              Name := Json.get_string m "name";
              GivenName := Json.get_string m "given_name";
              FamilyName := Json.get_string m "family_name";
              Exp := Json.get_int m "exp";
              Iat := Json.get_int m "iat" |}
  | None => None
  end.

(** [for len(payload)%4 != 0 { payload += "=" }]; three rounds always reach
    a multiple of four. *)
Fixpoint pad_loop (rounds : nat) (payload : string) : string :=
  match rounds with
  | O => payload
  | S n =>
      if (String.length payload mod 4 =? 0)%nat then payload
      else pad_loop n (payload +:+ "=")
  end.

Definition add_padding (payload : string) : string := pad_loop 3 payload.

(** [DecodeJWT] decodes a JWT token and extracts claims. *)
Definition DecodeJWT (token : string) : result error JWTClaims :=
  let parts := GoStrings.Split token "." in
  if negb (length parts =? 3)%nat then Err (Errorf "invalid JWT token format")
  else
    let payload := add_padding (nth 1 parts "") in
    match Base64.DecodeString payload with
    | None => Err (Wrapf "failed to decode JWT payload" (LibError "base64"))
    | Some decoded =>
        match unmarshal_claims decoded with
        | None => Err (Wrapf "failed to parse JWT claims" (LibError "json"))
        | Some claims => Ok claims
        end
    end.

(** [ExtractTenantID]: the realm name at the end of the issuer URL. *)
Definition ExtractTenantID (token : string) : result error string :=
  match DecodeJWT token with
  | Err e => Err e
  | Ok claims =>
      let parts := GoStrings.Split (Iss claims) "/" in
      if (length parts <? 2)%nat then Err (Errorf "invalid issuer format in JWT")
      else
        let realm := nth (length parts - 1) parts "" in
        if String.eqb realm "" then Err (Errorf "could not extract realm from JWT issuer")
        else Ok realm
  end.

(** [ExtractClientID]: the subject claim. *)
Definition ExtractClientID (token : string) : result error string :=
  match DecodeJWT token with
  | Err e => Err e
  | Ok claims =>
      if String.eqb (Sub claims) "" then Err (Errorf "no subject (sub) found in JWT token")
      else Ok (Sub claims)
  end.

(** Instants are counted in nanoseconds since the Unix epoch. *)
Definition second : Z := 1000000000.
Definition Unix (sec : Z) : Z := sec * second.

(** [IsTokenExpired], at the instant [now] that [time.Now()] returns: the
    pair [(bool, error)], where [None] is a nil error. *)
Definition IsTokenExpired (now : Z) (token : string) : bool * option error :=
  match DecodeJWT token with
  | Err e => (true, Some e)
  | Ok claims =>
      let expiryTime := Unix (Exp claims) in
      (expiryTime <? now + 30 * second, None)
  end.

End jwt.

(** ** The world a command runs in

    The configuration file on disk, the HTTP requests that were sent, and the
    text printed so far.  The remote services and the clock belong to the
    environment. *)

(** [Config] and [AuthConfig] of package config. *)
Record AuthConfig : Type := mkAuthConfig {
  ServerURL : string;
  Realm : string;
  ClientID : string;
  ClientSecret : string;
  Username : string;
  Password : string
}.

Record Config : Type := mkConfig {
  Server : string;
  JWTToken : string;
  Auth : option AuthConfig
}.

(** What [~/.digit/config.yaml] is to [Load]. *)
Inductive config_file : Type :=
| NoHome                 (* os.UserHomeDir fails *)
| NoFile                 (* the file does not exist *)
| Unreadable             (* os.ReadFile fails *)
| BadYaml                (* yaml.Unmarshal fails *)
| File (c : Config).

Inductive body : Type :=
| Raw (text : string)
| Form (fields : gmap string string).

Record request : Type := mkRequest {
  req_method : string;
  req_url : string;
  req_headers : list (string * string);
  req_body : body
}.

(** The library function that sent a request. *)
Inductive event : Type :=
| TokenRequest (r : request)
| ProcessCall (r : request)
| StateCall (code : string) (r : request)
| ActionCall (name : string) (r : request).

Record world : Type := mkWorld {
  disk : config_file;
  save_error : option error;     (* what [Save] fails with, if it fails *)
  trace : list event;
  stdout : list string
}.

(** What sending a request comes to. *)
Inductive outcome : Type :=
| SendError                                   (* client.Do fails *)
| ReadError (status : Z)                      (* io.ReadAll fails *)
| Response (status : Z) (text : string).

(** The environment: whether [http.NewRequest] accepts a URL, and what the
    remote side answers to a request, given the requests sent before it. *)
Record network : Type := mkNetwork {
  url_ok : string → bool;
  answer : list event → request → outcome
}.

(** Commands: state passing over [world], with Go's error results. *)
Definition M (A : Type) : Type := world → result error A * world.

#[global] Instance M_ret : MRet M := λ A a w, (Ok a, w).
#[global] Instance M_bind : MBind M := λ A B f m w,
  match m w with
  | (Ok a, w') => f a w'
  | (Err e, w') => (Err e, w')
  end.

Definition fail {A} (e : error) : M A := λ w, (Err e, w).

(** [if err != nil { return fmt.Errorf("msg: %w", err) }] *)
Definition wrap {A} (msg : string) (m : M A) : M A := λ w,
  match m w with
  | (Err e, w') => (Err (Wrapf msg e), w')
  | r => r
  end.

Definition lift {A} (r : result error A) : M A := λ w, (r, w).

Definition print (text : string) : M unit := λ w,
  (Ok (), mkWorld (disk w) (save_error w) (trace w) (stdout w ++ [text])).

Definition record_event (ev : event) : M unit := λ w,
  (Ok (), mkWorld (disk w) (save_error w) (trace w ++ [ev]) (stdout w)).

Definition get_trace : M (list event) := λ w, (Ok (trace w), w).

(** ** Text building blocks for [fmt.Sprintf] *)

Definition nl : string := String "010"%char "".
Definition dq : string := String "034"%char "".

(** [%s] between double quotes, [%t] and [%d]. *)
Definition quoted (s : string) : string := dq +:+ s +:+ dq.
Definition fmt_bool (b : bool) : string := if b then "true" else "false".
Definition fmt_int (z : Z) : string := pretty z.

Fixpoint concat_lines (lines : list string) : string :=
  match lines with
  | [] => ""
  | [l] => l
  | l :: rest => l +:+ nl +:+ concat_lines rest
  end.

(** ** Package config *)

Module config.

Definition empty_config : Config := mkConfig "" "" None.

(** [Load] reads the configuration from the config file. *)
Definition Load : M Config := λ w,
  match disk w with
  | NoHome => (Err (Wrapf "failed to get user home directory" (LibError "os")), w)
  | NoFile => (Ok empty_config, w)
  | Unreadable => (Err (Wrapf "failed to read config file" (LibError "os")), w)
  | BadYaml => (Err (Wrapf "failed to parse config file" (LibError "yaml")), w)
  | File c => (Ok c, w)
  end.

(** [Save] writes the configuration to the config file. *)
Definition Save (c : Config) : M unit := λ w,
  match disk w with
  | NoHome => (Err (Wrapf "failed to get user home directory" (LibError "os")), w)
  | _ =>
      match save_error w with
      | Some e => (Err e, w)
      | None => (Ok (), mkWorld (File c) (save_error w) (trace w) (stdout w))
      end
  end.

Definition SetJWTToken (token : string) : M unit :=
  c ← Load; Save (mkConfig (Server c) token (Auth c)).

Definition GetJWTToken : M string :=
  c ← Load; mret (JWTToken c).

Definition GetAuthConfig : M (option AuthConfig) :=
  c ← Load; mret (Auth c).

End config.

(** Sending [r]: the request joins the trace and the remote side answers,
    knowing the requests before it. *)
Definition send (net : network) (sender : request → event) (r : request) : M outcome :=
  λ w, (Ok (answer net (trace w) r),
        mkWorld (disk w) (save_error w) (trace w ++ [sender r]) (stdout w)).

(** ** Package digit: the token endpoint *)

Module digit_auth.

(** [TokenResponse]: the response from the Keycloak token endpoint. *)
Definition token_schema : Json.schema :=
  [("access_token", Json.KString); ("expires_in", Json.KInt64);
   ("refresh_expires_in", Json.KInt64); ("refresh_token", Json.KString);
   ("token_type", Json.KString); ("not-before-policy", Json.KInt64);
   ("session_state", Json.KString); ("scope", Json.KString)].

Definition formData (clientID clientSecret username password : string)
  : gmap string string :=
  <["grant_type" := "password"]>
  (<["client_id" := clientID]>
  (<["client_secret" := clientSecret]>
  (<["username" := username]>
  (<["password" := password]> ∅)))).

Definition token_url (server realm : string) : string :=
  server +:+ "/keycloak/realms/" +:+ realm +:+ "/protocol/openid-connect/token".

Definition token_request (server realm clientID clientSecret username password : string)
  : request :=
  mkRequest "POST" (token_url server realm)
    [("Content-Type", "application/x-www-form-urlencoded")]
    (Form (formData clientID clientSecret username password)).

(** [GetJWTToken] retrieves a JWT token from Keycloak using username and
    password with client secret. *)
Definition GetJWTToken (net : network)
    (server realm clientID clientSecret username password : string) : M string :=
  if String.eqb server "" then fail (Errorf "server cannot be empty")
  else if String.eqb realm "" then fail (Errorf "realm cannot be empty")
  else if String.eqb clientID "" then fail (Errorf "clientID cannot be empty")
  else if String.eqb clientSecret "" then fail (Errorf "clientSecret cannot be empty")
  else if String.eqb username "" then fail (Errorf "username cannot be empty")
  else if String.eqb password "" then fail (Errorf "password cannot be empty")
  else
    let r := token_request server realm clientID clientSecret username password in
    if negb (url_ok net (req_url r))
    then fail (Wrapf "failed to make token request" (LibError "resty"))
    else
      resp ← send net TokenRequest r;
      match resp with
      | SendError | ReadError _ =>
          fail (Wrapf "failed to make token request" (LibError "resty"))
      | Response status text =>
          if negb (status =? 200) then fail (Errorf ("failed to get token: " +:+ text))
          else
            match Json.Unmarshal token_schema text with
            | None => fail (Wrapf "failed to parse token response" (LibError "json"))
            | Some tokenResp => mret (Json.get_string tokenResp "access_token")
            end
      end.

End digit_auth.

(** ** Package auth *)

Module auth.

(** [RefreshToken] gets a new JWT token using stored authentication
    credentials. *)
Definition RefreshToken (net : network) : M string :=
  authConfig ← wrap "failed to get auth config" config.GetAuthConfig;
  match authConfig with
  | None =>
      fail (Errorf
        "no authentication configuration found. Please run 'digit config set' to authenticate")
  | Some a =>
      newToken ← wrap "failed to authenticate with Keycloak"
        (digit_auth.GetJWTToken net (ServerURL a) (Realm a) (ClientID a)
           (ClientSecret a) (Username a) (Password a));
      _ ← wrap "failed to store new token" (config.SetJWTToken newToken);
      mret newToken
  end.

(** [GetValidJWTToken] returns a valid JWT token, refreshing if necessary. *)
Definition GetValidJWTToken (net : network) (now : Z) : M string :=
  token ← wrap "failed to get JWT token" config.GetJWTToken;
  if String.eqb token "" then
    fail (Errorf "no JWT token found. Please run 'digit config set' to authenticate")
  else
    match jwt.IsTokenExpired now token with
    | (_, Some err) => fail (Wrapf "failed to validate token" err)
    | (false, None) => mret token
    | (true, None) =>
        _ ← print ("JWT token expired, refreshing..." +:+ nl);
        newToken ← wrap "failed to refresh token" (RefreshToken net);
        _ ← print ("✓ Token refreshed successfully!" +:+ nl);
        mret newToken
    end.

(** [GetAuthorizationHeader]: the Authorization header value with a valid
    JWT token. *)
Definition GetAuthorizationHeader (net : network) (now : Z) : M string :=
  token ← GetValidJWTToken net now;
  mret ("Bearer " +:+ token).

End auth.

(** ** Package digit: the workflow service *)

Module digit_workflow.

Definition json_headers (jwtToken tenantID : string) : list (string * string) :=
  [("Content-Type", "application/json");
   ("Authorization", "Bearer " +:+ jwtToken);
   ("X-Tenant-ID", tenantID)].

(** [resp.StatusCode < 200 || resp.StatusCode >= 300] *)
Definition status_failed (status : Z) : bool := (status <? 200) || (300 <=? status).

(** The part the three creation functions share: build the request, send it,
    read the body, check the status. *)
Definition post (net : network) (sender : request → event)
    (url text jwtToken tenantID : string) : M string :=
  if negb (url_ok net url) then fail (Wrapf "failed to create request" (LibError "http"))
  else
    resp ← send net sender (mkRequest "POST" url (json_headers jwtToken tenantID) (Raw text));
    match resp with
    | SendError => fail (Wrapf "failed to send request" (LibError "http"))
    | ReadError _ => fail (Wrapf "failed to read response" (LibError "io"))
    | Response status text' =>
        if status_failed status then
          fail (Errorf ("API request failed with status " +:+ fmt_int status
                        +:+ ": " +:+ text'))
        else mret text'
    end.

Definition process_url (serverURL : string) : string :=
  GoStrings.TrimSuffixSlash serverURL +:+ "/workflow/v1/process".

Definition process_body (name code description version : string) (sla : Z) : string :=
  concat_lines
    ["{";
     "  " +:+ quoted "name" +:+ ": " +:+ quoted name +:+ ",";
     "  " +:+ quoted "code" +:+ ": " +:+ quoted code +:+ ",";
     "  " +:+ quoted "description" +:+ ": " +:+ quoted description +:+ ",";
     "  " +:+ quoted "version" +:+ ": " +:+ quoted version +:+ ",";
     "  " +:+ quoted "sla" +:+ ": " +:+ fmt_int sla;
     "}"].

(** [CreateProcess] creates a new workflow process. *)
Definition CreateProcess (net : network)
    (serverURL jwtToken tenantID name code description version : string) (sla : Z)
  : M string :=
  if String.eqb serverURL "" then fail (Errorf "server URL is required")
  else if String.eqb tenantID "" then fail (Errorf "tenant ID is required")
  else post net ProcessCall (process_url serverURL)
         (process_body name code description version sla) jwtToken tenantID.

Definition state_url (serverURL processID : string) : string :=
  GoStrings.TrimSuffixSlash serverURL +:+ "/workflow/v1/process/" +:+ processID +:+ "/state".

Definition state_body (code name : string) (isInitial isParallel isJoin : bool) (sla : Z)
  : string :=
  concat_lines
    ["{";
     "  " +:+ quoted "code" +:+ ": " +:+ quoted code +:+ ",";
     "  " +:+ quoted "name" +:+ ": " +:+ quoted name +:+ ",";
     "  " +:+ quoted "isInitial" +:+ ": " +:+ fmt_bool isInitial +:+ ",";
     "  " +:+ quoted "isParallel" +:+ ": " +:+ fmt_bool isParallel +:+ ",";
     "  " +:+ quoted "isJoin" +:+ ": " +:+ fmt_bool isJoin +:+ ",";
     "  " +:+ quoted "sla" +:+ ": " +:+ fmt_int sla;
     "}"].

(** [CreateState] creates a new state for a workflow process. *)
Definition CreateState (net : network)
    (serverURL jwtToken tenantID processID code name : string)
    (isInitial isParallel isJoin : bool) (sla : Z) : M string :=
  if String.eqb serverURL "" then fail (Errorf "server URL is required")
  else if String.eqb tenantID "" then fail (Errorf "tenant ID is required")
  else if String.eqb processID "" then fail (Errorf "process ID is required")
  else post net (StateCall code) (state_url serverURL processID)
         (state_body code name isInitial isParallel isJoin sla) jwtToken tenantID.

Definition action_url (serverURL stateID : string) : string :=
  GoStrings.TrimSuffixSlash serverURL +:+ "/workflow/v1/state/" +:+ stateID +:+ "/action".

(** The loop that writes the roles as a JSON array. *)
Fixpoint roles_items (i : nat) (roles : list string) : string :=
  match roles with
  | [] => ""
  | role :: rest =>
      (if (0 <? i)%nat then ", " else "") +:+ quoted role +:+ roles_items (S i) rest
  end.

Definition rolesJSON (roles : list string) : string := "[" +:+ roles_items 0 roles +:+ "]".

Definition action_body (name nextState : string) (roles : list string)
    (assigneeCheck : bool) : string :=
  concat_lines
    ["{";
     "  " +:+ quoted "name" +:+ ": " +:+ quoted name +:+ ",";
     "  " +:+ quoted "nextState" +:+ ": " +:+ quoted nextState +:+ ",";
     "  " +:+ quoted "attributeValidation" +:+ ": {";
     "    " +:+ quoted "attributes" +:+ ": {";
     "      " +:+ quoted "roles" +:+ ": " +:+ rolesJSON roles;
     "    },";
     "    " +:+ quoted "assigneeCheck" +:+ ": " +:+ fmt_bool assigneeCheck;
     "  }";
     "}"].

(** [CreateAction] creates a new action for workflow states. *)
Definition CreateAction (net : network)
    (serverURL jwtToken tenantID stateID name nextState : string)
    (roles : list string) (assigneeCheck : bool) : M string :=
  if String.eqb serverURL "" then fail (Errorf "server URL is required")
  else if String.eqb tenantID "" then fail (Errorf "tenant ID is required")
  else if String.eqb stateID "" then fail (Errorf "state ID is required")
  else post net (ActionCall name) (action_url serverURL stateID)
         (action_body name nextState roles assigneeCheck) jwtToken tenantID.

End digit_workflow.

(** ** The create-workflow command *)

Module cmd.

(** [WorkflowDefinition]: the YAML structure for a workflow definition. *)
Record ProcessDef : Type := mkProcessDef {
  p_Name : string;
  p_Code : string;
  p_Description : string;
  p_Version : string;
  p_SLA : Z
}.

Record StateDef : Type := mkStateDef {
  s_Code : string;
  s_Name : string;
  s_IsInitial : bool;
  s_IsParallel : bool;
  s_IsJoin : bool;
  s_SLA : Z
}.

Record ActionDef : Type := mkActionDef {
  a_Name : string;
  a_CurrentState : string;
  a_NextState : string;
  a_Roles : list string;
  a_AttributeRoles : list string;      (* attributeValidation.attributes.roles *)
  a_AssigneeCheck : bool               (* attributeValidation.assigneeCheck *)
}.

Record WorkflowDefinition : Type := mkWorkflow {
  Process : ProcessDef;
  States : list StateDef;
  Actions : list ActionDef
}.

(** [2^1024 - 2^970]: from here on a decimal rounds to an infinite float64. *)
Definition float64_limit : Z := 2 ^ 1024 - 2 ^ 970.

Fixpoint digits_Z (ds : list ascii) (acc : Z) : Z :=
  match ds with
  | [] => acc
  | d :: rest => digits_Z rest (acc * 10 + (Json.code d - 48))
  end.

(** [strconv.ParseFloat(lit, 64)] reports a range error on a number
    literal. *)
Definition float64_overflow (lit : list ascii) : bool :=
  let unsigned := match lit with
                  | c :: r => if Ascii.eqb c "-"%char then r else lit
                  | [] => lit
                  end in
  let (int, r1) := Json.span_digits unsigned in
  let (frac, r2) := match r1 with
                    | c :: r => if Ascii.eqb c "."%char then Json.span_digits r else ([], r1)
                    | [] => ([], r1)
                    end in
  let exp := match r2 with
             | _ :: c :: r =>
                 if Ascii.eqb c "-"%char then - digits_Z r 0
                 else if Ascii.eqb c "+"%char then digits_Z r 0
                 else digits_Z (c :: r) 0
             | _ => 0
             end in
  let mant := digits_Z (int ++ frac) 0 in
  let e10 := exp - Z.of_nat (length frac) in
  if 0 <=? e10 then float64_limit <=? mant * 10 ^ e10
  else float64_limit * 10 ^ (- e10) <=? mant.

(** No number of the value is out of the range of float64. *)
Fixpoint numbers_fit (v : Json.value) : bool :=
  match v with
  | Json.VNum lit => negb (float64_overflow lit)
  | Json.VArr vs => forallb numbers_fit vs
  | Json.VObj ms => forallb (λ m, numbers_fit (snd m)) ms
  | _ => true
  end.

(** [json.Unmarshal([]byte(text), &result)] for a
    [map[string]interface{}]: the members of the object, none for null. *)
Definition unmarshal_map (text : string) : option (list (list ascii * Json.value)) :=
  match Json.parse text with
  | Some Json.VNull => Some []
  | Some (Json.VObj ms) => if numbers_fit (Json.VObj ms) then Some ms else None
  | _ => None
  end.

(** [result[key]]: the last member with that key. *)
Fixpoint map_index (ms : list (list ascii * Json.value)) (key : string)
  : option Json.value :=
  match ms with
  | [] => None
  | (k, v) :: rest =>
      match map_index rest key with
      | Some v' => Some v'
      | None => if decide (k = list_ascii_of_string key) then Some v else None
      end
  end.

(** [result["id"].(string)] *)
Definition id_string (ms : list (list ascii * Json.value)) : option string :=
  match map_index ms "id" with
  | Some (Json.VStr s) => Some (string_of_list_ascii s)
  | _ => None
  end.

(** Step 2: the loop over the states; [stateCodeToID] maps state codes to
    their IDs. *)
Fixpoint create_states (net : network) (serverURL jwtToken tenantID processID : string)
    (states : list StateDef) (stateCodeToID : gmap string string)
  : M (gmap string string) :=
  match states with
  | [] => mret stateCodeToID
  | state :: rest =>
      stateResponse ← wrap ("failed to create state " +:+ s_Code state)
        (digit_workflow.CreateState net serverURL jwtToken tenantID processID
           (s_Code state) (s_Name state) (s_IsInitial state) (s_IsParallel state)
           (s_IsJoin state) (s_SLA state));
      match unmarshal_map stateResponse with
      | None =>
          fail (Wrapf ("failed to parse state response for " +:+ s_Code state)
                  (LibError "json"))
      | Some stateResult =>
          match id_string stateResult with
          | None =>
              fail (Errorf ("failed to extract state ID from response for "
                            +:+ s_Code state))
          | Some stateID =>
              _ ← print ("✓ State created: " +:+ s_Name state +:+ " (" +:+ s_Code state
                         +:+ ") - ID: " +:+ stateID +:+ nl);
              create_states net serverURL jwtToken tenantID processID rest
                (<[s_Code state := stateID]> stateCodeToID)
          end
      end
  end.

(** Step 3: the loop over the actions. *)
Fixpoint create_actions (net : network) (serverURL jwtToken tenantID : string)
    (actions : list ActionDef) (stateCodeToID : gmap string string) : M unit :=
  match actions with
  | [] => mret ()
  | action :: rest =>
      match stateCodeToID !! a_CurrentState action with
      | None =>
          fail (Errorf ("state ID not found for current state: " +:+ a_CurrentState action))
      | Some currentStateID =>
          match stateCodeToID !! a_NextState action with
          | None =>
              fail (Errorf ("state ID not found for next state: " +:+ a_NextState action))
          | Some nextStateID =>
              _ ← wrap ("failed to create action " +:+ a_Name action)
                (digit_workflow.CreateAction net serverURL jwtToken tenantID
                   currentStateID (a_Name action) nextStateID
                   (a_AttributeRoles action) (a_AssigneeCheck action));
              _ ← print ("✓ Action created: " +:+ a_Name action +:+ " ("
                         +:+ a_CurrentState action +:+ " → " +:+ a_NextState action
                         +:+ ") using state ID: " +:+ currentStateID +:+ nl);
              create_actions net serverURL jwtToken tenantID rest stateCodeToID
          end
      end
  end.

(** [createWorkflowCmd.RunE] from the parsed definition on: steps 1 to 3 and
    the summary. *)
Definition createWorkflow (net : network) (serverURL jwtToken tenantID : string)
    (workflowDef : WorkflowDefinition) : M unit :=
  _ ← print ("Creating workflow process..." +:+ nl);
  processResponse ← wrap "failed to create process"
    (digit_workflow.CreateProcess net serverURL jwtToken tenantID
       (p_Name (Process workflowDef)) (p_Code (Process workflowDef))
       (p_Description (Process workflowDef)) (p_Version (Process workflowDef))
       (p_SLA (Process workflowDef)));
  match unmarshal_map processResponse with
  | None => fail (Wrapf "failed to parse process response" (LibError "json"))
  | Some processResult =>
      match id_string processResult with
      | None => fail (Errorf "failed to extract process ID from response")
      | Some processID =>
          _ ← print ("✓ Process created with ID: " +:+ processID +:+ nl);
          _ ← print ("Creating workflow states..." +:+ nl);
          stateCodeToID ← create_states net serverURL jwtToken tenantID processID
                            (States workflowDef) ∅;
          _ ← print ("Creating workflow actions..." +:+ nl);
          _ ← create_actions net serverURL jwtToken tenantID
                (Actions workflowDef) stateCodeToID;
          _ ← print (nl +:+ "🎉 Workflow created successfully!" +:+ nl);
          _ ← print ("Process ID: " +:+ processID +:+ nl);
          _ ← print ("States: " +:+ pretty (length (States workflowDef)) +:+ nl);
          _ ← print ("Actions: " +:+ pretty (length (Actions workflowDef)) +:+ nl);
          mret ()
      end
  end.

End cmd.

(** * The vocabulary of the specification *)

Section Vocabulary.
Import GoStrings Base64 jwt auth cmd digit_workflow.

(** The four sextets of three bytes, as [encode3] cuts them. *)
Definition sextets (x y z : Z) : list Z :=
  let val := Z.lor (Z.lor (Z.shiftl x 16) (Z.shiftl y 8)) z in
  [Z.land (Z.shiftr val 18) 63; Z.land (Z.shiftr val 12) 63;
   Z.land (Z.shiftr val 6) 63; Z.land val 63].

(** The padding that completes the last quantum of [encode_raw src]. *)
Fixpoint padding (src : list ascii) : list ascii :=
  match src with
  | _ :: _ :: _ :: rest => padding rest
  | [_; _] => [padChar]
  | [_] => [padChar; padChar]
  | [] => []
  end.

(** What the loop appends, by the length of the payload modulo four. *)
Definition pad_of (n : nat) : string :=
  match (n mod 4)%nat with
  | 0%nat => ""
  | 1%nat => "==="
  | 2%nat => "=="
  | _ => "="
  end.


(** A token made of exactly three dot-separated segments. *)
Definition three_segments (token h p s : string) : Prop :=
  token = h +:+ "." +:+ p +:+ "." +:+ s ∧
  Count h "." = 0%nat ∧ Count p "." = 0%nat ∧ Count s "." = 0%nat.


(** The claim set a middle segment carries: its base64url decoding, missing
    padding tolerated, parsed as a claim set. *)
Definition payload_claims (segment : string) : option JWTClaims :=
  match Base64.DecodeString (add_padding segment) with
  | Some decoded => unmarshal_claims decoded
  | None => None
  end.

(** The path segments of an issuer URL [scheme://host/p1/.../pn]: the
    pieces between slashes after the host. *)
Definition issuer_path_segments (iss : string) : list string :=
  drop 3 (Split iss "/").

(** A token whose payload is the JSON object with the one member
    iss = https://host. *)
Definition token_host_only : string := "e30.eyJpc3MiOiJodHRwczovL2hvc3QifQ.sig".

(** A token whose payload has iss = https://host/x/realms/ACME,
    sub = u-123 and exp = 2000000000. *)
Definition token_acme : string :=
  "e30.eyJpc3MiOiJodHRwczovL2hvc3QveC9yZWFsbXMvQUNNRSIsInN1YiI6InUtMTIzIiwiZXhwIjoyMDAwMDAwMDAwfQ.sig".

(** A credential set with no empty field: what [config set] stores. *)
Definition complete (a : AuthConfig) : Prop :=
  ServerURL a ≠ "" ∧ Realm a ≠ "" ∧ ClientID a ≠ "" ∧ ClientSecret a ≠ ""
  ∧ Username a ≠ "" ∧ Password a ≠ "".

Definition credentials_request (a : AuthConfig) : request :=
  digit_auth.token_request (ServerURL a) (Realm a) (ClientID a) (ClientSecret a)
    (Username a) (Password a).

(** The world after the token request for [a] was sent. *)
Definition requested (w : world) (a : AuthConfig) : world :=
  mkWorld (disk w) (save_error w) (trace w ++ [TokenRequest (credentials_request a)])
    (stdout w).

(** The world after [token] replaced the cached token of [cfg]. *)
Definition stored (w : world) (cfg : Config) (token : string) : world :=
  mkWorld (File (mkConfig (Server cfg) token (Auth cfg))) (save_error w) (trace w)
    (stdout w).

Definition printed (w : world) (text : string) : world :=
  mkWorld (disk w) (save_error w) (trace w) (stdout w ++ [text]).

Definition NoCredentialsError : error :=
  Errorf "no authentication configuration found. Please run 'digit config set' to authenticate".

Definition AuthenticationError (detail : error) : error :=
  Wrapf "failed to authenticate with Keycloak" detail.

(** The JSON object with the one member [key]: [value], both strings. *)
Definition json_member (key value : string) : string :=
  "{" +:+ quoted key +:+ ":" +:+ quoted value +:+ "}".

(** A token endpoint that accepts every grant with the access token T2. *)
Definition net_T2 : network :=
  mkNetwork (λ _, true) (λ _ _, Response 200 (json_member "access_token" "T2")).

Definition sample_credentials : AuthConfig :=
  mkAuthConfig "https://srv" "ACME" "cli" "secret" "user" "pw".

Definition world_of (cfg : Config) : world := mkWorld (File cfg) None [] [].

(** What a creation call creates. *)
Inductive label : Type :=
| LToken
| LProcess
| LState (code : string)
| LAction (name : string).

Definition label_of (ev : event) : label :=
  match ev with
  | TokenRequest _ => LToken
  | ProcessCall _ => LProcess
  | StateCall code _ => LState code
  | ActionCall name _ => LAction name
  end.

Definition request_of (ev : event) : request :=
  match ev with
  | TokenRequest r | ProcessCall r | StateCall _ r | ActionCall _ r => r
  end.

Definition state_labels (states : list StateDef) : list label :=
  map (λ s, LState (s_Code s)) states.

Definition action_labels (actions : list ActionDef) : list label :=
  map (λ a, LAction (a_Name a)) actions.

(** The calls of a complete run, in order: the process, the states, the
    actions. *)
Definition expected_calls (def : WorkflowDefinition) : list label :=
  LProcess :: state_labels (States def) ++ action_labels (Actions def).

(** The answer lets the step go on: a status from 200 to 299 and, for a
    process or a state, a body that is an object with a string id. *)
Definition step_ok (ev : event) (o : outcome) : bool :=
  match o with
  | Response status text =>
      negb (status_failed status)
      && match ev with
         | ProcessCall _ | StateCall _ _ =>
             match unmarshal_map text with
             | Some ms => bool_decide (is_Some (id_string ms))
             | None => false
             end
         | _ => true
         end
  | _ => false
  end.

(** Every call of [issued], sent after [hist], was answered well. *)
Fixpoint all_ok (net : network) (hist issued : list event) : Prop :=
  match issued with
  | [] => True
  | ev :: rest =>
      step_ok ev (answer net hist (request_of ev)) = true
      ∧ all_ok net (hist ++ [ev]) rest
  end.

(** Every call of [issued] but the last was answered well. *)
Fixpoint all_but_last_ok (net : network) (hist issued : list event) : Prop :=
  match issued with
  | [] | [_] => True
  | ev :: rest =>
      step_ok ev (answer net hist (request_of ev)) = true
      ∧ all_but_last_ok net (hist ++ [ev]) rest
  end.

(** The calls [issued] after [hist] follow [labels]: all of them when the
    run succeeded, a beginning of them that stops at the first call answered
    badly when it failed. *)
Definition orderly (net : network) (hist issued : list event) (labels : list label)
    (ok : bool) : Prop :=
  if ok then map label_of issued = labels ∧ all_ok net hist issued
  else map label_of issued `prefix_of` labels ∧ all_but_last_ok net hist issued.

(** What one creation function does to the world: it sends at most one
    request, and it returns the body of an answer with a good status. *)
Definition call_result (net : network) (sender : request → event) (w : world)
    (r : result error string) (w' : world) : Prop :=
  disk w' = disk w ∧ save_error w' = save_error w ∧ stdout w' = stdout w ∧
  match r with
  | Ok text =>
      ∃ req status, trace w' = trace w ++ [sender req]
        ∧ answer net (trace w) req = Response status text
        ∧ status_failed status = false
  | Err _ =>
      trace w' = trace w
      ∨ ∃ req, trace w' = trace w ++ [sender req]
          ∧ ∀ status text, answer net (trace w) req = Response status text →
              status_failed status = true
  end.

(** The summary a successful run prints. *)
Definition summary (processID : string) (def : WorkflowDefinition) : list string :=
  [nl +:+ "🎉 Workflow created successfully!" +:+ nl;
   "Process ID: " +:+ processID +:+ nl;
   "States: " +:+ pretty (length (States def)) +:+ nl;
   "Actions: " +:+ pretty (length (Actions def)) +:+ nl].

Definition printed_all (w : world) (texts : list string) : world :=
  mkWorld (disk w) (save_error w) (trace w) (stdout w ++ texts).

(** A remote side that accepts every creation: every URL is well formed and
    every answer has a good status and an object with a non-empty string
    id. *)
Definition accepting (net : network) : Prop :=
  (∀ url, url_ok net url = true)
  ∧ ∀ hist req, ∃ status text ms id,
      answer net hist req = Response status text
      ∧ status_failed status = false
      ∧ unmarshal_map text = Some ms ∧ id_string ms = Some id ∧ id ≠ "".

Definition state_codes (def : WorkflowDefinition) : list string :=
  map s_Code (States def).

(** Both state codes of the action are codes of states of the definition. *)
Definition resolvable (def : WorkflowDefinition) (a : ActionDef) : Prop :=
  a_CurrentState a ∈ state_codes def ∧ a_NextState a ∈ state_codes def.

(** The error for an action with an unknown state code; it names the
    current state when that one is unknown, the next state otherwise. *)
Definition UnresolvedStateReferenceError (def : WorkflowDefinition) (a : ActionDef)
  : error :=
  if decide (a_CurrentState a ∈ state_codes def)
  then Errorf ("state ID not found for next state: " +:+ a_NextState a)
  else Errorf ("state ID not found for current state: " +:+ a_CurrentState a).

(** The definition with only the actions [pre]. *)
Definition with_actions (def : WorkflowDefinition) (pre : list ActionDef)
  : WorkflowDefinition :=
  mkWorkflow (Process def) (States def) pre.

(** A remote side that answers every request with status 200 and an object
    whose id is x. *)
Definition net_accepting : network :=
  mkNetwork (λ _, true) (λ _ _, Response 200 (json_member "id" "x")).

(** One state A and one action GO from the unknown state Z to A. *)
Definition def_unknown_Z : WorkflowDefinition :=
  mkWorkflow (mkProcessDef "Flow" "WF1" "" "1.0" 0)
    [mkStateDef "A" "a" true false false 0]
    [mkActionDef "GO" "Z" "A" [] [] false].

Definition process_request (serverURL jwtToken tenantID : string) (p : ProcessDef)
  : request :=
  mkRequest "POST" (process_url serverURL) (json_headers jwtToken tenantID)
    (Raw (process_body (p_Name p) (p_Code p) (p_Description p) (p_Version p) (p_SLA p))).

Definition state_request (serverURL jwtToken tenantID processID : string) (s : StateDef)
  : request :=
  mkRequest "POST" (state_url serverURL processID) (json_headers jwtToken tenantID)
    (Raw (state_body (s_Code s) (s_Name s) (s_IsInitial s) (s_IsParallel s)
            (s_IsJoin s) (s_SLA s))).

(** The action call for [a], with the identifiers its state codes resolved
    to: [stateID] in the path, [nextStateID] in the payload. *)
Definition action_request (serverURL jwtToken tenantID stateID nextStateID : string)
    (a : ActionDef) : request :=
  mkRequest "POST" (action_url serverURL stateID) (json_headers jwtToken tenantID)
    (Raw (action_body (a_Name a) nextStateID (a_AttributeRoles a) (a_AssigneeCheck a))).

(** The remote side answers [r] with a good status and an object whose id
    is [id]. *)
Definition answers_with_id (net : network) (r : request) (id : string) : Prop :=
  ∀ hist, ∃ status text ms,
    answer net hist r = Response status text ∧ status_failed status = false
    ∧ unmarshal_map text = Some ms ∧ id_string ms = Some id.

Definition answers_well (net : network) (r : request) : Prop :=
  ∀ hist, ∃ status text,
    answer net hist r = Response status text ∧ status_failed status = false.

Definition body_text (r : request) : string :=
  match req_body r with Raw text => text | Form _ => "" end.

(** A workflow service for the scenario: it gives the process the id p1,
    the state with code A the id s1 and every other state the id s2, and
    answers every other request with an empty object. *)
Definition net_scenario : network :=
  mkNetwork (λ _, true) (λ _ r,
    if String.eqb (req_url r) "http://srv/workflow/v1/process"
    then Response 201 (json_member "id" "p1")
    else if String.eqb (req_url r) "http://srv/workflow/v1/process/p1/state"
    then if String.prefix (concat_lines ["{"; "  " +:+ quoted "code" +:+ ": " +:+ quoted "A"])
              (body_text r)
         then Response 201 (json_member "id" "s1")
         else Response 201 (json_member "id" "s2")
    else Response 200 "{}").

Definition def_scenario : WorkflowDefinition :=
  mkWorkflow (mkProcessDef "" "WF1" "" "" 0)
    [mkStateDef "A" "" true false false 0; mkStateDef "B" "" false false false 0]
    [mkActionDef "GO" "A" "B" [] [] false].

Definition state_created (s : StateDef) (stateID : string) : string :=
  "✓ State created: " +:+ s_Name s +:+ " (" +:+ s_Code s +:+ ") - ID: " +:+ stateID +:+ nl.

Definition action_created (a : ActionDef) (stateID : string) : string :=
  "✓ Action created: " +:+ a_Name a +:+ " (" +:+ a_CurrentState a +:+ " → "
  +:+ a_NextState a +:+ ") using state ID: " +:+ stateID +:+ nl.

(** What the run of the scenario prints, and the world it ends in. *)
Definition scenario_output (A B : StateDef) (GO : ActionDef) (def : WorkflowDefinition)
  : list string :=
  ["Creating workflow process..." +:+ nl;
   "✓ Process created with ID: " +:+ "p1" +:+ nl;
   "Creating workflow states..." +:+ nl;
   state_created A "s1"; state_created B "s2";
   "Creating workflow actions..." +:+ nl;
   action_created GO "s1"] ++ summary "p1" def.

(** [json.Marshal] of a string: what the encoder writes for the bytes below
    0x80.  Quote and backslash get a backslash; line feed, carriage return
    and tab their letter; the other control characters and the characters
    that HTML gives a meaning get a [\u00XX]; every other byte is copied. *)
Definition hex_char (n : Z) : ascii :=
  match String.get (Z.to_nat n) "0123456789abcdef" with
  | Some c => c
  | None => "0"%char
  end.

Definition escape_byte (c : ascii) : list ascii :=
  let n := Json.code c in
  if n =? 34 then ["\"%char; "034"%char]
  else if n =? 92 then ["\"%char; "\"%char]
  else if n =? 10 then ["\"%char; "n"%char]
  else if n =? 13 then ["\"%char; "r"%char]
  else if n =? 9 then ["\"%char; "t"%char]
  else if (n <? 32) || (n =? 60) || (n =? 62) || (n =? 38) then
    ["\"%char; "u"%char; "0"%char; "0"%char; hex_char (n / 16); hex_char (n mod 16)]
  else [c].

Definition marshal_string (s : string) : list ascii :=
  "034"%char :: flat_map escape_byte (list_ascii_of_string s) ++ ["034"%char].

Definition marshal_key (name : string) : list ascii :=
  "034"%char :: list_ascii_of_string name ++ ["034"%char; ":"%char].

(** [json.Marshal(claims)]: the nine fields in the order of the struct. *)
Definition marshal_claims (c : JWTClaims) : string :=
  string_of_list_ascii
    ("{"%char :: marshal_key "sub" ++ marshal_string (Sub c)
     ++ ","%char :: marshal_key "iss" ++ marshal_string (Iss c)
     ++ ","%char :: marshal_key "preferred_username" ++ marshal_string (PreferredUsername c)
     ++ ","%char :: marshal_key "email" ++ marshal_string (Email c)
     ++ ","%char :: marshal_key "name" ++ marshal_string (Name c)
     ++ ","%char :: marshal_key "given_name" ++ marshal_string (GivenName c)
     ++ ","%char :: marshal_key "family_name" ++ marshal_string (FamilyName c)
     ++ ","%char :: marshal_key "exp" ++ list_ascii_of_string (fmt_int (Exp c))
     ++ ","%char :: marshal_key "iat" ++ list_ascii_of_string (fmt_int (Iat c))
     ++ ["}"%char]).

(** Strings of bytes below 0x80. *)
Definition ascii_string (s : string) : Prop :=
  Forall (λ c, Json.code c < 128) (list_ascii_of_string s).

Definition int64 (z : Z) : Prop := - 2 ^ 63 <= z < 2 ^ 63.

(** A claim set of ASCII strings and 64-bit integers. *)
Definition ascii_claims (c : JWTClaims) : Prop :=
  ascii_string (Sub c) ∧ ascii_string (Iss c) ∧ ascii_string (PreferredUsername c)
  ∧ ascii_string (Email c) ∧ ascii_string (Name c) ∧ ascii_string (GivenName c)
  ∧ ascii_string (FamilyName c) ∧ int64 (Exp c) ∧ int64 (Iat c).

(** What follows a member's value in an object. *)
Definition delimiter (c : ascii) : Prop := c = ","%char ∨ c = "}"%char.

(** A decimal: digits, at least one, no leading zero before another
    digit. *)
Definition decimal (d : list ascii) : Prop :=
  Forall (λ c, Json.is_digit c = true) d
  ∧ ∃ d0 dt, d = d0 :: dt ∧ (d0 ≠ "0"%char ∨ dt = []).

(** A field name that needs no escape. *)
Definition plain_name (name : string) : Prop :=
  flat_map escape_byte (list_ascii_of_string name) = list_ascii_of_string name
  ∧ ascii_string name.

End Vocabulary.

(** * Further code of the command-line tool

    The rest of package config, the context files, the API client, the two
    other calls of the workflow service, and the commands that authenticate,
    show the configuration and create a workflow from their flags. *)

(** ** Package config: the other global functions *)

Module config_globals.
Import config.

(** [SetServerURL] sets the server URL in the global config. *)
Definition SetServerURL (serverURL : string) : M unit :=
  c ← Load; Save (mkConfig serverURL (JWTToken c) (Auth c)).

(** [GetServerURL] gets the server URL from the global config. *)
Definition GetServerURL : M string :=
  c ← Load; mret (Server c).

(** [SetAuthConfig] sets the authentication configuration for token
    refresh. *)
Definition SetAuthConfig (serverURL realm clientID clientSecret username password : string)
  : M unit :=
  c ← Load;
  Save (mkConfig (Server c) (JWTToken c)
          (Some (mkAuthConfig serverURL realm clientID clientSecret username password))).

(** [GetRealm] gets the realm from the authentication configuration. *)
Definition GetRealm : M string :=
  c ← Load;
  match Auth c with
  | Some a => mret (Realm a)
  | None => mret ""
  end.

End config_globals.

(** ** Package config: context files *)

Module context.

(** [ContextDetail] contains the actual configuration details. *)
Record ContextDetail : Type := mkContextDetail {
  ctx_Server : string;
  ctx_Realm : string;
  ctx_ClientID : string;
  ctx_ClientSecret : string;
  ctx_Username : string;
  ctx_Password : string
}.

(** [Context] represents a single context configuration. *)
Record Context : Type := mkContext {
  ctx_Name : string;
  ctx_Context : ContextDetail
}.

(** [ContextConfig] represents the structure of the digit config file. *)
Record ContextConfig : Type := mkContextConfig {
  APIVersion : string;
  Kind : string;
  CurrentContext : string;
  Contexts : list Context
}.

(** What the file at a path is to [LoadContextConfig]. *)
Inductive context_file : Type :=
| CtxMissing                      (* os.Stat: the file does not exist *)
| CtxUnreadable                   (* ioutil.ReadFile fails *)
| CtxBadYaml                      (* yaml.Unmarshal fails *)
| CtxFile (cc : ContextConfig).

(** [LoadContextConfig] loads the context configuration from a YAML file. *)
Definition LoadContextConfig (files : string → context_file) (filePath : string)
  : result error ContextConfig :=
  match files filePath with
  | CtxMissing => Err (Errorf ("config file does not exist: " +:+ filePath))
  | CtxUnreadable => Err (Wrapf "failed to read config file" (LibError "os"))
  | CtxBadYaml => Err (Wrapf "failed to parse config file" (LibError "yaml"))
  | CtxFile cc => Ok cc
  end.

(** The loop [for _, ctx := range cc.Contexts] that returns at the first
    context with the name. *)
Fixpoint find_context (contexts : list Context) (name : string) : option ContextDetail :=
  match contexts with
  | [] => None
  | ctx :: rest =>
      if String.eqb (ctx_Name ctx) name then Some (ctx_Context ctx)
      else find_context rest name
  end.

(** [GetCurrentContext] returns the current context configuration. *)
Definition GetCurrentContext (cc : ContextConfig) : result error ContextDetail :=
  if String.eqb (CurrentContext cc) "" then Err (Errorf "no current context set")
  else
    match find_context (Contexts cc) (CurrentContext cc) with
    | Some detail => Ok detail
    | None => Err (Errorf ("current context '" +:+ CurrentContext cc +:+ "' not found"))
    end.

(** [GetContext] returns a specific context by name. *)
Definition GetContext (cc : ContextConfig) (name : string) : result error ContextDetail :=
  match find_context (Contexts cc) name with
  | Some detail => Ok detail
  | None => Err (Errorf ("context '" +:+ name +:+ "' not found"))
  end.

(** [ListContexts] returns all available context names. *)
Definition ListContexts (cc : ContextConfig) : list string :=
  map ctx_Name (Contexts cc).

End context.

(** ** Package digit: searching and deleting a process

    The trace records a request under the name of the function that sent
    it; for the functions below the name is the parameter [sender], which
    the source does not have. *)

Module digit_process.
Import digit_workflow.

(** The part the two functions share: build the request, send it, read the
    body, check the status with [failed]. *)
Definition exchange (net : network) (sender : request → event) (r : request)
    (failed : Z → bool) : M string :=
  if negb (url_ok net (req_url r)) then fail (Wrapf "failed to create request" (LibError "http"))
  else
    resp ← send net sender r;
    match resp with
    | SendError => fail (Wrapf "failed to send request" (LibError "http"))
    | ReadError _ => fail (Wrapf "failed to read response" (LibError "io"))
    | Response status text =>
        if failed status then
          fail (Errorf ("API request failed with status " +:+ fmt_int status
                        +:+ ": " +:+ text))
        else mret text
    end.

Definition definition_url (serverURL processID : string) : string :=
  GoStrings.TrimSuffixSlash serverURL +:+ "/workflow/v1/process/definition?id=" +:+ processID.

Definition definition_request (serverURL jwtToken tenantID processID : string) : request :=
  mkRequest "GET" (definition_url serverURL processID)
    [("X-Tenant-ID", tenantID);
     ("Content-Type", "application/x-www-form-urlencoded");
     ("Authorization", "Bearer " +:+ jwtToken)]
    (Raw "").

(** [SearchProcessDefinition] searches for a workflow process definition by
    ID. *)
Definition SearchProcessDefinition (net : network) (sender : request → event)
    (serverURL jwtToken tenantID processID : string) : M string :=
  if String.eqb serverURL "" then fail (Errorf "server URL is required")
  else if String.eqb tenantID "" then fail (Errorf "tenant ID is required")
  else if String.eqb processID "" then fail (Errorf "process ID is required")
  else exchange net sender (definition_request serverURL jwtToken tenantID processID)
         status_failed.

Definition delete_url (serverURL code : string) : string :=
  GoStrings.TrimSuffixSlash serverURL +:+ "/workflow/v1/process?code=" +:+ code.

Definition delete_request (serverURL jwtToken tenantID code : string) : request :=
  mkRequest "DELETE" (delete_url serverURL code)
    [("X-Tenant-ID", tenantID);
     ("Content-Type", "application/json");
     ("Authorization", "Bearer " +:+ jwtToken)]
    (Raw "").

(** [resp.StatusCode != http.StatusOK && resp.StatusCode != http.StatusNoContent] *)
Definition delete_failed (status : Z) : bool := negb (status =? 200) && negb (status =? 204).

(** [DeleteProcess] deletes a workflow process by code. *)
Definition DeleteProcess (net : network) (sender : request → event)
    (serverURL jwtToken tenantID code : string) : M string :=
  if String.eqb serverURL "" then fail (Errorf "server URL is required")
  else if String.eqb tenantID "" then fail (Errorf "tenant ID is required")
  else if String.eqb code "" then fail (Errorf "process code is required")
  else exchange net sender (delete_request serverURL jwtToken tenantID code) delete_failed.

End digit_process.

(** ** Package api: the client with automatic token refresh *)

Module api.

(** [Client]: the base URL; the HTTP client is always the default one. *)
Record Client : Type := mkClient { BaseURL : string }.

(** [NewClient] creates a new API client. *)
Definition NewClient : M Client :=
  serverURL ← wrap "failed to get server URL" config_globals.GetServerURL;
  if String.eqb serverURL "" then
    fail (Errorf "no server URL configured. Please run 'digit config set' to authenticate")
  else mret (mkClient serverURL).

(** The bytes [http.NewRequest] accepts in a method: the token characters
    of RFC 7230. *)
Definition is_token_byte (c : ascii) : bool :=
  let n := Json.code c in
  ((48 <=? n) && (n <=? 57)) || ((65 <=? n) && (n <=? 90)) || ((97 <=? n) && (n <=? 122))
  || existsb (Ascii.eqb c)
       ["!"; "#"; "$"; "%"; "&"; "'"; "*"; "+"; "-"; "."; "^"; "_"; "`"; "|"; "~"]%char.

(** The method of the request [http.NewRequest] builds: GET for the empty
    method; none for a method with a byte that is no token character. *)
Definition request_method (method : string) : option string :=
  let method := if String.eqb method "" then "GET" else method in
  if forallb is_token_byte (list_ascii_of_string method) then Some method else None.

Section Requests.
Context {B : Type}.
Variable marshal : B → option string.        (* json.Marshal(body), if it succeeds *)
Variable net : network.
Variable now : Z.                            (* the instant time.Now() returns *)
Variable sender : request → event.           (* the name the trace gives the request *)

(** [makeRequest] creates and executes an HTTP request with automatic token
    refresh; [body] is [None] for a nil body.  The result is the response:
    an [outcome] that is no [SendError]. *)
Definition makeRequest (c : Client) (method endpoint : string) (body : option B)
  : M outcome :=
  reqBody ← match body with
            | None => mret ""
            | Some b =>
                match marshal b with
                | None => fail (Wrapf "failed to marshal request body" (LibError "json"))
                | Some jsonBody => mret jsonBody
                end
            end;
  let url := BaseURL c +:+ endpoint in
  match request_method method with
  | None => fail (Wrapf "failed to create request" (LibError "http"))
  | Some method =>
      if negb (url_ok net url) then fail (Wrapf "failed to create request" (LibError "http"))
      else
        let contentType := match body with
                           | None => []
                           | Some _ => [("Content-Type", "application/json")]
                           end in
        authHeader ← wrap "failed to get authorization header"
                       (auth.GetAuthorizationHeader net now);
        resp ← send net sender
                 (mkRequest method url (contentType ++ [("Authorization", authHeader)])
                    (Raw reqBody));
        match resp with
        | SendError => fail (Wrapf "failed to execute request" (LibError "http"))
        | _ => mret resp
        end
  end.


Definition Post (c : Client) (endpoint : string) (body : option B) : M outcome :=
  makeRequest c "POST" endpoint body.

Definition Put (c : Client) (endpoint : string) (body : option B) : M outcome :=
  makeRequest c "PUT" endpoint body.

Definition Delete (c : Client) (endpoint : string) : M outcome :=
  makeRequest c "DELETE" endpoint None.

End Requests.

End api.

(** ** The commands on the configuration *)

Module cmd_config.
Import context.

(** How a command ends: it returns an error or nil, or it panics. *)
Inductive completion : Type :=
| Returned (err : option error)
| Panicked (reason : string).

(** [s[:n]]; it panics when the string is shorter. *)
Definition slice_to (s : string) (n : nat) : option string :=
  if (n <=? String.length s)%nat then Some (substring 0 n s) else None.

(** The end of [config set] and [config use-context]: [body] returned the
    token, whose first fifty bytes are printed. *)
Definition print_token_head (body : M string) : world → completion * world := λ w,
  match body w with
  | (Err e, w') => (Returned (Some e), w')
  | (Ok jwtToken, w') =>
      match slice_to jwtToken 50 with
      | None => (Panicked "slice bounds out of range", w')
      | Some head =>
          (Returned None, snd (print ("JWT Token: " +:+ head +:+ "..." +:+ nl) w'))
      end
  end.

(** The flags of [config set]. *)
Record SetFlags : Type := mkSetFlags {
  f_file : string;
  f_server : string;
  f_account : string;
  f_client_id : string;
  f_client_secret : string;
  f_username : string;
  f_password : string
}.

Definition some_flag_empty (f : SetFlags) : bool :=
  String.eqb (f_server f) "" || String.eqb (f_account f) "" || String.eqb (f_client_id f) ""
  || String.eqb (f_client_secret f) "" || String.eqb (f_username f) ""
  || String.eqb (f_password f) "".

Definition some_flag_given (f : SetFlags) : bool :=
  negb (String.eqb (f_server f) "") || negb (String.eqb (f_account f) "")
  || negb (String.eqb (f_client_id f) "") || negb (String.eqb (f_client_secret f) "")
  || negb (String.eqb (f_username f) "") || negb (String.eqb (f_password f) "").

(** Where the six values come from: the current context of the file, or
    the flags. *)
Definition set_values (files : string → context_file) (f : SetFlags) : M ContextDetail :=
  if negb (String.eqb (f_file f) "") then
    _ ← print ("Loading configuration from: " +:+ f_file f +:+ nl);
    contextConfig ← wrap "failed to load config file"
                      (lift (LoadContextConfig files (f_file f)));
    currentCtx ← wrap "failed to get current context"
                   (lift (GetCurrentContext contextConfig));
    _ ← print ("Using context: " +:+ CurrentContext contextConfig +:+ nl);
    mret currentCtx
  else
    _ ← print ("Using configuration from command-line flags" +:+ nl);
    mret (mkContextDetail (f_server f) (f_account f) (f_client_id f) (f_client_secret f)
            (f_username f) (f_password f)).

(** [configSetCmd.RunE] up to the last line it prints: the token it got. *)
Definition configSet_body (net : network) (files : string → context_file) (f : SetFlags)
  : M string :=
  if String.eqb (f_file f) "" && some_flag_empty f then
    fail (Errorf "either --file flag or all of (--server, --account, --client-id, --client-secret, --username, --password) flags are required")
  else if negb (String.eqb (f_file f) "") && some_flag_given f then
    fail (Errorf "cannot use --file flag together with individual flags (--server, --account, --client-id, --client-secret, --username, --password)")
  else
    v ← set_values files f;
    _ ← print ("Server: " +:+ ctx_Server v +:+ nl);
    _ ← print ("Account: " +:+ ctx_Realm v +:+ nl);
    _ ← print ("Username: " +:+ ctx_Username v +:+ nl);
    _ ← print ("Authenticating with Keycloak..." +:+ nl);
    jwtToken ← wrap "failed to authenticate with Keycloak"
                 (digit_auth.GetJWTToken net (ctx_Server v) (ctx_Realm v) (ctx_ClientID v)
                    (ctx_ClientSecret v) (ctx_Username v) (ctx_Password v));
    _ ← print ("✓ Authentication successful!" +:+ nl);
    _ ← print ("Storing configuration..." +:+ nl);
    _ ← wrap "failed to set server URL" (config_globals.SetServerURL (ctx_Server v));
    _ ← wrap "failed to set JWT token" (config.SetJWTToken jwtToken);
    _ ← wrap "failed to store auth config"
          (config_globals.SetAuthConfig (ctx_Server v) (ctx_Realm v) (ctx_ClientID v)
             (ctx_ClientSecret v) (ctx_Username v) (ctx_Password v));
    _ ← print ("✓ Configuration stored successfully!" +:+ nl);
    _ ← print ("Server URL: " +:+ ctx_Server v +:+ nl);
    mret jwtToken.

(** [configSetCmd.RunE]. *)
Definition configSet (net : network) (files : string → context_file) (f : SetFlags)
  : world → completion * world :=
  print_token_head (configSet_body net files f).

(** [configUseContextCmd.RunE] up to the last line it prints; [contextName]
    is the one argument. *)
Definition configUseContext_body (net : network) (files : string → context_file)
    (contextName filePath : string) : M string :=
  if String.eqb filePath "" then fail (Errorf "--file flag is required")
  else
    _ ← print ("Loading configuration from: " +:+ filePath +:+ nl);
    contextConfig ← wrap "failed to load config file"
                      (lift (LoadContextConfig files filePath));
    ctx ← wrap ("failed to get context '" +:+ contextName +:+ "'")
            (lift (GetContext contextConfig contextName));
    _ ← print ("Switching to context: " +:+ contextName +:+ nl);
    _ ← print ("Server: " +:+ ctx_Server ctx +:+ nl);
    _ ← print ("Realm: " +:+ ctx_Realm ctx +:+ nl);
    _ ← print ("Username: " +:+ ctx_Username ctx +:+ nl);
    _ ← print ("Authenticating with Keycloak..." +:+ nl);
    jwtToken ← wrap "failed to authenticate with Keycloak"
                 (digit_auth.GetJWTToken net (ctx_Server ctx) (ctx_Realm ctx)
                    (ctx_ClientID ctx) (ctx_ClientSecret ctx) (ctx_Username ctx)
                    (ctx_Password ctx));
    _ ← print ("✓ Authentication successful!" +:+ nl);
    _ ← print ("Updating configuration..." +:+ nl);
    _ ← wrap "failed to set server URL" (config_globals.SetServerURL (ctx_Server ctx));
    _ ← wrap "failed to set JWT token" (config.SetJWTToken jwtToken);
    _ ← wrap "failed to store auth config"
          (config_globals.SetAuthConfig (ctx_Server ctx) (ctx_Realm ctx) (ctx_ClientID ctx)
             (ctx_ClientSecret ctx) (ctx_Username ctx) (ctx_Password ctx));
    _ ← print ("✓ Switched to context '" +:+ contextName +:+ "' successfully!" +:+ nl);
    _ ← print ("Server URL: " +:+ ctx_Server ctx +:+ nl);
    mret jwtToken.

(** [configUseContextCmd.RunE]. *)
Definition configUseContext (net : network) (files : string → context_file)
    (contextName filePath : string) : world → completion * world :=
  print_token_head (configUseContext_body net files contextName filePath).

(** [configShowCmd.RunE]: an error of a getter is printed as Not set, not
    returned. *)
Definition configShow : M unit := λ w,
  let w1 := match config_globals.GetServerURL w with
            | (Ok serverURL, w') => snd (print ("Server URL: " +:+ serverURL +:+ nl) w')
            | (Err _, w') => snd (print ("Server URL: Not set" +:+ nl) w')
            end in
  match config.GetJWTToken w1 with
  | (Ok jwtToken, w') =>
      if (50 <? String.length jwtToken)%nat
      then print ("JWT Token: " +:+ substring 0 50 jwtToken +:+ "..." +:+ nl) w'
      else print ("JWT Token: " +:+ jwtToken +:+ nl) w'
  | (Err _, w') => print ("JWT Token: Not set" +:+ nl) w'
  end.

End cmd_config.

(** ** The create-workflow command, from its flags *)

Module cmd_workflow.
Import cmd.

(** [defaultWorkflowYAML]: the embedded default workflow configuration. *)
Definition defaultWorkflowYAML : string :=
  concat_lines
    ["workflow:";
     "  process:";
     "    name: " +:+ quoted "Application Processing Workflow";
     "    code: " +:+ quoted "DEFAULT_CODE";
     "    description: " +:+ quoted "A complete workflow for application processing";
     "    version: " +:+ quoted "1.0";
     "    sla: 86400";
     "  states:";
     "    - code: " +:+ quoted "INIT";
     "      name: " +:+ quoted "Init";
     "      isInitial: true";
     "      isParallel: false";
     "      isJoin: false";
     "      sla: 86400";
     "    - code: " +:+ quoted "PENDINGFORASSIGNMENT";
     "      name: " +:+ quoted "Pendingforassignment";
     "      isInitial: false";
     "      isParallel: false";
     "      isJoin: false";
     "      sla: 43200";
     "    - code: " +:+ quoted "PENDINGATLME";
     "      name: " +:+ quoted "Pendingatlme";
     "      isInitial: false";
     "      isParallel: false";
     "      isJoin: false";
     "      sla: 43200";
     "    - code: " +:+ quoted "PENDINGFORREASSIGNMENT";
     "      name: " +:+ quoted "Pendingforreassignment";
     "      isInitial: false";
     "      isParallel: false";
     "      isJoin: false";
     "      sla: 43200";
     "    - code: " +:+ quoted "REJECTED";
     "      name: " +:+ quoted "Rejected";
     "      isInitial: false";
     "      isParallel: false";
     "      isJoin: false";
     "      sla: 43200";
     "    - code: " +:+ quoted "RESOLVED";
     "      name: " +:+ quoted "Resolved";
     "      isInitial: false";
     "      isParallel: false";
     "      isJoin: false";
     "      sla: 43200";
     "    - code: " +:+ quoted "CLOSEDAFTERREJECTION";
     "      name: " +:+ quoted "Closedafterrejection";
     "      isInitial: false";
     "      isParallel: false";
     "      isJoin: false";
     "      sla: 0";
     "    - code: " +:+ quoted "CLOSEDAFTERRESOLUTION";
     "      name: " +:+ quoted "Closedafterresolution";
     "      isInitial: false";
     "      isParallel: false";
     "      isJoin: false";
     "      sla: 0";
     "  actions:";
     "    - name: " +:+ quoted "APPLY";
     "      currentState: " +:+ quoted "INIT";
     "      nextState: " +:+ quoted "PENDINGFORASSIGNMENT";
     "      attributeValidation:";
     "        attributes:";
     "          roles: [" +:+ quoted "CITIZEN" +:+ ", " +:+ quoted "CSR" +:+ "]";
     "    - name: " +:+ quoted "ASSIGN";
     "      currentState: " +:+ quoted "PENDINGFORASSIGNMENT";
     "      nextState: " +:+ quoted "PENDINGATLME";
     "      attributeValidation:";
     "        attributes:";
     "          roles: [" +:+ quoted "GRO" +:+ "]";
     "    - name: " +:+ quoted "REJECT";
     "      currentState: " +:+ quoted "PENDINGFORASSIGNMENT";
     "      nextState: " +:+ quoted "REJECTED";
     "      attributeValidation:";
     "        attributes:";
     "          roles: [" +:+ quoted "GRO" +:+ "]";
     "    - name: " +:+ quoted "REASSIGN";
     "      currentState: " +:+ quoted "PENDINGFORREASSIGNMENT";
     "      nextState: " +:+ quoted "PENDINGATLME";
     "      attributeValidation:";
     "        attributes:";
     "          roles: [" +:+ quoted "GRO" +:+ "]";
     "    - name: " +:+ quoted "REASSIGN";
     "      currentState: " +:+ quoted "PENDINGATLME";
     "      nextState: " +:+ quoted "PENDINGFORREASSIGNMENT";
     "      attributeValidation:";
     "        attributes:";
     "          roles: [" +:+ quoted "LME" +:+ "]";
     "    - name: " +:+ quoted "RESOLVE";
     "      currentState: " +:+ quoted "PENDINGATLME";
     "      nextState: " +:+ quoted "RESOLVED";
     "      attributeValidation:";
     "        attributes:";
     "          roles: [" +:+ quoted "LME" +:+ "]";
     "    - name: " +:+ quoted "REOPEN";
     "      currentState: " +:+ quoted "REJECTED";
     "      nextState: " +:+ quoted "PENDINGFORASSIGNMENT";
     "      attributeValidation:";
     "        attributes:";
     "          roles: [" +:+ quoted "CITIZEN" +:+ ", " +:+ quoted "CSR" +:+ "]";
     "    - name: " +:+ quoted "RATE";
     "      currentState: " +:+ quoted "REJECTED";
     "      nextState: " +:+ quoted "CLOSEDAFTERREJECTION";
     "      attributeValidation:";
     "        attributes:";
     "          roles: [" +:+ quoted "CITIZEN" +:+ ", " +:+ quoted "CSR" +:+ "]";
     "    - name: " +:+ quoted "REOPEN";
     "      currentState: " +:+ quoted "RESOLVED";
     "      nextState: " +:+ quoted "PENDINGFORASSIGNMENT";
     "      attributeValidation:";
     "        attributes:";
     "          roles: [" +:+ quoted "CITIZEN" +:+ ", " +:+ quoted "CSR" +:+ "]";
     "    - name: " +:+ quoted "RATE";
     "      currentState: " +:+ quoted "RESOLVED";
     "      nextState: " +:+ quoted "CLOSEDAFTERRESOLUTION";
     "      attributeValidation:";
     "        attributes:";
     "          roles: [" +:+ quoted "CITIZEN" +:+ ", " +:+ quoted "CSR" +:+ "]"].

(** [strings.Replace(s, old, new, 1)]: the first occurrence of [old]. *)
Fixpoint Replace_first (s old new : string) : string :=
  if String.prefix old s then new +:+ substring (String.length old) (String.length s) s
  else match s with
       | EmptyString => EmptyString
       | String c s' => String c (Replace_first s' old new)
       end.

(** The part the commands of the workflow service share: the server URL and
    the token come from the flags, and from the configuration when a flag is
    empty. *)
Definition server_and_token (serverURL jwtToken : string) : M (string * string) :=
  if String.eqb serverURL "" || String.eqb jwtToken "" then
    cfg ← wrap "failed to load config" config.Load;
    serverURL ← (if String.eqb serverURL "" then
                   if String.eqb (Server cfg) "" then
                     fail (Errorf "server URL not configured. Use 'digit config set --server <url>' or provide --server flag")
                   else mret (Server cfg)
                 else mret serverURL);
    jwtToken ← (if String.eqb jwtToken "" then
                  if String.eqb (JWTToken cfg) "" then
                    fail (Errorf "JWT token not configured. Use 'digit config set --jwt-token <token>' or provide --jwt-token flag")
                  else mret (JWTToken cfg)
                else mret jwtToken);
    mret (serverURL, jwtToken)
  else mret (serverURL, jwtToken).

(** The flags of [create-workflow]. *)
Record WorkflowFlags : Type := mkWorkflowFlags {
  wf_file : string;
  wf_default : bool;
  wf_code : string;
  wf_server : string;
  wf_jwt_token : string
}.

Section Command.
Variable net : network.
Variable ReadFile : string → option string.                   (* os.ReadFile, if it succeeds *)
Variable yaml_Unmarshal : string → option WorkflowDefinition.   (* yaml.Unmarshal, likewise *)

(** [createWorkflowCmd.RunE]. *)
Definition createWorkflowCmd (f : WorkflowFlags) : M unit :=
  if negb (wf_default f) && String.eqb (wf_file f) "" then
    fail (Errorf "either --file or --default flag is required")
  else if wf_default f && negb (String.eqb (wf_file f) "") then
    fail (Errorf "cannot use both --file and --default flags together")
  else if wf_default f && String.eqb (wf_code f) "" then
    fail (Errorf "--code flag is required when using --default")
  else
    '(serverURL, jwtToken) ← server_and_token (wf_server f) (wf_jwt_token f);
    tenantID ← wrap "failed to extract tenant ID from JWT token"
                 (lift (jwt.ExtractTenantID jwtToken));
    yamlData ← (if wf_default f then
                  _ ← print ("Using default workflow configuration with code: "
                             +:+ wf_code f +:+ nl);
                  mret (Replace_first defaultWorkflowYAML "DEFAULT_CODE" (wf_code f))
                else
                  match ReadFile (wf_file f) with
                  | None => fail (Wrapf "failed to read YAML file" (LibError "os"))
                  | Some data => mret data
                  end);
    match yaml_Unmarshal yamlData with
    | None => fail (Wrapf "failed to parse YAML" (LibError "yaml"))
    | Some workflowDef => createWorkflow net serverURL jwtToken tenantID workflowDef
    end.

End Command.

End cmd_workflow.

(** * Further vocabulary *)

Section FurtherVocabulary.
Import GoStrings Base64 jwt config.

(** A byte the base64url decoder has no use for: it is not in the
    alphabet, it is no padding and no line break. *)
Definition foreign_byte (c : ascii) : Prop :=
  decodeMap c = None ∧ c ≠ padChar ∧ is_newline c = false.

(** The token with the header [h], the signature [s] and the claim set [c]
    as its payload. *)
Definition issued_token (h : string) (c : JWTClaims) (s : string) : string :=
  h +:+ "." +:+ RawEncodeToString (marshal_claims c) +:+ "." +:+ s.

End FurtherVocabulary.

Section ConfigVocabulary.

(** The configuration [Load] reads: the default one when there is no file,
    none when the file cannot be read. *)
Definition stored_config (w : world) : option Config :=
  match disk w with
  | NoFile => Some config.empty_config
  | File c => Some c
  | _ => None
  end.

(** The world after the configuration [c] was saved. *)
Definition saved (w : world) (c : Config) : world :=
  mkWorld (File c) (save_error w) (trace w) (stdout w).

End ConfigVocabulary.

Section CallVocabulary.

(** The world after the request of [ev] was sent. *)
Definition sent (w : world) (ev : event) : world :=
  mkWorld (disk w) (save_error w) (trace w ++ [ev]) (stdout w).

(** The error of a call answered with a status the function refuses. *)
Definition StatusError (status : Z) (text : string) : error :=
  Errorf ("API request failed with status " +:+ fmt_int status +:+ ": " +:+ text).

End CallVocabulary.

Section ClientVocabulary.
Context {B : Type}.
Variable marshal : B → option string.

(** The bytes of the body of a request: none for a nil body. *)
Definition body_json (body : option B) : option string :=
  match body with
  | None => Some ""
  | Some b => marshal b
  end.

Definition content_type (body : option B) : list (string * string) :=
  match body with
  | None => []
  | Some _ => [("Content-Type", "application/json")]
  end.

(** The request of the client [c] that carries [token]. *)
Definition api_request (c : api.Client) (method endpoint : string) (body : option B)
    (json token : string) : request :=
  mkRequest method (api.BaseURL c +:+ endpoint)
    (content_type body ++ [("Authorization", "Bearer " +:+ token)]) (Raw json).

(** The response to a request that was sent, or the error of the
    transport. *)
Definition response_of (o : outcome) : result error outcome :=
  match o with
  | SendError => Err (Wrapf "failed to execute request" (LibError "http"))
  | _ => Ok o
  end.

End ClientVocabulary.

Section CommandVocabulary.
Import context cmd_config.

(** The credentials a context holds, as [SetAuthConfig] stores them. *)
Definition credentials_of (v : ContextDetail) : AuthConfig :=
  mkAuthConfig (ctx_Server v) (ctx_Realm v) (ctx_ClientID v) (ctx_ClientSecret v)
    (ctx_Username v) (ctx_Password v).

(** The six flags of [config set] as a context. *)
Definition flag_values (f : SetFlags) : ContextDetail :=
  mkContextDetail (f_server f) (f_account f) (f_client_id f) (f_client_secret f)
    (f_username f) (f_password f).

(** The flags [config set] accepts: the file alone, or the six values
    alone. *)
Definition flags_accepted (f : SetFlags) : Prop :=
  (f_file f = "" ∧ some_flag_empty f = false)
  ∨ (f_file f ≠ "" ∧ some_flag_given f = false).

(** The values [config set] authenticates with, and what it prints while it
    finds them. *)
Definition chosen_values (files : string → context_file) (f : SetFlags)
  : option (ContextDetail * list string) :=
  if String.eqb (f_file f) "" then
    Some (flag_values f, ["Using configuration from command-line flags" +:+ nl])
  else
    match files (f_file f) with
    | CtxFile cc =>
        if String.eqb (CurrentContext cc) "" then None
        else
          match find_context (Contexts cc) (CurrentContext cc) with
          | Some v => Some (v, ["Loading configuration from: " +:+ f_file f +:+ nl;
                                "Using context: " +:+ CurrentContext cc +:+ nl])
          | None => None
          end
    | _ => None
    end.

(** The part [config set] and [config use-context] have in common, from
    the authentication to the line with the server URL; [storing] and
    [done] are the two lines that differ. *)
Definition login (net : network) (v : ContextDetail) (storing done : string) : M string :=
  _ ← print ("Authenticating with Keycloak..." +:+ nl);
  jwtToken ← wrap "failed to authenticate with Keycloak"
               (digit_auth.GetJWTToken net (ctx_Server v) (ctx_Realm v) (ctx_ClientID v)
                  (ctx_ClientSecret v) (ctx_Username v) (ctx_Password v));
  _ ← print ("✓ Authentication successful!" +:+ nl);
  _ ← print storing;
  _ ← wrap "failed to set server URL" (config_globals.SetServerURL (ctx_Server v));
  _ ← wrap "failed to set JWT token" (config.SetJWTToken jwtToken);
  _ ← wrap "failed to store auth config"
        (config_globals.SetAuthConfig (ctx_Server v) (ctx_Realm v) (ctx_ClientID v)
           (ctx_ClientSecret v) (ctx_Username v) (ctx_Password v));
  _ ← print done;
  _ ← print ("Server URL: " +:+ ctx_Server v +:+ nl);
  mret jwtToken.

(** The world after a login: the token request for [v] was sent, the
    configuration holds the server, the token and the credentials, and
    [lines] were printed. *)
Definition logged_in (w : world) (v : ContextDetail) (token : string) (lines : list string)
  : world :=
  mkWorld (File (mkConfig (ctx_Server v) token (Some (credentials_of v)))) (save_error w)
    (trace w ++ [TokenRequest (credentials_request (credentials_of v))])
    (stdout w ++ lines).

(** What [config set] prints up to the line with the token. *)
Definition set_lines (found : list string) (v : ContextDetail) : list string :=
  found ++ ["Server: " +:+ ctx_Server v +:+ nl;
            "Account: " +:+ ctx_Realm v +:+ nl;
            "Username: " +:+ ctx_Username v +:+ nl;
            "Authenticating with Keycloak..." +:+ nl;
            "✓ Authentication successful!" +:+ nl;
            "Storing configuration..." +:+ nl;
            "✓ Configuration stored successfully!" +:+ nl;
            "Server URL: " +:+ ctx_Server v +:+ nl].

(** What [config use-context] prints up to the line with the token. *)
Definition use_lines (contextName filePath : string) (v : ContextDetail) : list string :=
  ["Loading configuration from: " +:+ filePath +:+ nl;
   "Switching to context: " +:+ contextName +:+ nl;
   "Server: " +:+ ctx_Server v +:+ nl;
   "Realm: " +:+ ctx_Realm v +:+ nl;
   "Username: " +:+ ctx_Username v +:+ nl;
   "Authenticating with Keycloak..." +:+ nl;
   "✓ Authentication successful!" +:+ nl;
   "Updating configuration..." +:+ nl;
   "✓ Switched to context '" +:+ contextName +:+ "' successfully!" +:+ nl;
   "Server URL: " +:+ ctx_Server v +:+ nl].

(** The last line of the two commands: the first fifty bytes of the
    token. *)
Definition token_line (token : string) : string :=
  "JWT Token: " +:+ substring 0 50 token +:+ "..." +:+ nl.

(** The token endpoint grants the credentials of [v] the token [token],
    whatever was sent before, and the configuration can be written. *)
Definition grants (net : network) (w : world) (v : ContextDetail) (token : string) : Prop :=
  complete (credentials_of v)
  ∧ url_ok net (req_url (credentials_request (credentials_of v))) = true
  ∧ (∃ text fields,
       answer net (trace w) (credentials_request (credentials_of v)) = Response 200 text
       ∧ Json.Unmarshal digit_auth.token_schema text = Some fields
       ∧ Json.get_string fields "access_token" = token)
  ∧ is_Some (stored_config w) ∧ save_error w = None.

End CommandVocabulary.

Section WorkflowCommandVocabulary.
Import cmd cmd_workflow.

(** The value a command works with: the flag, and the stored value when the
    flag is empty. *)
Definition resolved (flag stored : string) : string :=
  if String.eqb flag "" then stored else flag.

(** The flags [create-workflow] accepts: a file, or the default definition
    with a code. *)
Definition flags_valid (f : WorkflowFlags) : Prop :=
  if wf_default f then wf_file f = "" ∧ wf_code f ≠ "" else wf_file f ≠ "".

(** The text of the definition: the default one with the code of the flag,
    or the content of the file. *)
Definition definition_text (ReadFile : string → option string) (f : WorkflowFlags)
  : option string :=
  if wf_default f then Some (Replace_first defaultWorkflowYAML "DEFAULT_CODE" (wf_code f))
  else ReadFile (wf_file f).

(** What the command prints before step 1. *)
Definition default_notice (f : WorkflowFlags) : list string :=
  if wf_default f
  then ["Using default workflow configuration with code: " +:+ wf_code f +:+ nl]
  else [].

End WorkflowCommandVocabulary.

Section ExampleVocabulary.
Import context cmd_config.

(** A token endpoint that grants every request the token [token_acme]. *)
Definition net_acme : network :=
  mkNetwork (λ _, true) (λ _ _, Response 200 (json_member "access_token" token_acme)).

(** A service that answers every request with the status 202. *)
Definition net_202 : network :=
  mkNetwork (λ _, true) (λ _ _, Response 202 "{}").

(** A machine without a configuration file. *)
Definition fresh_world : world := mkWorld NoFile None [] [].

(** The six flags of [config set] with the values of
    [sample_credentials]. *)
Definition sample_flags : SetFlags :=
  mkSetFlags "" "https://srv" "ACME" "cli" "secret" "user" "pw".

(** A context file with the one context dev, which is the current one. *)
Definition sample_contexts : ContextConfig :=
  mkContextConfig "v1" "Config" "dev"
    [mkContext "dev" (mkContextDetail "https://srv" "ACME" "cli" "secret" "user" "pw")].

End ExampleVocabulary.

Section BodyVocabulary.
Import Json.

(** A byte that [%s] between quotes writes as JSON reads it: ASCII, no
    control character, no quote and no backslash. *)
Definition verbatim_byte (c : ascii) : Prop :=
  32 <= code c < 128 ∧ c ≠ "034"%char ∧ c ≠ "\"%char.

Definition verbatim (s : string) : Prop :=
  Forall verbatim_byte (list_ascii_of_string s).

(** The member [key] of an object, with the string [s] as its value. *)
Definition string_member (key s : string) : list ascii * value :=
  (list_ascii_of_string key, VStr (list_ascii_of_string s)).

(** A byte that ends a number. *)
Definition number_end (c : ascii) : Prop :=
  is_digit c = false ∧ c ≠ "."%char ∧ c ≠ "e"%char ∧ c ≠ "E"%char.

(** The text of [%s] between quotes. *)
Definition quoted_text (s : string) : list ascii :=
  "034"%char :: list_ascii_of_string s ++ ["034"%char].

(** A line of a body: the line feed, the indentation, the key between
    quotes, the colon and a space; [rest] follows, the value first. *)
Definition line (indent : nat) (key : string) (rest : list ascii) : list ascii :=
  ("010"%char :: repeat " "%char indent)
  ++ "034"%char :: list_ascii_of_string key ++ "034"%char :: ":"%char :: " "%char :: rest.

(** The end of an object: the line feed, the indentation and the brace. *)
Definition closing (indent : nat) (rest : list ascii) : list ascii :=
  "010"%char :: repeat " "%char indent ++ "}"%char :: rest.

(** The object the body of [CreateProcess] is. *)
Definition process_object (name code description version : string) (sla : list ascii)
  : value :=
  VObj [string_member "name" name; string_member "code" code;
        string_member "description" description; string_member "version" version;
        (list_ascii_of_string "sla", VNum sla)].

(** The object the body of [CreateState] is. *)
Definition state_object (code name : string) (isInitial isParallel isJoin : bool)
    (sla : list ascii) : value :=
  VObj [string_member "code" code; string_member "name" name;
        (list_ascii_of_string "isInitial", VBool isInitial);
        (list_ascii_of_string "isParallel", VBool isParallel);
        (list_ascii_of_string "isJoin", VBool isJoin);
        (list_ascii_of_string "sla", VNum sla)].

(** The object the body of [CreateAction] is. *)
Definition action_object (name nextState : string) (roles : list string)
    (assigneeCheck : bool) : value :=
  VObj [string_member "name" name; string_member "nextState" nextState;
        (list_ascii_of_string "attributeValidation",
         VObj [(list_ascii_of_string "attributes",
                VObj [(list_ascii_of_string "roles",
                       VArr (map (λ r, VStr (list_ascii_of_string r)) roles))]);
               (list_ascii_of_string "assigneeCheck", VBool assigneeCheck)])].

End BodyVocabulary.

Section RefreshVocabulary.

(** A token endpoint that answers every request with the status 200 and an
    empty object. *)
Definition net_empty_object : network :=
  mkNetwork (λ _, true) (λ _ _, Response 200 "{}").

End RefreshVocabulary.

Section LoginVocabulary.

(** An answer of the token endpoint that gives no token: no answer, a
    status other than 200, or a body that is no token response. *)
Definition refused (o : outcome) : Prop :=
  match o with
  | Response status text =>
      status ≠ 200 ∨ Json.Unmarshal digit_auth.token_schema text = None
  | _ => True
  end.

End LoginVocabulary.

Section RunVocabulary.
Import GoStrings digit_workflow.

(** A request of a create-workflow run: a POST to the workflow service of
    the server, with the token and the tenant of the run. *)
Definition creation_request (serverURL jwtToken tenantID : string) (ev : event) : Prop :=
  req_method (request_of ev) = "POST"
  ∧ req_headers (request_of ev) = json_headers jwtToken tenantID
  ∧ ∃ path,
      req_url (request_of ev) = TrimSuffixSlash serverURL +:+ "/workflow/v1/" +:+ path.

(** From [w] to [w'] only creation requests were sent. *)
Definition sends_only (serverURL jwtToken tenantID : string) (w' w : world) : Prop :=
  ∃ issued, trace w' = trace w ++ issued
    ∧ Forall (creation_request serverURL jwtToken tenantID) issued.

End RunVocabulary.

(** * Properties *)

(** ** Splitting *)

Section SplitFacts.
Import GoStrings.
Variable sep : ascii.

Lemma Split_length (s : string) : length (Split s sep) = S (Count s sep).
Proof.
  induction s as [|c s IH]; simpl; [reflexivity|].
  destruct (Ascii.eqb c sep); simpl.
  - now rewrite IH.
  - destruct (Split s sep) as [|p ps] eqn:E; simpl in *; lia.
Qed.

Lemma Split_append (a b : string) :
  Split (a +:+ String sep b) sep = Split a sep ++ Split b sep.
Proof.
  induction a as [|c a IH]; simpl.
  - now rewrite Ascii.eqb_refl.
  - destruct (Ascii.eqb c sep); [now rewrite IH|].
    rewrite IH. destruct (Split a sep) as [|p ps] eqn:E; [|reflexivity].
    pose proof (Split_length a) as L. rewrite E in L. discriminate.
Qed.

Lemma Split_no_sep (s : string) : Count s sep = 0%nat → Split s sep = [s].
Proof.
  induction s as [|c s IH]; simpl; [reflexivity|].
  destruct (Ascii.eqb c sep); [discriminate|].
  intros H. now rewrite IH.
Qed.

Lemma Count_append (a b : string) :
  Count (a +:+ b) sep = (Count a sep + Count b sep)%nat.
Proof. induction a as [|c a IH]; simpl; [reflexivity|]. rewrite IH. lia. Qed.

(** A string with two separators, none inside the three pieces. *)
Lemma Split_three (h p s : string) :
  Count h sep = 0%nat → Count p sep = 0%nat → Count s sep = 0%nat →
  Split (h +:+ String sep (p +:+ String sep s)) sep = [h; p; s].
Proof.
  intros Hh Hp Hs. rewrite !Split_append, !Split_no_sep by assumption. reflexivity.
Qed.

End SplitFacts.

(** ** Base64 *)

Section Base64Facts.
Import Base64.

Lemma list_ind3 {A} (P : list A → Prop) :
  P [] → (∀ a, P [a]) → (∀ a b, P [a; b]) →
  (∀ a b c l, P l → P (a :: b :: c :: l)) → ∀ l, P l.
Proof.
  intros H0 H1 H2 H3 l.
  enough (P l ∧ (∀ a, P (a :: l)) ∧ (∀ a b, P (a :: b :: l))) by tauto.
  induction l as [|x l (IH0 & IH1 & IH2)]; [auto|].
  repeat split; auto.
Qed.

(** Reading back a character of the alphabet. *)
Lemma decodeMap_encode_char (i : Z) :
  0 <= i < 64 → decodeMap (encode_char i) = Some i.
Proof.
  intros H. rewrite <- (Z2Nat.id i) by lia.
  assert (Hn : (Z.to_nat i < 64)%nat) by lia.
  generalize dependent (Z.to_nat i). clear. intros n Hn.
  do 64 (destruct n as [|n]; [reflexivity|]). lia.
Qed.

Lemma encode_char_not_special (i : Z) :
  encode_char i ≠ "."%char ∧ encode_char i ≠ padChar ∧ is_newline (encode_char i) = false.
Proof.
  unfold encode_char. generalize (Z.to_nat i). intros n.
  do 64 (destruct n as [|n]; [repeat split; discriminate|]).
  repeat split; discriminate.
Qed.

(** Shifts and masks as arithmetic. *)
Lemma lor_disjoint_add (a b n : Z) :
  0 <= n → 0 <= b < 2 ^ n → a mod 2 ^ n = 0 → Z.lor a b = a + b.
Proof.
  intros Hn Hb Ha.
  rewrite (Z.div_mod a (2 ^ n)), Ha, Z.add_0_r, Z.mul_comm by lia.
  generalize (a / 2 ^ n). clear a Ha. intros a.
  rewrite <- Z.lxor_lor, <- Z.add_nocarry_lxor; try reflexivity.
  all: apply Z.bits_inj'; intros k Hk; rewrite Z.land_spec, Z.bits_0.
  all: destruct (Z.ltb_spec k n) as [Hlt|Hge].
  all: try (rewrite Z.mul_pow2_bits_low by assumption; reflexivity).
  all: destruct (Z.eq_dec b 0) as [->|Hb0];
    [rewrite Z.bits_0; apply andb_false_r|].
  all: assert (Z.log2 b < n) by (apply Z.log2_lt_pow2; lia).
  all: rewrite (Z.bits_above_log2 b k) by lia; apply andb_false_r.
Qed.

Lemma Z_of_byte_range (c : ascii) : 0 <= Z_of_byte c < 256.
Proof.
  unfold Z_of_byte. pose proof (N_ascii_bounded c). lia.
Qed.

Lemma byte_of_Z_of_byte (c : ascii) : byte_of_Z (Z_of_byte c) = c.
Proof.
  unfold byte_of_Z. pose proof (Z_of_byte_range c).
  rewrite Z.mod_small by assumption. unfold Z_of_byte.
  rewrite N2Z.id. apply ascii_N_embedding.
Qed.

Lemma byte_of_Z_eq (v : Z) (c : ascii) : v mod 256 = Z_of_byte c → byte_of_Z v = c.
Proof.
  intros H. unfold byte_of_Z. rewrite H. unfold Z_of_byte.
  rewrite N2Z.id. apply ascii_N_embedding.
Qed.

Lemma encode3_sextets (a b c : ascii) :
  encode3 a b c = map encode_char (sextets (Z_of_byte a) (Z_of_byte b) (Z_of_byte c)).
Proof. reflexivity. Qed.

Lemma pack_bytes (x y z : Z) :
  0 <= x < 256 → 0 <= y < 256 → 0 <= z < 256 →
  Z.lor (Z.lor (Z.shiftl x 16) (Z.shiftl y 8)) z = x * 65536 + y * 256 + z.
Proof.
  intros Hx Hy Hz. rewrite !Z.shiftl_mul_pow2 by lia.
  rewrite (lor_disjoint_add (x * 2 ^ 16) (y * 2 ^ 8) 16); try lia.
  - rewrite (lor_disjoint_add _ z 8); try lia.
    change (2 ^ 16) with (256 * 2 ^ 8).
    rewrite Z.mul_assoc, <- Z.mul_add_distr_r. apply Z.mod_mul. lia.
  - apply Z.mod_mul. lia.
Qed.

Lemma sextets_arith (x y z : Z) :
  0 <= x < 256 → 0 <= y < 256 → 0 <= z < 256 →
  sextets x y z =
    [x / 4; (x mod 4) * 16 + y / 16; (y mod 16) * 4 + z / 64; z mod 64].
Proof.
  intros Hx Hy Hz. unfold sextets. rewrite pack_bytes by assumption.
  change 63 with (Z.ones 6). rewrite !Z.land_ones, !Z.shiftr_div_pow2 by lia.
  change (2 ^ 18) with 262144. change (2 ^ 12) with 4096.
  change (2 ^ 6) with 64.
  f_equal; [|f_equal; [|f_equal; [|f_equal]]]; Z.div_mod_to_equations; lia.
Qed.

Lemma assemble_arith (s0 s1 s2 s3 : Z) :
  0 <= s0 < 64 → 0 <= s1 < 64 → 0 <= s2 < 64 → 0 <= s3 < 64 →
  assemble [s0; s1; s2; s3] = s0 * 262144 + s1 * 4096 + s2 * 64 + s3.
Proof.
  intros H0 H1 H2 H3. unfold assemble. simpl nth.
  rewrite !Z.shiftl_mul_pow2 by lia.
  rewrite (lor_disjoint_add (s0 * 2 ^ 18) (s1 * 2 ^ 12) 18); try lia.
  - rewrite (lor_disjoint_add _ (s2 * 2 ^ 6) 12); try lia.
    + rewrite (lor_disjoint_add _ s3 6); try lia.
      change (2 ^ 18) with (4096 * 2 ^ 6). change (2 ^ 12) with (64 * 2 ^ 6).
      rewrite !Z.mul_assoc, <- !Z.mul_add_distr_r. apply Z.mod_mul. lia.
    + change (2 ^ 18) with (64 * 2 ^ 12).
      rewrite !Z.mul_assoc, <- !Z.mul_add_distr_r. apply Z.mod_mul. lia.
  - apply Z.mod_mul. lia.
Qed.

Lemma sextets_range (x y z : Z) :
  0 <= x < 256 → 0 <= y < 256 → 0 <= z < 256 →
  Forall (λ s, 0 <= s < 64) (sextets x y z).
Proof.
  intros Hx Hy Hz. rewrite sextets_arith by assumption.
  repeat constructor; Z.div_mod_to_equations; lia.
Qed.

(** A whole quantum gives back its three bytes. *)
Lemma quantum_bytes_3 (a b c : ascii) :
  quantum_bytes (sextets (Z_of_byte a) (Z_of_byte b) (Z_of_byte c)) = [a; b; c].
Proof.
  pose proof (Z_of_byte_range a) as Ha. pose proof (Z_of_byte_range b) as Hb.
  pose proof (Z_of_byte_range c) as Hc.
  rewrite sextets_arith by assumption. unfold quantum_bytes.
  rewrite assemble_arith by (Z.div_mod_to_equations; lia).
  rewrite !Z.shiftr_div_pow2 by lia. simpl take.
  change (2 ^ 16) with 65536. change (2 ^ 8) with 256.
  f_equal; [|f_equal; [|f_equal]]; apply byte_of_Z_eq; Z.div_mod_to_equations; lia.
Qed.

(** The two sextets of a last lone byte, and the three of a last pair. *)
Lemma quantum_bytes_1 (a : ascii) :
  quantum_bytes (take 2 (sextets (Z_of_byte a) 0 0)) = [a].
Proof.
  pose proof (Z_of_byte_range a) as Ha.
  rewrite sextets_arith by lia. unfold quantum_bytes. simpl take.
  change (assemble [Z_of_byte a / 4; Z_of_byte a mod 4 * 16 + 0 / 16])
    with (assemble [Z_of_byte a / 4; Z_of_byte a mod 4 * 16 + 0 / 16; 0; 0]).
  rewrite assemble_arith by (Z.div_mod_to_equations; lia).
  rewrite !Z.shiftr_div_pow2 by lia. simpl take.
  change (2 ^ 16) with 65536.
  f_equal. apply byte_of_Z_eq. Z.div_mod_to_equations; lia.
Qed.

Lemma quantum_bytes_2 (a b : ascii) :
  quantum_bytes (take 3 (sextets (Z_of_byte a) (Z_of_byte b) 0)) = [a; b].
Proof.
  pose proof (Z_of_byte_range a) as Ha. pose proof (Z_of_byte_range b) as Hb.
  rewrite sextets_arith by lia. unfold quantum_bytes. simpl take.
  change (assemble [?s0; ?s1; ?s2]) with (assemble [s0; s1; s2; 0]).
  rewrite assemble_arith by (Z.div_mod_to_equations; lia).
  rewrite !Z.shiftr_div_pow2 by lia. simpl take.
  change (2 ^ 16) with 65536. change (2 ^ 8) with 256.
  f_equal; [|f_equal]; apply byte_of_Z_eq; Z.div_mod_to_equations; lia.
Qed.

Lemma decode_from_sextets (s0 s1 s2 s3 : Z) (rest : list ascii) :
  0 <= s0 < 64 → 0 <= s1 < 64 → 0 <= s2 < 64 → 0 <= s3 < 64 →
  decode_from (map encode_char [s0; s1; s2; s3] ++ rest) [] =
  option_map (app (quantum_bytes [s0; s1; s2; s3])) (decode_from rest []).
Proof.
  intros H0 H1 H2 H3. cbn [map app decode_from].
  rewrite !decodeMap_encode_char by assumption. reflexivity.
Qed.

Lemma decode_from_last2 (s0 s1 : Z) :
  0 <= s0 < 64 → 0 <= s1 < 64 →
  decode_from (map encode_char [s0; s1] ++ [padChar; padChar]) [] =
  Some (quantum_bytes [s0; s1]).
Proof.
  intros H0 H1. cbn [map app decode_from].
  rewrite !decodeMap_encode_char by assumption. reflexivity.
Qed.

Lemma decode_from_last3 (s0 s1 s2 : Z) :
  0 <= s0 < 64 → 0 <= s1 < 64 → 0 <= s2 < 64 →
  decode_from (map encode_char [s0; s1; s2] ++ [padChar]) [] =
  Some (quantum_bytes [s0; s1; s2]).
Proof.
  intros H0 H1 H2. cbn [map app decode_from].
  rewrite !decodeMap_encode_char by assumption. reflexivity.
Qed.

(** Decoding the padded form of an unpadded encoding gives the bytes back. *)
Lemma sextets_four (x y z : Z) :
  0 <= x < 256 → 0 <= y < 256 → 0 <= z < 256 →
  ∃ s0 s1 s2 s3, sextets x y z = [s0; s1; s2; s3] ∧
    0 <= s0 < 64 ∧ 0 <= s1 < 64 ∧ 0 <= s2 < 64 ∧ 0 <= s3 < 64.
Proof.
  intros Hx Hy Hz. pose proof (sextets_range x y z Hx Hy Hz) as R.
  unfold sextets in *. do 4 eexists. split; [reflexivity|].
  repeat match goal with H : Forall _ (_ :: _) |- _ => inversion_clear H end.
  tauto.
Qed.

Lemma decode_encode_raw (src : list ascii) :
  decode_from (encode_raw src ++ padding src) [] = Some src.
Proof.
  induction src as [|a|a b|a b c src IH] using list_ind3.
  - reflexivity.
  - pose proof (quantum_bytes_1 a) as Q.
    destruct (sextets_four (Z_of_byte a) 0 0) as (s0 & s1 & s2 & s3 & E & R);
      [apply Z_of_byte_range|lia|lia|].
    cbn [encode_raw padding]. rewrite encode3_sextets.
    change (Z_of_byte "000") with 0. rewrite E in *. rewrite <- Q.
    apply decode_from_last2; tauto.
  - pose proof (quantum_bytes_2 a b) as Q.
    destruct (sextets_four (Z_of_byte a) (Z_of_byte b) 0) as (s0 & s1 & s2 & s3 & E & R);
      [apply Z_of_byte_range|apply Z_of_byte_range|lia|].
    cbn [encode_raw padding]. rewrite encode3_sextets.
    change (Z_of_byte "000") with 0. rewrite E in *. rewrite <- Q.
    apply decode_from_last3; tauto.
  - pose proof (quantum_bytes_3 a b c) as Q.
    destruct (sextets_four (Z_of_byte a) (Z_of_byte b) (Z_of_byte c))
      as (s0 & s1 & s2 & s3 & E & R); try apply Z_of_byte_range.
    cbn [encode_raw padding]. rewrite encode3_sextets, <- app_assoc.
    rewrite E in *. rewrite decode_from_sextets, IH, Q by tauto. reflexivity.
Qed.

End Base64Facts.

(** ** Strings and lists of bytes *)

Lemma append_cons (c : ascii) (a b : string) : String c a +:+ b = String c (a +:+ b).
Proof. reflexivity. Qed.


Lemma append_empty_r (a : string) : a +:+ "" = a.
Proof. induction a as [|c a IH]; [reflexivity|]. now rewrite append_cons, IH. Qed.

Lemma string_of_list_ascii_app (l1 l2 : list ascii) :
  string_of_list_ascii (l1 ++ l2) = string_of_list_ascii l1 +:+ string_of_list_ascii l2.
Proof.
  induction l1 as [|c l1 IH]; simpl; [reflexivity|]. now rewrite append_cons, IH.
Qed.

Lemma string_length_of_list (l : list ascii) :
  String.length (string_of_list_ascii l) = length l.
Proof. induction l as [|c l IH]; simpl; [reflexivity|]. now rewrite IH. Qed.

Lemma string_length_append (a b : string) :
  String.length (a +:+ b) = (String.length a + String.length b)%nat.
Proof.
  induction a as [|c a IH]; [reflexivity|]. rewrite append_cons. simpl. now rewrite IH.
Qed.

Lemma string_append_assoc (a b c : string) : (a +:+ b) +:+ c = a +:+ (b +:+ c).
Proof.
  induction a as [|x a IH]; [reflexivity|]. rewrite !append_cons. now rewrite IH.
Qed.

Lemma Count_of_list (l : list ascii) (sep : ascii) :
  Forall (λ c, c ≠ sep) l → GoStrings.Count (string_of_list_ascii l) sep = 0%nat.
Proof.
  induction 1 as [|c l Hc _ IH]; simpl; [reflexivity|].
  destruct (Ascii.eqb_spec c sep); [contradiction|assumption].
Qed.

(** ** The padding loop *)

Section Padding.
Import jwt.

Lemma add_padding_spec (payload : string) :
  add_padding payload = payload +:+ pad_of (String.length payload).
Proof.
  unfold add_padding, pad_of. cbn [pad_loop].
  rewrite !string_length_append. cbn [String.length].
  destruct (Nat.eqb_spec (String.length payload mod 4) 0) as [->|H0].
  { now rewrite append_empty_r. }
  destruct (Nat.eqb_spec ((String.length payload + 1) mod 4) 0) as [H1|H1].
  { replace (String.length payload mod 4)%nat with 3%nat; [reflexivity|].
    revert H1. generalize (String.length payload). intros n.
    rewrite Nat.Div0.add_mod. pose proof (Nat.mod_upper_bound n 4 ltac:(lia)).
    destruct (n mod 4)%nat as [|[|[|[|]]]]; simpl; try discriminate; lia. }
  destruct (Nat.eqb_spec ((String.length payload + 1 + 1) mod 4) 0) as [H2|H2].
  { replace (String.length payload mod 4)%nat with 2%nat;
      [now rewrite string_append_assoc|].
    revert H2 H1. generalize (String.length payload). intros n.
    rewrite <- Nat.add_assoc, (Nat.Div0.add_mod n (1 + 1)), (Nat.Div0.add_mod n 1).
    pose proof (Nat.mod_upper_bound n 4 ltac:(lia)).
    destruct (n mod 4)%nat as [|[|[|[|]]]]; simpl; try discriminate; try lia.
    all: intros; congruence. }
  replace (String.length payload mod 4)%nat with 1%nat;
    [now rewrite !string_append_assoc|].
  revert H2 H1 H0. generalize (String.length payload). intros n.
  rewrite <- Nat.add_assoc, (Nat.Div0.add_mod n (1 + 1)), (Nat.Div0.add_mod n 1).
  pose proof (Nat.mod_upper_bound n 4 ltac:(lia)).
  destruct (n mod 4)%nat as [|[|[|[|]]]]; simpl; try discriminate; try lia.
  all: intros; congruence.
Qed.

(** The loop ends: its result has a length that is a multiple of four. *)
Lemma add_padding_length (payload : string) :
  (String.length (add_padding payload) mod 4 = 0)%nat.
Proof.
  rewrite add_padding_spec, string_length_append. unfold pad_of.
  generalize (String.length payload). intros n.
  rewrite Nat.Div0.add_mod. pose proof (Nat.mod_upper_bound n 4 ltac:(lia)).
  destruct (n mod 4)%nat as [|[|[|[|]]]]; simpl; try reflexivity; lia.
Qed.

End Padding.

(** ** Segments of a token *)

Section Segments.
Import GoStrings.




Lemma three_segments_Split (token h p s : string) :
  three_segments token h p s → Split token "." = [h; p; s].
Proof.
  intros (-> & Hh & Hp & Hs). change ("." +:+ ?x) with (String "."%char x).
  now apply Split_three.
Qed.


End Segments.

(** ** Decoding claims *)

Section DecodeClaims.
Import GoStrings jwt.

Lemma DecodeJWT_three (token h p s : string) :
  three_segments token h p s →
  DecodeJWT token =
    match payload_claims p with
    | Some c => Ok c
    | None =>
        match Base64.DecodeString (add_padding p) with
        | None => Err (Wrapf "failed to decode JWT payload" (LibError "base64"))
        | Some _ => Err (Wrapf "failed to parse JWT claims" (LibError "json"))
        end
    end.
Proof.
  intros H. unfold DecodeJWT, payload_claims.
  rewrite (three_segments_Split _ _ _ _ H). cbn [length Nat.eqb negb nth].
  destruct (Base64.DecodeString (add_padding p)) as [d|]; [|reflexivity].
  destruct (unmarshal_claims d); reflexivity.
Qed.


(** Characters of an unpadded encoding: none is a dot. *)
Lemma encode_raw_no_dot (src : list ascii) :
  Forall (λ c, c ≠ "."%char) (Base64.encode_raw src).
Proof.
  induction src as [|a|a b|a b c src IH] using list_ind3; cbn [Base64.encode_raw].
  - constructor.
  - repeat constructor; apply encode_char_not_special.
  - repeat constructor; apply encode_char_not_special.
  - apply Forall_app. split; [|assumption].
    repeat constructor; apply encode_char_not_special.
Qed.

Lemma encode_raw_length (src : list ascii) :
  string_of_list_ascii (padding src) = pad_of (length (Base64.encode_raw src)).
Proof.
  induction src as [|a|a b|a b c src IH] using list_ind3; try reflexivity.
  cbn [Base64.encode_raw padding]. rewrite IH. unfold pad_of.
  rewrite length_app. change (length (Base64.encode3 a b c)) with (1 * 4)%nat.
  now rewrite Nat.add_comm, Nat.Div0.mod_add.
Qed.

(** The padding loop completes an unpadded encoding, and decoding gives the
    bytes back. *)
Lemma DecodeString_RawEncode (data : string) :
  Base64.DecodeString (add_padding (Base64.RawEncodeToString data)) = Some data.
Proof.
  rewrite add_padding_spec. unfold Base64.RawEncodeToString, Base64.DecodeString.
  rewrite string_length_of_list, <- encode_raw_length, <- string_of_list_ascii_app.
  rewrite list_ascii_of_string_of_list_ascii, decode_encode_raw. simpl.
  now rewrite string_of_list_ascii_of_string.
Qed.

(** A JSON text that the decoder reads as [c], base64url-encoded without
    padding and placed as the middle of three segments, decodes to [c]. *)
Lemma DecodeJWT_of_json (c : JWTClaims) (json h s : string) :
  unmarshal_claims json = Some c →
  Count h "." = 0%nat → Count s "." = 0%nat →
  DecodeJWT (h +:+ "." +:+ Base64.RawEncodeToString json +:+ "." +:+ s) = Ok c.
Proof.
  intros Hjson Hh Hs.
  assert (T : three_segments
                (h +:+ "." +:+ Base64.RawEncodeToString json +:+ "." +:+ s)
                h (Base64.RawEncodeToString json) s).
  { repeat split; try assumption. apply Count_of_list, encode_raw_no_dot. }
  rewrite (DecodeJWT_three _ _ _ _ T). unfold payload_claims.
  now rewrite DecodeString_RawEncode, Hjson.
Qed.

(** C10. Two tokens of three segments with the same middle segment get the
    same result from [DecodeJWT], [ExtractTenantID], [ExtractClientID] and
    [IsTokenExpired], whatever their first and last segments are. *)
Theorem decode_depends_on_middle_segment
    (t1 t2 h1 h2 p s1 s2 : string) (now : Z) :
  three_segments t1 h1 p s1 → three_segments t2 h2 p s2 →
  DecodeJWT t1 = DecodeJWT t2
  ∧ ExtractTenantID t1 = ExtractTenantID t2
  ∧ ExtractClientID t1 = ExtractClientID t2
  ∧ IsTokenExpired now t1 = IsTokenExpired now t2.
Proof.
  intros H1 H2.
  assert (E : DecodeJWT t1 = DecodeJWT t2).
  { now rewrite (DecodeJWT_three _ _ _ _ H1), (DecodeJWT_three _ _ _ _ H2). }
  unfold ExtractTenantID, ExtractClientID, IsTokenExpired. rewrite E. tauto.
Qed.

End DecodeClaims.

(** ** Tenant identifier and expiry *)

Section TenantAndExpiry.
Import GoStrings jwt.

Lemma Split_last (pre realm : string) (sep : ascii) :
  Count realm sep = 0%nat →
  ∃ front, Split (pre +:+ String sep realm) sep = front ++ [realm] ∧ front ≠ [].
Proof.
  intros H. exists (Split pre sep). rewrite Split_append, (Split_no_sep _ _ H).
  split; [reflexivity|]. pose proof (Split_length sep pre) as L.
  destruct (Split pre sep); [discriminate|congruence].
Qed.

Lemma ExtractTenantID_of_claims (token : string) (c : JWTClaims) :
  DecodeJWT token = Ok c →
  ExtractTenantID token =
    let parts := Split (Iss c) "/" in
    if (length parts <? 2)%nat then Err (Errorf "invalid issuer format in JWT")
    else if String.eqb (nth (length parts - 1) parts "") ""
         then Err (Errorf "could not extract realm from JWT issuer")
         else Ok (nth (length parts - 1) parts "").
Proof. intros H. unfold ExtractTenantID. now rewrite H. Qed.

(** C5, as the code has it. For a token that decodes to the claim set [c]:
    when the issuer is [pre/realm] with no slash in [realm] and [realm] not
    empty, [ExtractTenantID] returns [realm]; it fails when the issuer has no
    slash at all (an absent issuer is the empty string) and when the issuer
    ends with a slash. *)
Theorem ExtractTenantID_last_component (token : string) (c : JWTClaims) :
  DecodeJWT token = Ok c →
  (∀ pre realm, Iss c = pre +:+ "/" +:+ realm → Count realm "/" = 0%nat →
     realm ≠ "" → ExtractTenantID token = Ok realm)
  ∧ (Count (Iss c) "/" = 0%nat →
     ExtractTenantID token = Err (Errorf "invalid issuer format in JWT"))
  ∧ (Iss c = "" → ExtractTenantID token = Err (Errorf "invalid issuer format in JWT"))
  ∧ (∀ pre, Iss c = pre +:+ "/" →
     ExtractTenantID token = Err (Errorf "could not extract realm from JWT issuer")).
Proof.
  intros H. rewrite (ExtractTenantID_of_claims _ _ H). cbv zeta.
  assert (Last : ∀ pre realm, Iss c = pre +:+ "/" +:+ realm → Count realm "/" = 0%nat →
            (length (Split (Iss c) "/") <? 2)%nat = false
            ∧ nth (length (Split (Iss c) "/") - 1) (Split (Iss c) "/") "" = realm).
  { intros pre realm E Hr. change ("/" +:+ realm) with (String "/"%char realm) in E.
    destruct (Split_last pre realm "/" Hr) as (front & S & Hf). rewrite E, S.
    rewrite length_app. cbn [length]. split.
    - destruct front; [congruence|]. apply Nat.ltb_ge. cbn [length]. lia.
    - replace (length front + 1 - 1)%nat with (length front) by lia.
      now rewrite nth_middle. }
  repeat split.
  - intros pre realm E Hr Hne. destruct (Last pre realm E Hr) as [-> ->].
    destruct (String.eqb_spec realm ""); [contradiction|reflexivity].
  - intros H0. now rewrite (Split_no_sep _ _ H0).
  - intros ->. reflexivity.
  - intros pre E. rewrite <- (append_empty_r (pre +:+ "/")), string_append_assoc in E.
    destruct (Last pre "" E eq_refl) as [-> ->]. reflexivity.
Qed.

(** The issuer of [token_acme] gives ACME; the issuer of a token without
    one is refused. *)
Lemma ExtractTenantID_acme :
  DecodeJWT token_acme = Ok (mkClaims "u-123" "https://host/x/realms/ACME"
                               "" "" "" "" "" 2000000000 0)
  ∧ ExtractTenantID token_acme = Ok "ACME"
  ∧ ExtractTenantID "e30.e30.sig" = Err (Errorf "invalid issuer format in JWT").
Proof.
  destruct (ExtractTenantID_last_component token_acme
              (mkClaims "u-123" "https://host/x/realms/ACME" "" "" "" "" "" 2000000000 0)
              ltac:(vm_compute; reflexivity)) as (Hlast & _).
  split; [vm_compute; reflexivity|]. split; [|vm_compute; reflexivity].
  apply (Hlast "https://host/x/realms" "ACME"); [reflexivity|reflexivity|discriminate].
Defined.

(** C5, the claim as stated fails: the issuer https://host has no path
    segment after the host, and [ExtractTenantID] does not fail on it: it
    returns the host. *)
Lemma ExtractTenantID_host_only :
  DecodeJWT token_host_only = Ok (mkClaims "" "https://host" "" "" "" "" "" 0 0)
  ∧ issuer_path_segments "https://host" = []
  ∧ ExtractTenantID token_host_only = Ok "host".
Proof. vm_compute. repeat split. Qed.


(** [token_acme] expires at 2000000000 s: not expired 31 s before, expired
    29 s before; a token that is no token counts as expired. *)
Lemma IsTokenExpired_examples :
  IsTokenExpired (Unix 1999999969) token_acme = (false, None)
  ∧ IsTokenExpired (Unix 1999999970) token_acme = (false, None)
  ∧ IsTokenExpired (Unix 1999999971) token_acme = (true, None)
  ∧ fst (IsTokenExpired 0 "not-a-token") = true.
Proof. vm_compute. repeat split. Qed.

End TenantAndExpiry.

(** ** Token lifecycle *)

Section TokenLifecycle.
Import jwt auth.

Lemma eqb_neq_false (s : string) : s ≠ "" → String.eqb s "" = false.
Proof. intros H. now apply String.eqb_neq. Qed.

Lemma GetJWTToken_complete (net : network) (a : AuthConfig) (w : world) :
  complete a → url_ok net (req_url (credentials_request a)) = true →
  digit_auth.GetJWTToken net (ServerURL a) (Realm a) (ClientID a) (ClientSecret a)
    (Username a) (Password a) w =
  match answer net (trace w) (credentials_request a) with
  | Response status text =>
      if status =? 200 then
        match Json.Unmarshal digit_auth.token_schema text with
        | Some m => (Ok (Json.get_string m "access_token"), requested w a)
        | None => (Err (Wrapf "failed to parse token response" (LibError "json")),
                   requested w a)
        end
      else (Err (Errorf ("failed to get token: " +:+ text)), requested w a)
  | _ => (Err (Wrapf "failed to make token request" (LibError "resty")), requested w a)
  end.
Proof.
  intros (H1 & H2 & H3 & H4 & H5 & H6) Hurl. unfold digit_auth.GetJWTToken.
  rewrite !eqb_neq_false by assumption.
  fold (credentials_request a). rewrite Hurl. cbn [negb].
  unfold mbind, M_bind, send. fold (requested w a).
  destruct (answer net (trace w) (credentials_request a)) as [| |status text];
    try reflexivity.
  destruct (status =? 200); [|reflexivity].
  destruct (Json.Unmarshal digit_auth.token_schema text); reflexivity.
Qed.

(** What [RefreshToken] does with a stored configuration. *)
Lemma RefreshToken_cases (net : network) (w : world) (cfg : Config) :
  disk w = File cfg →
  RefreshToken net w =
    match Auth cfg with
    | None => (Err NoCredentialsError, w)
    | Some a =>
        match digit_auth.GetJWTToken net (ServerURL a) (Realm a) (ClientID a)
                (ClientSecret a) (Username a) (Password a) w with
        | (Err e, w1) => (Err (AuthenticationError e), w1)
        | (Ok newToken, w1) =>
            match config.SetJWTToken newToken w1 with
            | (Err e, w2) => (Err (Wrapf "failed to store new token" e), w2)
            | (Ok _, w2) => (Ok newToken, w2)
            end
        end
    end.
Proof.
  intros D. unfold RefreshToken, mbind, M_bind, wrap, config.GetAuthConfig, config.Load.
  unfold mbind, M_bind. rewrite D. cbn [mret M_ret].
  destruct (Auth cfg) as [a|]; [|reflexivity].
  destruct (digit_auth.GetJWTToken _ _ _ _ _ _ _ w) as [[t|e] w1]; [|reflexivity].
  destruct (config.SetJWTToken t w1) as [[[]|e] w2]; reflexivity.
Qed.

Lemma SetJWTToken_stored (w : world) (cfg : Config) (a : AuthConfig) (token : string) :
  disk w = File cfg → save_error w = None →
  config.SetJWTToken token (requested w a) = (Ok (), stored (requested w a) cfg token).
Proof.
  intros D S. unfold config.SetJWTToken, config.Load, config.Save, mbind, M_bind.
  unfold requested. simpl. rewrite D. simpl. rewrite S. reflexivity.
Qed.

End TokenLifecycle.

Section TokenTheorems.
Import jwt auth.

(** [GetValidJWTToken], by what is cached. *)
Lemma GetValidJWTToken_cases (net : network) (now : Z) (w : world) (cfg : Config) :
  disk w = File cfg →
  GetValidJWTToken net now w =
    if String.eqb (JWTToken cfg) "" then
      (Err (Errorf "no JWT token found. Please run 'digit config set' to authenticate"), w)
    else
      match DecodeJWT (JWTToken cfg) with
      | Err e => (Err (Wrapf "failed to validate token" e), w)
      | Ok c =>
          if Unix (Exp c) <? now + 30 * second then
            match RefreshToken net (printed w ("JWT token expired, refreshing..." +:+ nl)) with
            | (Ok t, w') => (Ok t, printed w' ("✓ Token refreshed successfully!" +:+ nl))
            | (Err e, w') => (Err (Wrapf "failed to refresh token" e), w')
            end
          else (Ok (JWTToken cfg), w)
      end.
Proof.
  intros D. unfold GetValidJWTToken, mbind, M_bind, wrap, config.GetJWTToken, config.Load.
  unfold mbind, M_bind. rewrite D. cbn [mret M_ret].
  destruct (String.eqb (JWTToken cfg) ""); [reflexivity|].
  unfold IsTokenExpired. destruct (DecodeJWT (JWTToken cfg)) as [c|e]; [|reflexivity].
  destruct (Unix (Exp c) <? now + 30 * second); [|reflexivity].
  unfold print. fold (printed w ("JWT token expired, refreshing..." +:+ nl)).
  destruct (RefreshToken net _) as [[t|e] w']; reflexivity.
Qed.




End TokenTheorems.

Section RefreshTheorems.
Import jwt auth.

Lemma RefreshToken_complete (net : network) (w : world) (cfg : Config) (a : AuthConfig) :
  disk w = File cfg → Auth cfg = Some a → complete a →
  url_ok net (req_url (credentials_request a)) = true →
  RefreshToken net w =
    match answer net (trace w) (credentials_request a) with
    | Response status text =>
        if status =? 200 then
          match Json.Unmarshal digit_auth.token_schema text with
          | Some m =>
              match save_error w with
              | None => (Ok (Json.get_string m "access_token"),
                         stored (requested w a) cfg (Json.get_string m "access_token"))
              | Some e => (Err (Wrapf "failed to store new token" e), requested w a)
              end
          | None =>
              (Err (AuthenticationError
                      (Wrapf "failed to parse token response" (LibError "json"))),
               requested w a)
          end
        else (Err (AuthenticationError (Errorf ("failed to get token: " +:+ text))),
              requested w a)
    | _ => (Err (AuthenticationError
                   (Wrapf "failed to make token request" (LibError "resty"))),
            requested w a)
    end.
Proof.
  intros D A C U. rewrite (RefreshToken_cases net w cfg D), A.
  rewrite (GetJWTToken_complete net a w C U).
  destruct (answer net (trace w) (credentials_request a)) as [| |status text];
    try reflexivity.
  destruct (status =? 200); [|reflexivity].
  destruct (Json.Unmarshal digit_auth.token_schema text) as [m|]; [|reflexivity].
  destruct (save_error w) as [e|] eqn:S.
  - unfold config.SetJWTToken, config.Load, config.Save, mbind, M_bind, requested.
    simpl. rewrite D. simpl. rewrite S. reflexivity.
  - now rewrite (SetJWTToken_stored w cfg a _ D S).
Qed.


End RefreshTheorems.

(** ** The order of the creation calls *)

Section Orchestration.
Import cmd digit_workflow.


Lemma all_ok_app (net : network) (l1 l2 hist : list event) :
  all_ok net hist l1 → all_ok net (hist ++ l1) l2 → all_ok net hist (l1 ++ l2).
Proof.
  revert hist. induction l1 as [|ev l1 IH]; intros hist H1 H2; simpl.
  - now rewrite app_nil_r in H2.
  - destruct H1 as [H H1]. split; [assumption|]. apply IH; [assumption|].
    now rewrite <- app_assoc.
Qed.

Lemma all_but_last_ok_app (net : network) (l1 l2 hist : list event) :
  all_ok net hist l1 → all_but_last_ok net (hist ++ l1) l2 →
  all_but_last_ok net hist (l1 ++ l2).
Proof.
  revert hist. induction l1 as [|ev l1 IH]; intros hist H1 H2.
  - now rewrite app_nil_r in H2.
  - destruct H1 as [H H1]. change (ev :: l1) with ([ev] ++ l1) in H2.
    rewrite app_assoc in H2. specialize (IH _ H1 H2).
    simpl. destruct (l1 ++ l2); [exact I|]. split; assumption.
Qed.

Lemma orderly_app (net : network) (hist l1 l2 : list event) (L1 L2 : list label)
    (ok : bool) :
  orderly net hist l1 L1 true → orderly net (hist ++ l1) l2 L2 ok →
  orderly net hist (l1 ++ l2) (L1 ++ L2) ok.
Proof.
  intros [E1 A1] H2. destruct ok; simpl in *.
  - destruct H2 as [E2 A2]. split; [now rewrite map_app, E1, E2|].
    now apply all_ok_app.
  - destruct H2 as [P2 A2]. split; [|now apply all_but_last_ok_app].
    rewrite map_app, E1. now apply prefix_app.
Qed.

Lemma orderly_stop (net : network) (hist issued : list event) (L1 L2 : list label) :
  orderly net hist issued L1 false → orderly net hist issued (L1 ++ L2) false.
Proof. intros [P A]. split; [|assumption]. now apply prefix_app_r. Qed.

End Orchestration.

Section Calls.
Import cmd digit_workflow.
Variable net : network.

Lemma fail_call_result {sender} (e : error) (w : world) :
  call_result net sender w (Err e) w.
Proof. repeat split; now left. Qed.

Lemma post_call_result (sender : request → event) (url text jwtToken tenantID : string)
    (w : world) :
  call_result net sender w (fst (post net sender url text jwtToken tenantID w))
    (snd (post net sender url text jwtToken tenantID w)).
Proof.
  unfold post. destruct (url_ok net url); cbn [negb]; [|apply fail_call_result].
  unfold mbind, M_bind, send.
  set (req := mkRequest "POST" url (json_headers jwtToken tenantID) (Raw text)).
  destruct (answer net (trace w) req) as [| |status text'] eqn:A; cbn [fail fst snd].
  - repeat split. right. exists req. split; [reflexivity|]. intros s t E.
    rewrite A in E. discriminate.
  - repeat split. right. exists req. split; [reflexivity|]. intros s t E.
    rewrite A in E. discriminate.
  - destruct (status_failed status) eqn:F; cbn [fail mret M_ret fst snd].
    + repeat split. right. exists req. split; [reflexivity|]. intros s t E.
      rewrite A in E. now inversion E; subst.
    + repeat split. exists req, status. repeat split; assumption.
Qed.

Lemma CreateProcess_call_result (serverURL jwtToken tenantID name code description
    version : string) (sla : Z) (w : world) :
  call_result net ProcessCall w
    (fst (CreateProcess net serverURL jwtToken tenantID name code description version sla w))
    (snd (CreateProcess net serverURL jwtToken tenantID name code description version sla w)).
Proof.
  unfold CreateProcess.
  repeat match goal with |- context [if ?b then _ else _] =>
    destruct b; [apply fail_call_result|] end.
  apply post_call_result.
Qed.

Lemma CreateState_call_result (serverURL jwtToken tenantID processID code name : string)
    (isInitial isParallel isJoin : bool) (sla : Z) (w : world) :
  call_result net (StateCall code) w
    (fst (CreateState net serverURL jwtToken tenantID processID code name
            isInitial isParallel isJoin sla w))
    (snd (CreateState net serverURL jwtToken tenantID processID code name
            isInitial isParallel isJoin sla w)).
Proof.
  unfold CreateState.
  repeat match goal with |- context [if ?b then _ else _] =>
    destruct b; [apply fail_call_result|] end.
  apply post_call_result.
Qed.

Lemma CreateAction_call_result (serverURL jwtToken tenantID stateID name nextState : string)
    (roles : list string) (assigneeCheck : bool) (w : world) :
  call_result net (ActionCall name) w
    (fst (CreateAction net serverURL jwtToken tenantID stateID name nextState roles
            assigneeCheck w))
    (snd (CreateAction net serverURL jwtToken tenantID stateID name nextState roles
            assigneeCheck w)).
Proof.
  unfold CreateAction.
  repeat match goal with |- context [if ?b then _ else _] =>
    destruct b; [apply fail_call_result|] end.
  apply post_call_result.
Qed.

(** A failed call is a run of at most one call, in order whatever was to
    follow. *)
Lemma failed_call_orderly (sender : request → event) (w w' : world) (e : error)
    (l : label) (rest : list label) :
  (∀ r, label_of (sender r) = l) →
  call_result net sender w (Err e) w' →
  ∃ issued, trace w' = trace w ++ issued
    ∧ orderly net (trace w) issued (l :: rest) false.
Proof.
  intros Hl (_ & _ & _ & [T | (req & T & _)]).
  - exists []. rewrite app_nil_r. split; [assumption|]. split; [|exact I].
    apply prefix_nil.
  - exists [sender req]. split; [assumption|]. split; [|exact I].
    simpl. rewrite Hl. apply prefix_cons, prefix_nil.
Qed.

End Calls.

Section Loops.
Import cmd digit_workflow.
Variable net : network.
Variables serverURL jwtToken tenantID : string.

Lemma create_states_orderly (processID : string) (states : list StateDef) :
  ∀ (m : gmap string string) (w : world),
  ∃ issued,
    trace (snd (create_states net serverURL jwtToken tenantID processID states m w))
      = trace w ++ issued
    ∧ orderly net (trace w) issued (state_labels states)
        (is_ok (fst (create_states net serverURL jwtToken tenantID processID states m w)))
    ∧ ∀ m', fst (create_states net serverURL jwtToken tenantID processID states m w) = Ok m' →
        dom m' = dom m ∪ list_to_set (map s_Code states).
Proof.
  induction states as [|st rest IH]; intros m w.
  - exists []. simpl. rewrite app_nil_r. repeat split.
    intros m' [= <-]. set_solver.
  - cbn [create_states]. unfold mbind, M_bind, wrap.
    pose proof (CreateState_call_result net serverURL jwtToken tenantID processID
                  (s_Code st) (s_Name st) (s_IsInitial st) (s_IsParallel st)
                  (s_IsJoin st) (s_SLA st) w) as C.
    destruct (CreateState net _ _ _ _ _ _ _ _ _ _ w) as [[text|e] w1]; cbn [fst snd] in C.
    + destruct C as (_ & _ & _ & req & status & T & A & F).
      assert (One : ∀ ok, (ok = true → step_ok (StateCall (s_Code st) req)
                                         (answer net (trace w) req) = true) →
                orderly net (trace w) [StateCall (s_Code st) req]
                  [LState (s_Code st)] ok).
      { intros [] Hok; split; try reflexivity; try exact I.
        split; [now apply Hok|exact I]. }
      destruct (unmarshal_map text) as [ms|] eqn:U.
      * destruct (id_string ms) as [id|] eqn:I.
        -- unfold print at 1.
           destruct (IH (<[s_Code st := id]> m)
                       (mkWorld (disk w1) (save_error w1) (trace w1)
                          (stdout w1 ++ ["✓ State created: " +:+ s_Name st +:+ " ("
                             +:+ s_Code st +:+ ") - ID: " +:+ id +:+ nl])))
             as (issued & T' & O & D).
           cbn [trace] in T', O.
           exists (StateCall (s_Code st) req :: issued). split; [|split].
           ++ rewrite T', T, <- app_assoc. reflexivity.
           ++ change (state_labels (st :: rest))
                with ([LState (s_Code st)] ++ state_labels rest).
              apply (orderly_app net (trace w) [StateCall (s_Code st) req] issued).
              ** apply One. intros _. unfold step_ok. rewrite A, F, U, I.
                 cbn [negb andb]. apply bool_decide_eq_true. eauto.
              ** rewrite <- T. exact O.
           ++ intros m' E. rewrite (D m' E), dom_insert_L. set_solver.
        -- exists [StateCall (s_Code st) req]. cbn [fail fst snd is_ok].
           split; [assumption|]. split; [|discriminate].
           apply (orderly_stop net _ _ [LState (s_Code st)] (state_labels rest)).
           apply One. discriminate.
      * exists [StateCall (s_Code st) req]. cbn [fail fst snd is_ok].
        split; [assumption|]. split; [|discriminate].
        apply (orderly_stop net _ _ [LState (s_Code st)] (state_labels rest)).
        apply One. discriminate.
    + destruct (failed_call_orderly net (StateCall (s_Code st)) w w1 e
                  (LState (s_Code st)) (state_labels rest) (λ _, eq_refl) C)
        as (issued & T & O).
      exists issued. cbn [fst snd is_ok]. split; [assumption|]. split; [exact O|discriminate].
Qed.

Lemma create_actions_orderly (m : gmap string string) (actions : list ActionDef) :
  ∀ w : world,
  ∃ issued,
    trace (snd (create_actions net serverURL jwtToken tenantID actions m w))
      = trace w ++ issued
    ∧ orderly net (trace w) issued (action_labels actions)
        (is_ok (fst (create_actions net serverURL jwtToken tenantID actions m w))).
Proof.
  induction actions as [|a rest IH]; intros w.
  - exists []. simpl. rewrite app_nil_r. repeat split.
  - cbn [create_actions].
    assert (Stop : ∀ e, ∃ issued, trace (snd (fail (A := unit) e w)) = trace w ++ issued
               ∧ orderly net (trace w) issued (action_labels (a :: rest))
                   (is_ok (fst (fail (A := unit) e w)))).
    { intros e. exists []. cbn [fail fst snd is_ok]. rewrite app_nil_r.
      repeat split. apply prefix_nil. }
    destruct (m !! a_CurrentState a) as [currentStateID|]; [|apply Stop].
    destruct (m !! a_NextState a) as [nextStateID|]; [|apply Stop].
    clear Stop. unfold mbind, M_bind, wrap.
    pose proof (CreateAction_call_result net serverURL jwtToken tenantID currentStateID
                  (a_Name a) nextStateID (a_AttributeRoles a) (a_AssigneeCheck a) w) as C.
    destruct (CreateAction net _ _ _ _ _ _ _ _ w) as [[text|e] w1]; cbn [fst snd] in C.
    + destruct C as (_ & _ & _ & req & status & T & A & F).
      unfold print at 1.
      match goal with |- context [create_actions _ _ _ _ rest m ?w2] =>
        destruct (IH w2) as (issued & T' & O) end.
      cbn [trace] in T', O.
      exists (ActionCall (a_Name a) req :: issued). split.
      * rewrite T', T, <- app_assoc. reflexivity.
      * change (action_labels (a :: rest))
          with ([LAction (a_Name a)] ++ action_labels rest).
        apply (orderly_app net (trace w) [ActionCall (a_Name a) req] issued).
        -- split; [reflexivity|]. split; [|exact I].
           unfold step_ok. cbn [request_of]. now rewrite A, F.
        -- rewrite <- T. exact O.
    + destruct (failed_call_orderly net (ActionCall (a_Name a)) w w1 e
                  (LAction (a_Name a)) (action_labels rest) (λ _, eq_refl) C)
        as (issued & T & O).
      exists issued. cbn [fst snd is_ok]. split; assumption.
Qed.

End Loops.

Section Workflow.
Import cmd digit_workflow.
Variable net : network.
Variables serverURL jwtToken tenantID : string.

(** [createWorkflow], step by step. *)
Lemma createWorkflow_cases (def : WorkflowDefinition) (w : world) :
  createWorkflow net serverURL jwtToken tenantID def w =
    match CreateProcess net serverURL jwtToken tenantID (p_Name (Process def))
            (p_Code (Process def)) (p_Description (Process def))
            (p_Version (Process def)) (p_SLA (Process def))
            (printed w ("Creating workflow process..." +:+ nl)) with
    | (Err e, w1) => (Err (Wrapf "failed to create process" e), w1)
    | (Ok processResponse, w1) =>
        match unmarshal_map processResponse with
        | None => (Err (Wrapf "failed to parse process response" (LibError "json")), w1)
        | Some processResult =>
            match id_string processResult with
            | None => (Err (Errorf "failed to extract process ID from response"), w1)
            | Some processID =>
                match create_states net serverURL jwtToken tenantID processID
                        (States def) ∅
                        (printed_all w1 ["✓ Process created with ID: " +:+ processID +:+ nl;
                                         "Creating workflow states..." +:+ nl]) with
                | (Err e, w2) => (Err e, w2)
                | (Ok stateCodeToID, w2) =>
                    match create_actions net serverURL jwtToken tenantID (Actions def)
                            stateCodeToID
                            (printed w2 ("Creating workflow actions..." +:+ nl)) with
                    | (Err e, w3) => (Err e, w3)
                    | (Ok _, w3) => (Ok (), printed_all w3 (summary processID def))
                    end
                end
            end
        end
    end.
Proof.
  unfold createWorkflow, mbind, M_bind, wrap. unfold print at 1.
  fold (printed w ("Creating workflow process..." +:+ nl)).
  destruct (CreateProcess net _ _ _ _ _ _ _ _ _) as [[resp|e] w1]; [|reflexivity].
  destruct (unmarshal_map resp) as [pr|]; [|reflexivity].
  destruct (id_string pr) as [pid|]; [|reflexivity].
  unfold print at 1 2. cbn [disk save_error trace stdout].
  rewrite <- app_assoc. cbn [app]. fold (printed_all w1
    ["✓ Process created with ID: " +:+ pid +:+ nl; "Creating workflow states..." +:+ nl]).
  destruct (create_states net _ _ _ _ _ _ _) as [[m|e] w2]; [|reflexivity].
  unfold print at 1. fold (printed w2 ("Creating workflow actions..." +:+ nl)).
  destruct (create_actions net _ _ _ _ _ _) as [[[]|e] w3]; [|reflexivity].
  unfold print, mret, M_ret, printed_all, summary. cbn [disk save_error trace stdout].
  rewrite <- !app_assoc. reflexivity.
Qed.

Lemma createWorkflow_orderly (def : WorkflowDefinition) (w : world) :
  ∃ issued,
    trace (snd (createWorkflow net serverURL jwtToken tenantID def w)) = trace w ++ issued
    ∧ orderly net (trace w) issued (expected_calls def)
        (is_ok (fst (createWorkflow net serverURL jwtToken tenantID def w))).
Proof.
  rewrite createWorkflow_cases.
  pose proof (CreateProcess_call_result net serverURL jwtToken tenantID
                (p_Name (Process def)) (p_Code (Process def))
                (p_Description (Process def)) (p_Version (Process def))
                (p_SLA (Process def)) (printed w ("Creating workflow process..." +:+ nl)))
    as C.
  destruct (CreateProcess net _ _ _ _ _ _ _ _ _) as [[resp|e] w1]; cbn [fst snd] in C.
  2: { destruct (failed_call_orderly net ProcessCall _ w1 e LProcess
                   (state_labels (States def) ++ action_labels (Actions def))
                   (λ _, eq_refl) C) as (issued & T & O).
       exists issued. split; assumption. }
  destruct C as (_ & _ & _ & req & status & T & A & F). cbn [printed trace] in T, A.
  assert (One : ∀ ok, (ok = true → step_ok (ProcessCall req)
                                     (answer net (trace w) req) = true) →
            orderly net (trace w) [ProcessCall req] [LProcess] ok).
  { intros [] Hok; split; try reflexivity; try exact I.
    split; [now apply Hok|exact I]. }
  assert (Stop : ∀ r : result error unit, is_ok r = false →
            ∃ issued, trace (snd (r, w1)) = trace w ++ issued
             ∧ orderly net (trace w) issued (expected_calls def) (is_ok (fst (r, w1)))).
  { intros r Hr. exists [ProcessCall req]. cbn [fst snd]. rewrite Hr.
    split; [assumption|].
    apply (orderly_stop net _ _ [LProcess]). apply One. discriminate. }
  destruct (unmarshal_map resp) as [pr|] eqn:U; [|now apply Stop].
  destruct (id_string pr) as [pid|] eqn:I; [|now apply Stop]. clear Stop.
  assert (P : orderly net (trace w) [ProcessCall req] [LProcess] true).
  { apply One. intros _. unfold step_ok. rewrite A, F, U, I.
    apply bool_decide_eq_true. eauto. }
  match goal with |- context [create_states _ _ _ _ _ _ _ ?w2] =>
    destruct (create_states_orderly net serverURL jwtToken tenantID pid (States def) ∅ w2)
      as (issuedS & TS & OS & _) end.
  cbn [printed_all trace] in TS, OS. rewrite T in TS, OS.
  destruct (create_states net _ _ _ _ _ _ _) as [[m|e] w2]; cbn [fst snd is_ok] in *.
  2: { exists ([ProcessCall req] ++ issuedS). rewrite TS, <- app_assoc.
       split; [reflexivity|].
       change (expected_calls def)
         with ([LProcess] ++ state_labels (States def) ++ action_labels (Actions def)).
       apply orderly_app; [exact P|]. now apply orderly_stop. }
  match goal with |- context [create_actions _ _ _ _ _ _ ?w3] =>
    destruct (create_actions_orderly net serverURL jwtToken tenantID m (Actions def) w3)
      as (issuedA & TA & OA) end.
  cbn [printed trace] in TA, OA. rewrite TS in TA, OA.
  exists ([ProcessCall req] ++ issuedS ++ issuedA).
  assert (O : ∀ ok, orderly net ((trace w ++ [ProcessCall req]) ++ issuedS) issuedA
                      (action_labels (Actions def)) ok →
            orderly net (trace w) ([ProcessCall req] ++ issuedS ++ issuedA)
              (expected_calls def) ok).
  { intros ok H.
    change (expected_calls def)
      with ([LProcess] ++ state_labels (States def) ++ action_labels (Actions def)).
    apply orderly_app; [exact P|]. apply orderly_app; assumption. }
  destruct (create_actions net _ _ _ _ _ _) as [[[]|e] w3]; cbn [fst snd is_ok] in *.
  - cbn [printed_all trace]. rewrite TA, <- !app_assoc. split; [reflexivity|now apply O].
  - rewrite TA, <- !app_assoc. split; [reflexivity|now apply O].
Qed.

End Workflow.

Section Sequential.
Import cmd digit_workflow.





End Sequential.

(** ** Unresolved state references *)

Section Unresolved.
Import cmd digit_workflow.
Variable net : network.
Variables serverURL jwtToken tenantID : string.

Lemma create_actions_app (m : gmap string string) (pre rest : list ActionDef) :
  ∀ w, create_actions net serverURL jwtToken tenantID (pre ++ rest) m w =
    match create_actions net serverURL jwtToken tenantID pre m w with
    | (Ok _, w1) => create_actions net serverURL jwtToken tenantID rest m w1
    | (Err e, w1) => (Err e, w1)
    end.
Proof.
  induction pre as [|a pre IH]; intros w; [reflexivity|].
  cbn [app create_actions].
  destruct (m !! a_CurrentState a); [|reflexivity].
  destruct (m !! a_NextState a); [|reflexivity].
  unfold mbind, M_bind, wrap.
  destruct (CreateAction net _ _ _ _ _ _ _ _ w) as [[text|e] w1]; [|reflexivity].
  unfold print. apply IH.
Qed.

Lemma create_actions_unresolved (def : WorkflowDefinition) (m : gmap string string)
    (a : ActionDef) (post : list ActionDef) (w : world) :
  dom m = list_to_set (state_codes def) → ¬ resolvable def a →
  create_actions net serverURL jwtToken tenantID (a :: post) m w
    = (Err (UnresolvedStateReferenceError def a), w).
Proof.
  intros D N. cbn [create_actions]. unfold UnresolvedStateReferenceError.
  assert (L : ∀ code, code ∈ state_codes def ↔ is_Some (m !! code)).
  { intros code. rewrite <- elem_of_dom, D. set_solver. }
  destruct (decide (a_CurrentState a ∈ state_codes def)) as [Hc|Hc].
  - destruct (proj1 (L _) Hc) as [x ->].
    destruct (m !! a_NextState a) eqn:E; [|reflexivity].
    exfalso. apply N. split; [assumption|]. apply L. eauto.
  - destruct (m !! a_CurrentState a) eqn:E; [|reflexivity].
    exfalso. apply Hc, L. eauto.
Qed.

End Unresolved.

Section UnresolvedRun.
Import cmd digit_workflow.
Variable net : network.
Variables serverURL jwtToken tenantID : string.

(** A run over a definition whose action after [pre] has an unknown state
    code sends what the run over [pre] alone sends, and fails: with the
    unresolved-reference error when the run over [pre] alone succeeds. *)
Lemma createWorkflow_stops_at_unresolved (def : WorkflowDefinition)
    (pre post : list ActionDef) (a : ActionDef) (w : world) :
  Actions def = pre ++ a :: post → ¬ resolvable def a →
  trace (snd (createWorkflow net serverURL jwtToken tenantID def w))
    = trace (snd (createWorkflow net serverURL jwtToken tenantID (with_actions def pre) w))
  ∧ is_ok (fst (createWorkflow net serverURL jwtToken tenantID def w)) = false
  ∧ (is_ok (fst (createWorkflow net serverURL jwtToken tenantID (with_actions def pre) w))
       = true →
     fst (createWorkflow net serverURL jwtToken tenantID def w)
       = Err (UnresolvedStateReferenceError def a)).
Proof.
  intros HA N. rewrite !createWorkflow_cases. cbn [with_actions Process States Actions].
  destruct (CreateProcess net _ _ _ _ _ _ _ _ _) as [[resp|e] w1];
    [|repeat split; discriminate].
  destruct (unmarshal_map resp) as [pr|]; [|repeat split; discriminate].
  destruct (id_string pr) as [pid|]; [|repeat split; discriminate].
  match goal with |- context [create_states _ _ _ _ _ _ _ ?w2] =>
    destruct (create_states_orderly net serverURL jwtToken tenantID pid (States def) ∅ w2)
      as (_ & _ & _ & D) end.
  destruct (create_states net _ _ _ _ _ _ _) as [[m|e] w2];
    [|repeat split; discriminate].
  specialize (D m eq_refl). rewrite dom_empty_L, (left_id_L ∅ (∪)) in D.
  rewrite HA, create_actions_app.
  destruct (create_actions net _ _ _ pre m _) as [[[]|e] w3].
  - rewrite (create_actions_unresolved net serverURL jwtToken tenantID def m a post w3 D N).
    repeat split.
  - repeat split. discriminate.
Qed.

Lemma post_accepting (sender : request → event) (url text : string) (w : world) :
  accepting net →
  ∃ text' w' ms id,
    post net sender url text jwtToken tenantID w = (Ok text', w')
    ∧ unmarshal_map text' = Some ms ∧ id_string ms = Some id ∧ id ≠ "".
Proof.
  intros [U A]. unfold post. rewrite U. cbn [negb]. unfold mbind, M_bind, send.
  match goal with |- context [answer net ?h ?r] =>
    destruct (A h r) as (status & text' & ms & id & -> & F & J & I & Hid) end.
  rewrite F. cbn [mret M_ret]. eauto 10.
Qed.

Lemma create_states_accepting (processID : string) (states : list StateDef) :
  accepting net → serverURL ≠ "" → tenantID ≠ "" → processID ≠ "" →
  ∀ (m : gmap string string) (w : world),
  map_Forall (λ _ v, v ≠ "") m →
  ∃ m' w',
    create_states net serverURL jwtToken tenantID processID states m w = (Ok m', w')
    ∧ map_Forall (λ _ v, v ≠ "") m'.
Proof.
  intros Acc Hs Ht Hp. induction states as [|st rest IH]; intros m w Hm.
  - exists m, w. split; [reflexivity|assumption].
  - cbn [create_states]. unfold mbind, M_bind, wrap, CreateState.
    rewrite !eqb_neq_false by assumption.
    destruct (post_accepting (StateCall (s_Code st))
                (state_url serverURL processID)
                (state_body (s_Code st) (s_Name st) (s_IsInitial st) (s_IsParallel st)
                   (s_IsJoin st) (s_SLA st)) w Acc)
      as (text & w1 & ms & id & -> & -> & -> & Hid).
    unfold print at 1. apply IH. now apply map_Forall_insert_2.
Qed.

Lemma create_actions_accepting (m : gmap string string) (actions : list ActionDef) :
  accepting net → serverURL ≠ "" → tenantID ≠ "" →
  map_Forall (λ _ v, v ≠ "") m →
  Forall (λ a, is_Some (m !! a_CurrentState a) ∧ is_Some (m !! a_NextState a)) actions →
  ∀ w, ∃ w', create_actions net serverURL jwtToken tenantID actions m w = (Ok (), w').
Proof.
  intros Acc Hs Ht Hm. induction 1 as [|a rest [[c Hc] [n Hn]] _ IH]; intros w.
  - exists w. reflexivity.
  - cbn [create_actions]. rewrite Hc, Hn. unfold mbind, M_bind, wrap, CreateAction.
    rewrite !eqb_neq_false; try assumption; [|exact (Hm _ _ Hc)].
    destruct (post_accepting (ActionCall (a_Name a)) (action_url serverURL c)
                (action_body (a_Name a) n (a_AttributeRoles a) (a_AssigneeCheck a)) w Acc)
      as (text & w1 & ms & id & -> & _).
    unfold print at 1. apply IH.
Qed.

(** With an accepting remote side a definition whose actions all resolve
    is created. *)
Lemma createWorkflow_accepting (def : WorkflowDefinition) (w : world) :
  accepting net → serverURL ≠ "" → tenantID ≠ "" →
  Forall (resolvable def) (Actions def) →
  is_ok (fst (createWorkflow net serverURL jwtToken tenantID def w)) = true.
Proof.
  intros Acc Hs Ht R. rewrite createWorkflow_cases. unfold CreateProcess.
  rewrite !eqb_neq_false by assumption.
  match goal with |- context [post net ?sd ?u ?t _ _ ?w0] =>
    destruct (post_accepting sd u t w0 Acc) as (text & w1 & ms & id & -> & -> & -> & Hid) end.
  match goal with |- context [create_states _ _ _ _ _ _ _ ?w2] =>
    destruct (create_states_orderly net serverURL jwtToken tenantID id (States def) ∅ w2)
      as (_ & _ & _ & D);
    destruct (create_states_accepting id (States def) Acc Hs Ht Hid ∅ w2)
      as (m & w3 & E & Hm); [apply map_Forall_empty|] end.
  rewrite E in D |- *. specialize (D m eq_refl).
  rewrite dom_empty_L, (left_id_L ∅ (∪)) in D.
  match goal with |- context [create_actions _ _ _ _ _ _ ?w4] =>
    destruct (create_actions_accepting m (Actions def) Acc Hs Ht Hm) with (w := w4)
      as (w5 & ->) end; [|reflexivity].
  eapply Forall_impl; [exact R|]. intros a [Hc Hn]. cbn beta.
  rewrite <- !elem_of_dom, D. unfold state_codes in *. set_solver.
Qed.

End UnresolvedRun.

Section UnresolvedTheorem.
Import cmd digit_workflow.

(** C3. Let the action [a] of a definition have a current or next state code
    that is no state of the definition, after the actions [pre].  Whatever
    the remote side answers, the run fails, and the calls it issues stay
    within the process, the states and the actions [pre]: no call is made
    for [a].  When the remote side accepts every creation and the actions
    [pre] resolve, the run issues exactly those calls and fails with the
    unresolved-reference error, which names the unknown code of [a]. *)
Theorem createWorkflow_unresolved_reference (net : network)
    (serverURL jwtToken tenantID : string) (def : WorkflowDefinition)
    (pre post : list ActionDef) (a : ActionDef) (w : world) :
  Actions def = pre ++ a :: post → ¬ resolvable def a →
  is_ok (fst (createWorkflow net serverURL jwtToken tenantID def w)) = false
  ∧ ∃ issued,
      trace (snd (createWorkflow net serverURL jwtToken tenantID def w)) = trace w ++ issued
      ∧ map label_of issued
          `prefix_of` (LProcess :: state_labels (States def) ++ action_labels pre)
      ∧ (accepting net → serverURL ≠ "" → tenantID ≠ "" → Forall (resolvable def) pre →
         fst (createWorkflow net serverURL jwtToken tenantID def w)
           = Err (UnresolvedStateReferenceError def a)
         ∧ map label_of issued
           = LProcess :: state_labels (States def) ++ action_labels pre).
Proof.
  intros HA N.
  destruct (createWorkflow_stops_at_unresolved net serverURL jwtToken tenantID def
              pre post a w HA N) as (T & F & E).
  split; [assumption|].
  destruct (createWorkflow_orderly net serverURL jwtToken tenantID
              (with_actions def pre) w) as (issued & T' & O).
  exists issued. split; [now rewrite T|]. split.
  - unfold orderly in O.
    destruct (is_ok (fst (createWorkflow net serverURL jwtToken tenantID
                            (with_actions def pre) w)));
      destruct O as [O _]; [now rewrite O|assumption].
  - intros Acc Hs Ht R.
    pose proof (createWorkflow_accepting net serverURL jwtToken tenantID
                  (with_actions def pre) w Acc Hs Ht R) as Ok'.
    split; [now apply E|]. rewrite Ok' in O. apply O.
Qed.

(** The definition [def_unknown_Z] against an accepting remote side: the
    process and the state A are created, no action call is made, and the
    error names Z. *)
Lemma createWorkflow_unknown_Z :
  fst (createWorkflow net_accepting "http://srv" "jwt" "ACME" def_unknown_Z
         (mkWorld NoFile None [] []))
    = Err (Errorf "state ID not found for current state: Z")
  ∧ map label_of
      (trace (snd (createWorkflow net_accepting "http://srv" "jwt" "ACME" def_unknown_Z
                     (mkWorld NoFile None [] []))))
    = [LProcess; LState "A"].
Proof.
  assert (N : ¬ resolvable def_unknown_Z (mkActionDef "GO" "Z" "A" [] [] false)).
  { unfold resolvable, state_codes. cbn. set_solver. }
  destruct (createWorkflow_unresolved_reference net_accepting "http://srv" "jwt" "ACME"
              def_unknown_Z [] [] (mkActionDef "GO" "Z" "A" [] [] false)
              (mkWorld NoFile None [] []) eq_refl N)
    as (_ & issued & T & _ & H).
  destruct H as [E L].
  - split; [reflexivity|]. intros hist req.
    exists 200, (json_member "id" "x"), [(list_ascii_of_string "id", Json.VStr (list_ascii_of_string "x"))], "x".
    repeat split; try (vm_compute; reflexivity). discriminate.
  - discriminate.
  - discriminate.
  - constructor.
  - split.
    + rewrite E. vm_compute. reflexivity.
    + rewrite T. exact L.
Defined.

End UnresolvedTheorem.

(** ** The scenario of two states and one action *)

Section Scenario.
Import cmd digit_workflow.

Lemma post_answered (net : network) (sender : request → event)
    (url text jwtToken tenantID : string) (w : world) (status : Z) (text' : string) :
  url_ok net url = true →
  answer net (trace w) (mkRequest "POST" url (json_headers jwtToken tenantID) (Raw text))
    = Response status text' →
  status_failed status = false →
  post net sender url text jwtToken tenantID w
    = (Ok text', mkWorld (disk w) (save_error w)
                   (trace w ++ [sender (mkRequest "POST" url
                                          (json_headers jwtToken tenantID) (Raw text))])
                   (stdout w)).
Proof.
  intros U A F. unfold post. rewrite U. cbn [negb]. unfold mbind, M_bind, send.
  now rewrite A, F.
Qed.

(** One round of the loop over the states, when the state is created. *)
Lemma create_states_step (net : network) (serverURL jwtToken tenantID processID : string)
    (s : StateDef) (rest : list StateDef) (m : gmap string string) (w : world)
    (stateID : string) :
  serverURL ≠ "" → tenantID ≠ "" → processID ≠ "" → (∀ url, url_ok net url = true) →
  answers_with_id net (state_request serverURL jwtToken tenantID processID s) stateID →
  create_states net serverURL jwtToken tenantID processID (s :: rest) m w
  = create_states net serverURL jwtToken tenantID processID rest (<[s_Code s := stateID]> m)
      (mkWorld (disk w) (save_error w)
         (trace w ++ [StateCall (s_Code s)
                        (state_request serverURL jwtToken tenantID processID s)])
         (stdout w ++ [state_created s stateID])).
Proof.
  intros Hs Ht Hp U H. destruct (H (trace w)) as (status & text & ms & A & F & J & I).
  cbn [create_states]. unfold mbind, M_bind, wrap, CreateState.
  rewrite !eqb_neq_false by assumption.
  rewrite (post_answered net (StateCall (s_Code s)) _ _ _ _ w status text (U _) A F), J, I.
  reflexivity.
Qed.

(** One round of the loop over the actions, when both state codes resolve
    and the action is created. *)
Lemma create_actions_step (net : network) (serverURL jwtToken tenantID : string)
    (a : ActionDef) (rest : list ActionDef) (m : gmap string string) (w : world)
    (stateID nextStateID : string) :
  serverURL ≠ "" → tenantID ≠ "" → stateID ≠ "" → (∀ url, url_ok net url = true) →
  m !! a_CurrentState a = Some stateID → m !! a_NextState a = Some nextStateID →
  answers_well net (action_request serverURL jwtToken tenantID stateID nextStateID a) →
  create_actions net serverURL jwtToken tenantID (a :: rest) m w
  = create_actions net serverURL jwtToken tenantID rest m
      (mkWorld (disk w) (save_error w)
         (trace w ++ [ActionCall (a_Name a)
                        (action_request serverURL jwtToken tenantID stateID nextStateID a)])
         (stdout w ++ [action_created a stateID])).
Proof.
  intros Hs Ht Hid U Hc Hn H. destruct (H (trace w)) as (status & text & A & F).
  cbn [create_actions]. rewrite Hc, Hn. unfold mbind, M_bind, wrap, CreateAction.
  rewrite !eqb_neq_false by assumption.
  rewrite (post_answered net (ActionCall (a_Name a)) _ _ _ _ w status text (U _) A F).
  reflexivity.
Qed.

Lemma createWorkflow_scenario_run (net : network) (serverURL jwtToken tenantID : string)
    (p : ProcessDef) (A B : StateDef) (GO : ActionDef) (w : world) :
  serverURL ≠ "" → tenantID ≠ "" → (∀ url, url_ok net url = true) →
  a_CurrentState GO = s_Code A → a_NextState GO = s_Code B → s_Code A ≠ s_Code B →
  answers_with_id net (process_request serverURL jwtToken tenantID p) "p1" →
  answers_with_id net (state_request serverURL jwtToken tenantID "p1" A) "s1" →
  answers_with_id net (state_request serverURL jwtToken tenantID "p1" B) "s2" →
  answers_well net (action_request serverURL jwtToken tenantID "s1" "s2" GO) →
  createWorkflow net serverURL jwtToken tenantID (mkWorkflow p [A; B] [GO]) w
  = (Ok (),
     mkWorld (disk w) (save_error w)
       (trace w ++ [ProcessCall (process_request serverURL jwtToken tenantID p);
                    StateCall (s_Code A) (state_request serverURL jwtToken tenantID "p1" A);
                    StateCall (s_Code B) (state_request serverURL jwtToken tenantID "p1" B);
                    ActionCall (a_Name GO)
                      (action_request serverURL jwtToken tenantID "s1" "s2" GO)])
       (stdout w ++ scenario_output A B GO (mkWorkflow p [A; B] [GO]))).
Proof.
  intros Hs Ht U Hc Hn Hne HP HA HB HG.
  rewrite createWorkflow_cases. cbn [Process States Actions]. unfold CreateProcess.
  rewrite (eqb_neq_false _ Hs), (eqb_neq_false _ Ht).
  destruct (HP (trace (printed w ("Creating workflow process..." +:+ nl))))
    as (sp & tp & mp & AP & FP & UP & IP).
  rewrite (post_answered net ProcessCall _ _ _ _ _ sp tp (U _) AP FP), UP, IP.
  cbn [printed printed_all disk save_error trace stdout].
  rewrite (create_states_step net _ _ _ "p1" A [B] _ _ "s1" Hs Ht ltac:(discriminate) U HA).
  cbn [disk save_error trace stdout].
  rewrite (create_states_step net _ _ _ "p1" B [] _ _ "s2" Hs Ht ltac:(discriminate) U HB).
  cbn [create_states mret M_ret printed disk save_error trace stdout].
  rewrite (create_actions_step net _ _ _ GO [] _ _ "s1" "s2" Hs Ht ltac:(discriminate) U);
    [| rewrite Hc, lookup_insert_ne, lookup_insert_eq by (intros E; now apply Hne);
       reflexivity
     | rewrite Hn, lookup_insert_eq; reflexivity
     | exact HG ].
  cbn [create_actions mret M_ret]. unfold printed_all, printed, scenario_output.
  cbn [disk save_error trace stdout]. rewrite <- !app_assoc. reflexivity.
Qed.

(** C1. The definition has the process code WF1, the states A (initial) and
    B, and the action GO from A to B; the remote side answers the process
    creation with the id p1, the creation of A with s1 and of B with s2, and
    the action creation with a good status.  Then the run succeeds; after the
    process and the two states it issues the action call with s1 in the path
    and s2 as nextState in the payload; and it reports the process id p1,
    2 states and 1 action. *)
Theorem createWorkflow_scenario (net : network) (serverURL jwtToken tenantID : string)
    (name description version nameA nameB : string) (sla slaA slaB : Z)
    (parA joinA initB parB joinB check : bool) (roles attributeRoles : list string)
    (w : world) :
  let p := mkProcessDef name "WF1" description version sla in
  let A := mkStateDef "A" nameA true parA joinA slaA in
  let B := mkStateDef "B" nameB initB parB joinB slaB in
  let GO := mkActionDef "GO" "A" "B" roles attributeRoles check in
  let def := mkWorkflow p [A; B] [GO] in
  serverURL ≠ "" → tenantID ≠ "" → (∀ url, url_ok net url = true) →
  answers_with_id net (process_request serverURL jwtToken tenantID p) "p1" →
  answers_with_id net (state_request serverURL jwtToken tenantID "p1" A) "s1" →
  answers_with_id net (state_request serverURL jwtToken tenantID "p1" B) "s2" →
  answers_well net (action_request serverURL jwtToken tenantID "s1" "s2" GO) →
  fst (createWorkflow net serverURL jwtToken tenantID def w) = Ok ()
  ∧ trace (snd (createWorkflow net serverURL jwtToken tenantID def w))
    = trace w ++ [ProcessCall (process_request serverURL jwtToken tenantID p);
                  StateCall "A" (state_request serverURL jwtToken tenantID "p1" A);
                  StateCall "B" (state_request serverURL jwtToken tenantID "p1" B);
                  ActionCall "GO"
                    (action_request serverURL jwtToken tenantID "s1" "s2" GO)]
  ∧ req_url (action_request serverURL jwtToken tenantID "s1" "s2" GO)
    = GoStrings.TrimSuffixSlash serverURL +:+ "/workflow/v1/state/s1/action"
  ∧ (∃ before after,
       body_text (action_request serverURL jwtToken tenantID "s1" "s2" GO)
       = before +:+ quoted "nextState" +:+ ": " +:+ quoted "s2" +:+ after)
  ∧ ∃ earlier,
      stdout (snd (createWorkflow net serverURL jwtToken tenantID def w))
      = stdout w ++ earlier
          ++ ["Process ID: p1" +:+ nl; "States: 2" +:+ nl; "Actions: 1" +:+ nl].
Proof.
  intros p A B GO def Hs Ht U HP HA HB HG. subst def.
  rewrite (createWorkflow_scenario_run net serverURL jwtToken tenantID p A B GO w
             Hs Ht U eq_refl eq_refl ltac:(discriminate) HP HA HB HG).
  cbn [fst snd trace stdout]. split; [reflexivity|]. split; [reflexivity|].
  split; [reflexivity|]. split.
  { exists (concat_lines ["{"; "  " +:+ quoted "name" +:+ ": " +:+ quoted "GO" +:+ ","]
            +:+ nl +:+ "  "),
           ("," +:+ nl +:+ concat_lines
              ["  " +:+ quoted "attributeValidation" +:+ ": {";
               "    " +:+ quoted "attributes" +:+ ": {";
               "      " +:+ quoted "roles" +:+ ": " +:+ rolesJSON attributeRoles;
               "    },";
               "    " +:+ quoted "assigneeCheck" +:+ ": " +:+ fmt_bool check;
               "  }"; "}"]).
    reflexivity. }
  exists ["Creating workflow process..." +:+ nl;
          "✓ Process created with ID: " +:+ "p1" +:+ nl;
          "Creating workflow states..." +:+ nl;
          state_created A "s1"; state_created B "s2";
          "Creating workflow actions..." +:+ nl;
          action_created GO "s1";
          nl +:+ "🎉 Workflow created successfully!" +:+ nl].
  reflexivity.
Qed.

End Scenario.

(** ** Claim sets through JSON *)

Section JsonRoundTrip.
Import Json jwt.

(** One byte below 0x80, escaped by the encoder, is read back by the
    decoder. *)
Lemma parse_string_escape_byte (c : ascii) (tail : list ascii) :
  code c < 128 →
  parse_string (escape_byte c ++ tail) =
    match parse_string tail with
    | Some (str, rest) => Some (c :: str, rest)
    | None => None
    end.
Proof.
  intros H.
  destruct c as [[] [] [] [] [] [] [] []];
    try (exfalso; vm_compute in H; discriminate H); clear H;
    match goal with |- context [escape_byte ?c] =>
      let e := eval vm_compute in (escape_byte c) in change (escape_byte c) with e end;
    cbn [app]; simpl; destruct (parse_string tail) as [[? ?]|]; reflexivity.
Qed.

Lemma parse_string_escaped (l rest : list ascii) :
  Forall (λ c, code c < 128) l →
  parse_string (flat_map escape_byte l ++ "034"%char :: rest) = Some (l, rest).
Proof.
  induction 1 as [|c l Hc _ IH]; [reflexivity|].
  cbn [flat_map]. rewrite <- app_assoc, (parse_string_escape_byte c _ Hc), IH.
  reflexivity.
Qed.

(** *** Decimal numbers *)

Lemma digits_value_app (d1 d2 : list ascii) (acc : Z) :
  digits_value (d1 ++ d2) acc =
    match digits_value d1 acc with
    | Some a => digits_value d2 a
    | None => None
    end.
Proof.
  revert acc. induction d1 as [|c d1 IH]; intros acc; [reflexivity|].
  cbn [app digits_value]. destruct (is_digit c); [apply IH|reflexivity].
Qed.

Lemma pretty_N_char_digit (x : N) :
  (x < 10)%N →
  is_digit (pretty_N_char x) = true ∧ code (pretty_N_char x) - 48 = Z.of_N x
  ∧ (pretty_N_char x = "0"%char → x = 0%N).
Proof.
  intros H.
  assert (x = 0 ∨ x = 1 ∨ x = 2 ∨ x = 3 ∨ x = 4 ∨ x = 5 ∨ x = 6 ∨ x = 7 ∨ x = 8
          ∨ x = 9)%N as E by lia.
  repeat destruct E as [->|E]; try subst x; repeat split; discriminate.
Qed.

(** The digits [pretty_N_go] puts before [s]: they read back as [x], and the
    first is not 0. *)
Lemma pretty_N_go_digits (x : N) :
  ∀ s, ∃ d scale,
    pretty_N_go x s = string_of_list_ascii d +:+ s
    ∧ Forall (λ c, is_digit c = true) d
    ∧ (∀ acc, digits_value d acc = Some (acc * scale + Z.of_N x))
    ∧ ((0 < x)%N → ∃ d0 dt, d = d0 :: dt ∧ d0 ≠ "0"%char).
Proof.
  induction (N.lt_wf_0 x) as [x _ IH]. intros s.
  destruct (N.eq_dec x 0%N) as [->|Hx].
  { exists [], 1. rewrite pretty_N_go_0. repeat split; [constructor| |lia].
    intros acc. cbn. f_equal. lia. }
  assert (Hpos : (0 < x)%N) by lia.
  rewrite pretty_N_go_step by assumption.
  destruct (pretty_N_char_digit (x `mod` 10)%N) as (Hd & Hv & Hz);
    [apply N.mod_lt; discriminate|].
  pose proof (N.div_mod x 10 ltac:(discriminate)) as M.
  destruct (N.eq_dec (x `div` 10)%N 0%N) as [E0|E0].
  - rewrite E0, pretty_N_go_0.
    exists [pretty_N_char (x `mod` 10)], 10. repeat split.
    + repeat constructor. assumption.
    + intros acc. cbn [digits_value]. rewrite Hd, Hv. f_equal. lia.
    + intros _. exists (pretty_N_char (x `mod` 10)), []. split; [reflexivity|].
      intros Hc. apply Hz in Hc. lia.
  - destruct (IH (x `div` 10)%N (N.div_lt x 10 Hpos eq_refl)
                (String (pretty_N_char (x `mod` 10)) s)) as (d & scale & E & F & V & L).
    exists (d ++ [pretty_N_char (x `mod` 10)]), (scale * 10). repeat split.
    + rewrite E, string_of_list_ascii_app, string_append_assoc. reflexivity.
    + apply Forall_app. split; [assumption|]. repeat constructor. assumption.
    + intros acc. rewrite digits_value_app, V. cbn [digits_value]. rewrite Hd, Hv.
      f_equal.
      assert (Z.of_N x = 10 * Z.of_N (x `div` 10) + Z.of_N (x `mod` 10)) as ->
        by (rewrite M at 1; rewrite N2Z.inj_add, N2Z.inj_mul; reflexivity).
      ring.
    + intros _. destruct L as (d0 & dt & -> & Hd0); [now apply N.neq_0_lt_0|].
      exists d0, (dt ++ [pretty_N_char (x `mod` 10)]). split; [reflexivity|assumption].
Qed.

Lemma digit_facts (c : ascii) :
  is_digit c = true →
  Ascii.eqb c "-" = false ∧ is_space c = false ∧ Ascii.eqb c "034" = false
  ∧ Ascii.eqb c "{" = false ∧ Ascii.eqb c "[" = false ∧ Ascii.eqb c "t" = false
  ∧ Ascii.eqb c "f" = false ∧ Ascii.eqb c "n" = false
  ∧ (Ascii.eqb c "0" = true → c = "0"%char).
Proof.
  intros H.
  destruct c as [[] [] [] [] [] [] [] []]; try discriminate H; repeat split;
    discriminate.
Qed.

Lemma span_digits_app (d : list ascii) (c : ascii) (r : list ascii) :
  Forall (λ c, is_digit c = true) d → is_digit c = false →
  span_digits (d ++ c :: r) = (d, c :: r).
Proof.
  intros F Hc. induction F as [|x d Hx _ IH]; cbn [app span_digits].
  - now rewrite Hc.
  - now rewrite Hx, IH.
Qed.

Lemma parse_number_decimal (sign d : list ascii) (c : ascii) (r : list ascii) :
  decimal d → delimiter c → sign = [] ∨ sign = ["-"%char] →
  parse_number (sign ++ d ++ c :: r) = Some (sign ++ d, c :: r).
Proof.
  intros (F & d0 & dt & -> & Lead) Hc Hsign.
  assert (Hd0 : is_digit d0 = true) by now inversion F.
  destruct (digit_facts d0 Hd0) as (Hm & _ & _ & _ & _ & _ & _ & _ & Hz).
  assert (Hdelim : is_digit c = false) by (destruct Hc as [-> | ->]; reflexivity).
  assert (Body : ∀ sg,
            (let (int, s2) := span_digits ((d0 :: dt) ++ c :: r) in
             match int with
             | [] => None
             | d :: ds =>
                 if Ascii.eqb d "0" && negb (length ds =? 0)%nat
                 then Some (sg ++ [d], ds ++ s2)
                 else
                   let (frac, s3) :=
                     match s2 with
                     | c0 :: r0 =>
                         if Ascii.eqb c0 "."
                         then let (fs, r') := span_digits r0 in (Some (c0 :: fs), r')
                         else (Some [], s2)
                     | [] => (Some [], s2)
                     end in
                   match frac with
                   | Some [_] => None
                   | Some fr =>
                       match s3 with
                       | e :: r0 =>
                           if Ascii.eqb e "e" || Ascii.eqb e "E" then
                             let (esign, r1) :=
                               match r0 with
                               | c0 :: r' =>
                                   if Ascii.eqb c0 "+" || Ascii.eqb c0 "-"
                                   then ([c0], r') else ([], r0)
                               | [] => ([], r0)
                               end in
                             let (es, r2) := span_digits r1 in
                             match es with
                             | [] => None
                             | _ => Some (sg ++ int ++ fr ++ [e] ++ esign ++ es, r2)
                             end
                           else Some (sg ++ int ++ fr, s3)
                       | [] => Some (sg ++ int ++ fr, s3)
                       end
                   | None => None
                   end
             end) = Some (sg ++ d0 :: dt, c :: r)).
  { intros sg. rewrite (span_digits_app _ _ _ F Hdelim).
    assert (Ascii.eqb d0 "0" && negb (length dt =? 0)%nat = false) as ->.
    { destruct Lead as [Hne | ->]; [|apply andb_false_r].
      destruct (Ascii.eqb d0 "0"); [exfalso; apply Hne, Hz; reflexivity|reflexivity]. }
    destruct Hc as [-> | ->]; cbn; now rewrite app_nil_r. }
  destruct Hsign as [-> | ->]; unfold parse_number.
  - cbn [app]. rewrite Hm. apply (Body []).
  - cbn [app]. change (Ascii.eqb "-" "-") with true. cbv iota. apply (Body ["-"%char]).
Qed.

(** [%d] of a 64-bit integer is a decimal with an optional sign, and
    [ParseInt] reads it back. *)
Lemma fmt_int_literal (z : Z) :
  int64 z →
  ∃ sign d,
    list_ascii_of_string (fmt_int z) = sign ++ d
    ∧ decimal d ∧ (sign = [] ∨ sign = ["-"%char])
    ∧ parse_int64 (sign ++ d) = Some z.
Proof.
  intros [Hlo Hhi].
  assert (Pos : ∀ p : positive, ∃ d,
            list_ascii_of_string (pretty (N.pos p)) = d ∧ decimal d
            ∧ digits_value d 0 = Some (Z.pos p)).
  { intros p. unfold pretty, pretty_N.
    destruct (decide (N.pos p = 0%N)) as [E|_]; [discriminate|].
    destruct (pretty_N_go_digits (N.pos p) "") as (d & scale & E & F & V & L).
    destruct L as (d0 & dt & -> & Hd0); [reflexivity|].
    exists (d0 :: dt). rewrite E, append_empty_r, list_ascii_of_string_of_list_ascii.
    split; [reflexivity|]. split.
    - split; [assumption|]. exists d0, dt. split; [reflexivity|now left].
    - rewrite V. reflexivity. }
  destruct z as [|p|p].
  - exists [], ["0"%char]. repeat split; try (now left).
    + repeat constructor.
    + exists "0"%char, []. split; [reflexivity|now right].
  - destruct (Pos p) as (d & E & D & V). exists [], d. split; [exact E|].
    split; [assumption|]. split; [now left|].
    destruct D as (F & d0 & dt & -> & _).
    assert (Hd0 : is_digit d0 = true) by now inversion F.
    destruct (digit_facts d0 Hd0) as (Hm & _).
    unfold parse_int64. cbn [app]. rewrite Hm, V.
    destruct (Z.leb_spec (- 2 ^ 63) (Z.pos p)); [|lia].
    destruct (Z.ltb_spec (Z.pos p) (2 ^ 63)); [reflexivity|lia].
  - destruct (Pos p) as (d & E & D & V). exists ["-"%char], d. split.
    { unfold fmt_int, pretty, pretty_Z. cbn [app]. rewrite <- E. reflexivity. }
    split; [assumption|]. split; [now right|].
    unfold parse_int64. cbn [app]. change (Ascii.eqb "-" "-") with true. cbv iota.
    rewrite V. cbn [option_map]. change (- Z.pos p) with (Z.neg p).
    destruct (Z.leb_spec (- 2 ^ 63) (Z.neg p)); [|lia].
    destruct (Z.ltb_spec (Z.neg p) (2 ^ 63)); [reflexivity|lia].
Qed.

(** *** Values and members *)

Lemma parse_value_string (f : nat) (depth : Z) (s : string) (rest : list ascii) :
  ascii_string s →
  parse_value (S f) depth (marshal_string s ++ rest)
  = Some (VStr (list_ascii_of_string s), rest).
Proof.
  intros H. unfold marshal_string. cbn [app parse_value skip_space].
  change (is_space "034") with false. cbv iota.
  change (Ascii.eqb "034" "034") with true. cbv iota.
  rewrite <- app_assoc. cbn [app]. now rewrite (parse_string_escaped _ _ H).
Qed.

Lemma parse_value_number (f : nat) (depth : Z) (sign d : list ascii) (c : ascii)
    (r : list ascii) :
  decimal d → delimiter c → sign = [] ∨ sign = ["-"%char] →
  parse_value (S f) depth (sign ++ d ++ c :: r) = Some (VNum (sign ++ d), c :: r).
Proof.
  intros D Hc Hsign. pose proof (parse_number_decimal sign d c r D Hc Hsign) as P.
  destruct D as (F & d0 & dt & -> & _).
  assert (Hd0 : is_digit d0 = true) by now inversion F.
  destruct (digit_facts d0 Hd0) as (H1 & H2 & H3 & H4 & H5 & H6 & H7 & H8 & _).
  destruct Hsign as [-> | ->]; cbn [app parse_value skip_space] in *.
  - rewrite H2, H3, H4, H5, H6, H7, H8. now rewrite P.
  - change (is_space "-") with false. cbv iota.
    change (Ascii.eqb "-" "034") with false. change (Ascii.eqb "-" "{") with false.
    change (Ascii.eqb "-" "[") with false. change (Ascii.eqb "-" "t") with false.
    change (Ascii.eqb "-" "f") with false. change (Ascii.eqb "-" "n") with false.
    cbv iota. now rewrite P.
Qed.

Lemma parse_members_more (f : nat) (depth : Z) (name : string) (body : list ascii)
    (v : value) (rest : list ascii) :
  plain_name name →
  parse_value (S f) depth (body ++ ","%char :: rest) = Some (v, ","%char :: rest) →
  parse_members (S (S f)) depth (marshal_key name ++ body ++ ","%char :: rest)
  = match parse_members (S f) depth rest with
    | Some (ms, r) => Some ((list_ascii_of_string name, v) :: ms, r)
    | None => None
    end.
Proof.
  intros [Hn Ha] Hv. unfold marshal_key.
  cbn [app parse_members skip_space].
  change (is_space "034") with false. cbv iota.
  change (Ascii.eqb "034" "034") with true. cbv iota.
  rewrite <- app_assoc. cbn [app].
  rewrite <- Hn at 1. rewrite (parse_string_escaped _ _ Ha).
  cbn [skip_space]. change (is_space ":") with false. cbv iota.
  change (Ascii.eqb ":" ":") with true. cbv iota. rewrite Hv.
  cbn [skip_space]. change (is_space ",") with false. cbv iota.
  change (Ascii.eqb "," ",") with true. cbv iota. reflexivity.
Qed.

Lemma parse_members_last (f : nat) (depth : Z) (name : string) (body : list ascii)
    (v : value) (rest : list ascii) :
  plain_name name →
  parse_value (S f) depth (body ++ "}"%char :: rest) = Some (v, "}"%char :: rest) →
  parse_members (S (S f)) depth (marshal_key name ++ body ++ "}"%char :: rest)
  = Some ([(list_ascii_of_string name, v)], rest).
Proof.
  intros [Hn Ha] Hv. unfold marshal_key.
  cbn [app parse_members skip_space].
  change (is_space "034") with false. cbv iota.
  change (Ascii.eqb "034" "034") with true. cbv iota.
  rewrite <- app_assoc. cbn [app].
  rewrite <- Hn at 1. rewrite (parse_string_escaped _ _ Ha).
  cbn [skip_space]. change (is_space ":") with false. cbv iota.
  change (Ascii.eqb ":" ":") with true. cbv iota. rewrite Hv.
  cbn [skip_space]. change (is_space "}") with false. cbv iota.
  change (Ascii.eqb "}" ",") with false. change (Ascii.eqb "}" "}") with true.
  cbv iota. reflexivity.
Qed.

Lemma parse_value_object (f : nat) (name : string) (rest : list ascii) :
  parse_value (S f) 0 ("{"%char :: marshal_key name ++ rest)
  = match parse_members f 1 (marshal_key name ++ rest) with
    | Some (ms, r) => Some (VObj ms, r)
    | None => None
    end.
Proof. reflexivity. Qed.

Lemma plain_names :
  plain_name "sub" ∧ plain_name "iss" ∧ plain_name "preferred_username"
  ∧ plain_name "email" ∧ plain_name "name" ∧ plain_name "given_name"
  ∧ plain_name "family_name" ∧ plain_name "exp" ∧ plain_name "iat".
Proof.
  repeat split; try reflexivity;
    unfold ascii_string; repeat constructor.
Qed.

(** The members the decoder reads in the encoding of a claim set. *)
Lemma parse_marshal_claims (c : JWTClaims) :
  ascii_claims c →
  ∃ exp iat,
    parse_int64 exp = Some (Exp c) ∧ parse_int64 iat = Some (Iat c)
    ∧ parse (marshal_claims c)
      = Some (VObj
          [(list_ascii_of_string "sub", VStr (list_ascii_of_string (Sub c)));
           (list_ascii_of_string "iss", VStr (list_ascii_of_string (Iss c)));
           (list_ascii_of_string "preferred_username",
            VStr (list_ascii_of_string (PreferredUsername c)));
           (list_ascii_of_string "email", VStr (list_ascii_of_string (Email c)));
           (list_ascii_of_string "name", VStr (list_ascii_of_string (Name c)));
           (list_ascii_of_string "given_name", VStr (list_ascii_of_string (GivenName c)));
           (list_ascii_of_string "family_name",
            VStr (list_ascii_of_string (FamilyName c)));
           (list_ascii_of_string "exp", VNum exp);
           (list_ascii_of_string "iat", VNum iat)]).
Proof.
  intros (H1 & H2 & H3 & H4 & H5 & H6 & H7 & H8 & H9).
  destruct (fmt_int_literal _ H8) as (sg8 & d8 & E8 & D8 & S8 & P8).
  destruct (fmt_int_literal _ H9) as (sg9 & d9 & E9 & D9 & S9 & P9).
  destruct plain_names as (N1 & N2 & N3 & N4 & N5 & N6 & N7 & N8 & N9).
  exists (sg8 ++ d8), (sg9 ++ d9). split; [assumption|]. split; [assumption|].
  unfold parse, marshal_claims. rewrite list_ascii_of_string_of_list_ascii, E8, E9.
  match goal with |- context [parse_value (S (length ?l))] =>
    assert (L : ∃ k, length l = (11 + k)%nat) end.
  { match goal with |- ∃ k, ?n = _ => exists (n - 11)%nat; enough (11 <= n)%nat by lia end.
    unfold marshal_key. repeat (rewrite length_cons || rewrite length_app). lia. }
  destruct L as [k ->]. cbn [Nat.add].
  rewrite parse_value_object.
  rewrite (parse_members_more _ _ "sub" (marshal_string (Sub c)) _ _ N1
             (parse_value_string _ _ _ _ H1)).
  rewrite (parse_members_more _ _ "iss" (marshal_string (Iss c)) _ _ N2
             (parse_value_string _ _ _ _ H2)).
  rewrite (parse_members_more _ _ "preferred_username"
             (marshal_string (PreferredUsername c)) _ _ N3
             (parse_value_string _ _ _ _ H3)).
  rewrite (parse_members_more _ _ "email" (marshal_string (Email c)) _ _ N4
             (parse_value_string _ _ _ _ H4)).
  rewrite (parse_members_more _ _ "name" (marshal_string (Name c)) _ _ N5
             (parse_value_string _ _ _ _ H5)).
  rewrite (parse_members_more _ _ "given_name" (marshal_string (GivenName c)) _ _ N6
             (parse_value_string _ _ _ _ H6)).
  rewrite (parse_members_more _ _ "family_name" (marshal_string (FamilyName c)) _ _ N7
             (parse_value_string _ _ _ _ H7)).
  rewrite (parse_members_more _ _ "exp" (sg8 ++ d8) (VNum (sg8 ++ d8)) _ N8).
  2: { rewrite <- app_assoc. apply parse_value_number; [assumption|now left|assumption]. }
  rewrite (parse_members_last _ _ "iat" (sg9 ++ d9) (VNum (sg9 ++ d9)) [] N9).
  2: { rewrite <- app_assoc. apply parse_value_number; [assumption|now right|assumption]. }
  reflexivity.
Qed.

Lemma fill_member (sch : schema) (key : list ascii) (v : value) (name : string)
    (k : kind) (x : fval) (rest : list (list ascii * value)) (acc : gmap string fval) :
  find_field sch key = Some (name, k) → convert k v = Some (Some x) →
  fill sch ((key, v) :: rest) acc = fill sch rest (<[name := x]> acc).
Proof. intros F C. cbn [fill]. now rewrite F, C. Qed.

(** The decoder reads the encoding of a claim set of ASCII strings and
    64-bit integers as that claim set. *)
Lemma unmarshal_marshal_claims (c : JWTClaims) :
  ascii_claims c → unmarshal_claims (marshal_claims c) = Some c.
Proof.
  intros H. destruct (parse_marshal_claims c H) as (exp & iat & P8 & P9 & P).
  unfold unmarshal_claims, Unmarshal. rewrite P.
  assert (Str : ∀ s, convert KString (VStr (list_ascii_of_string s)) = Some (Some (FStr s))).
  { intros s. cbn. now rewrite string_of_list_ascii_of_string. }
  assert (I8 : convert KInt64 (VNum exp) = Some (Some (FInt (Exp c))))
    by (cbn; now rewrite P8).
  assert (I9 : convert KInt64 (VNum iat) = Some (Some (FInt (Iat c))))
    by (cbn; now rewrite P9).
  rewrite (fill_member claims_schema (list_ascii_of_string "sub") _ "sub"
             KString _ _ _ eq_refl (Str _)).
  rewrite (fill_member claims_schema (list_ascii_of_string "iss") _ "iss"
             KString _ _ _ eq_refl (Str _)).
  rewrite (fill_member claims_schema (list_ascii_of_string "preferred_username") _ "preferred_username"
             KString _ _ _ eq_refl (Str _)).
  rewrite (fill_member claims_schema (list_ascii_of_string "email") _ "email"
             KString _ _ _ eq_refl (Str _)).
  rewrite (fill_member claims_schema (list_ascii_of_string "name") _ "name"
             KString _ _ _ eq_refl (Str _)).
  rewrite (fill_member claims_schema (list_ascii_of_string "given_name") _ "given_name"
             KString _ _ _ eq_refl (Str _)).
  rewrite (fill_member claims_schema (list_ascii_of_string "family_name") _ "family_name"
             KString _ _ _ eq_refl (Str _)).
  rewrite (fill_member claims_schema (list_ascii_of_string "exp") _ "exp"
             KInt64 _ _ _ eq_refl I8).
  rewrite (fill_member claims_schema (list_ascii_of_string "iat") _ "iat"
             KInt64 _ _ _ eq_refl I9).
  cbn [fill]. unfold get_string, get_int.
  repeat (rewrite lookup_insert_eq || rewrite lookup_insert_ne by discriminate).
  destruct c. reflexivity.
Qed.


End JsonRoundTrip.

(** ** The theorems at concrete inputs *)

Section Instances.
Import jwt auth cmd digit_workflow.

(** The scenario against [net_scenario]: four calls in order, the action
    call on state s1 with next state s2. *)
Lemma createWorkflow_scenario_instance :
  fst (createWorkflow net_scenario "http://srv" "jwt" "ACME" def_scenario
         (mkWorld NoFile None [] [])) = Ok ()
  ∧ map label_of
      (trace (snd (createWorkflow net_scenario "http://srv" "jwt" "ACME" def_scenario
                     (mkWorld NoFile None [] []))))
    = [LProcess; LState "A"; LState "B"; LAction "GO"]
  ∧ (∃ earlier,
       stdout (snd (createWorkflow net_scenario "http://srv" "jwt" "ACME" def_scenario
                      (mkWorld NoFile None [] [])))
       = earlier ++ ["Process ID: p1" +:+ nl; "States: 2" +:+ nl; "Actions: 1" +:+ nl]).
Proof.
  destruct (createWorkflow_scenario net_scenario "http://srv" "jwt" "ACME"
              "" "" "" "" "" 0 0 0 false false false false false false [] []
              (mkWorld NoFile None [] []))
    as (R & T & _ & _ & earlier & O).
  - discriminate.
  - discriminate.
  - reflexivity.
  - intros hist. exists 201, (json_member "id" "p1"),
      [(list_ascii_of_string "id", Json.VStr (list_ascii_of_string "p1"))].
    repeat split; vm_compute; reflexivity.
  - intros hist. exists 201, (json_member "id" "s1"),
      [(list_ascii_of_string "id", Json.VStr (list_ascii_of_string "s1"))].
    repeat split; vm_compute; reflexivity.
  - intros hist. exists 201, (json_member "id" "s2"),
      [(list_ascii_of_string "id", Json.VStr (list_ascii_of_string "s2"))].
    repeat split; vm_compute; reflexivity.
  - intros hist. exists 200, "{}". split; vm_compute; reflexivity.
  - split; [exact R|]. split.
    + change def_scenario with
        (mkWorkflow (mkProcessDef "" "WF1" "" "" 0)
           [mkStateDef "A" "" true false false 0; mkStateDef "B" "" false false false 0]
           [mkActionDef "GO" "A" "B" [] [] false]).
      rewrite T. reflexivity.
    + exists earlier. exact O.
Defined.




(** Two tokens that share only their middle segment. *)
Lemma decode_depends_on_middle_segment_instance :
  DecodeJWT "aaa.e30.bbb" = DecodeJWT "ccc.e30.ddd"
  ∧ ExtractTenantID "aaa.e30.bbb" = ExtractTenantID "ccc.e30.ddd"
  ∧ ExtractClientID "aaa.e30.bbb" = ExtractClientID "ccc.e30.ddd"
  ∧ IsTokenExpired 0 "aaa.e30.bbb" = IsTokenExpired 0 "ccc.e30.ddd".
Proof.
  apply (decode_depends_on_middle_segment "aaa.e30.bbb" "ccc.e30.ddd"
           "aaa" "ccc" "e30" "bbb" "ddd" 0); repeat split.
Defined.

End Instances.

(** * Further properties *)

(** ** Tokens *)

Section TokenEdges.
Import GoStrings Base64 jwt.

Lemma skip_newlines_foreign (l : list ascii) :
  Exists foreign_byte l → Exists foreign_byte (skip_newlines l).
Proof.
  induction l as [|c l IH]; intros H; [inversion H|].
  cbn [skip_newlines]. destruct (is_newline c) eqn:N; [|exact H].
  apply IH. inversion H as [? ? (_ & _ & F)|]; subst; [congruence|assumption].
Qed.

Lemma skip_newlines_foreign_cons (l : list ascii) :
  Exists foreign_byte l → ∃ c rest, skip_newlines l = c :: rest ∧ Exists foreign_byte (c :: rest).
Proof.
  intros H. apply skip_newlines_foreign in H.
  destruct (skip_newlines l) as [|c rest]; [inversion H|eauto].
Qed.

(** The decoder fails on every input with a foreign byte, wherever the
    byte is. *)
Lemma decode_from_foreign (src : list ascii) :
  Exists foreign_byte src → ∀ dbuf, decode_from src dbuf = None.
Proof.
  induction src as [|c rest IH]; intros H dbuf; [inversion H|].
  cbn [decode_from].
  inversion H as [? ? (D & P & N)|? ? T]; subst.
  - rewrite D, N. destruct (Ascii.eqb_spec c padChar); [contradiction|reflexivity].
  - destruct (decodeMap c) as [out|].
    + destruct (length dbuf =? 3)%nat; [|now apply IH].
      now rewrite (IH T []).
    + destruct (is_newline c); [now apply IH|].
      destruct (Ascii.eqb c padChar); [|reflexivity].
      destruct (skip_newlines_foreign_cons rest T) as (c2 & rest2 & -> & E).
      destruct (length dbuf) as [|[|[|[|n]]]]; try reflexivity.
      destruct (Ascii.eqb_spec c2 padChar) as [->|]; [|reflexivity].
      inversion E as [? ? (_ & P & _)|? ? T2]; subst; [contradiction|].
      now destruct (skip_newlines_foreign_cons rest2 T2) as (c3 & rest3 & -> & _).
Qed.

Lemma list_ascii_of_string_append (a b : string) :
  list_ascii_of_string (a +:+ b) = list_ascii_of_string a ++ list_ascii_of_string b.
Proof. induction a as [|c a IH]; [reflexivity|]. rewrite append_cons. cbn. now rewrite IH. Qed.

(** X1. A token of three segments whose payload has a byte outside the
    base64url alphabet (other than padding and line breaks) is rejected with
    the decoding error; the bytes [+] and [/] of the standard alphabet are
    such bytes. *)
Theorem DecodeJWT_rejects_foreign_byte (token h p s : string) :
  three_segments token h p s → Exists foreign_byte (list_ascii_of_string p) →
  DecodeJWT token = Err (Wrapf "failed to decode JWT payload" (LibError "base64"))
  ∧ foreign_byte "+" ∧ foreign_byte "/".
Proof.
  intros T F. split; [|split; (split; [reflexivity|split; [discriminate|reflexivity]])].
  rewrite (DecodeJWT_three _ _ _ _ T). unfold payload_claims, DecodeString.
  rewrite add_padding_spec, list_ascii_of_string_append, decode_from_foreign; [reflexivity|].
  apply Exists_app. now left.
Qed.

Lemma pad_of_no_dot (n : nat) : Count (pad_of n) "." = 0%nat.
Proof.
  unfold pad_of. destruct (n mod 4)%nat as [|[|[|k]]]; reflexivity.
Qed.

Lemma add_padding_idempotent (p : string) : add_padding (add_padding p) = add_padding p.
Proof.
  rewrite (add_padding_spec (add_padding p)). unfold pad_of.
  rewrite add_padding_length. apply append_empty_r.
Qed.

(** X2. The padding loop leaves a payload that carries its padding as it is:
    a token decodes to the same result with and without the padding of its
    payload. *)
Theorem DecodeJWT_padded_payload (h p s : string) :
  Count h "." = 0%nat → Count p "." = 0%nat → Count s "." = 0%nat →
  DecodeJWT (h +:+ "." +:+ add_padding p +:+ "." +:+ s)
  = DecodeJWT (h +:+ "." +:+ p +:+ "." +:+ s).
Proof.
  intros Hh Hp Hs.
  assert (T1 : three_segments (h +:+ "." +:+ add_padding p +:+ "." +:+ s) h (add_padding p) s).
  { repeat split; try assumption.
    rewrite add_padding_spec, Count_append, Hp. apply pad_of_no_dot. }
  assert (T2 : three_segments (h +:+ "." +:+ p +:+ "." +:+ s) h p s) by (repeat split; assumption).
  rewrite (DecodeJWT_three _ _ _ _ T1), (DecodeJWT_three _ _ _ _ T2).
  unfold payload_claims. now rewrite add_padding_idempotent.
Qed.

(** X3. Expiry is monotone in time: a token that counts as expired at an
    instant counts as expired at every later instant, with the same error
    if there is one. *)
Theorem IsTokenExpired_monotone (now later : Z) (token : string) :
  now <= later →
  (fst (IsTokenExpired now token) = true → fst (IsTokenExpired later token) = true)
  ∧ snd (IsTokenExpired later token) = snd (IsTokenExpired now token).
Proof.
  intros L. unfold IsTokenExpired. destruct (DecodeJWT token) as [c|e]; cbn [fst snd].
  - split; [|reflexivity]. intros H. apply Z.ltb_lt in H. apply Z.ltb_lt. lia.
  - split; reflexivity.
Qed.

(** X4. The identifiers of an issued token: for a claim set of ASCII
    strings, [ExtractClientID] returns the subject, and fails when the
    subject is empty; [ExtractTenantID] returns the realm that ends the
    issuer URL. *)
Theorem ids_of_issued_token (c : JWTClaims) (h s : string) :
  ascii_claims c → Count h "." = 0%nat → Count s "." = 0%nat →
  (Sub c ≠ "" → ExtractClientID (issued_token h c s) = Ok (Sub c))
  ∧ (Sub c = "" →
     ExtractClientID (issued_token h c s) = Err (Errorf "no subject (sub) found in JWT token"))
  ∧ (∀ server realm, Iss c = server +:+ "/realms/" +:+ realm →
     Count realm "/" = 0%nat → realm ≠ "" →
     ExtractTenantID (issued_token h c s) = Ok realm).
Proof.
  intros A Hh Hs.
  assert (D : DecodeJWT (issued_token h c s) = Ok c).
  { apply DecodeJWT_of_json; [|assumption..]. now apply unmarshal_marshal_claims. }
  split; [|split].
  - intros N. unfold ExtractClientID. rewrite D. now rewrite eqb_neq_false.
  - intros E. unfold ExtractClientID. now rewrite D, E.
  - intros server realm I Hr N.
    rewrite (ExtractTenantID_of_claims _ _ D). cbv zeta.
    assert (I' : Iss c = (server +:+ "/realms") +:+ String "/" realm).
    { rewrite I. rewrite string_append_assoc. reflexivity. }
    destruct (Split_last (server +:+ "/realms") realm "/" Hr) as (front & Sp & Hf).
    rewrite I', Sp, length_app. cbn [length].
    replace (length front + 1 - 1)%nat with (length front) by lia.
    rewrite nth_middle.
    destruct front; [congruence|]. cbn [length].
    replace (S (length front) + 1 <? 2)%nat with false by (symmetry; apply Nat.ltb_ge; lia).
    now rewrite eqb_neq_false.
Qed.

End TokenEdges.

(** ** The configuration file *)

Section ConfigFile.
Import config config_globals api.

Lemma Load_stored (w : world) (cfg : Config) :
  stored_config w = Some cfg → Load w = (Ok cfg, w).
Proof.
  unfold stored_config, Load. destruct (disk w); intros H; try discriminate; congruence.
Qed.

Lemma Load_saved (w : world) (c : Config) : Load (saved w c) = (Ok c, saved w c).
Proof. reflexivity. Qed.

Lemma Save_stored (w : world) (cfg c : Config) :
  stored_config w = Some cfg → save_error w = None → Save c w = (Ok (), saved w c).
Proof.
  unfold stored_config, Save, saved. intros H ->. destruct (disk w); try discriminate; reflexivity.
Qed.

Lemma Load_failure (w : world) :
  stored_config w = None → ∃ e, Load w = (Err e, w).
Proof.
  unfold stored_config, Load. destruct (disk w); intros H; try discriminate; eauto.
Qed.

(** X5. What a setter stores is what the getters return: each of
    [SetServerURL], [SetJWTToken] and [SetAuthConfig] changes its own field
    of the stored configuration and keeps the two others, also when there
    was no file before. *)
Theorem config_set_then_get (w : world) (cfg : Config) :
  stored_config w = Some cfg → save_error w = None →
  (∀ u, let w' := saved w (mkConfig u (JWTToken cfg) (Auth cfg)) in
     SetServerURL u w = (Ok (), w')
     ∧ GetServerURL w' = (Ok u, w')
     ∧ GetJWTToken w' = (Ok (JWTToken cfg), w')
     ∧ GetAuthConfig w' = (Ok (Auth cfg), w'))
  ∧ (∀ t, let w' := saved w (mkConfig (Server cfg) t (Auth cfg)) in
     SetJWTToken t w = (Ok (), w')
     ∧ GetJWTToken w' = (Ok t, w')
     ∧ GetServerURL w' = (Ok (Server cfg), w')
     ∧ GetAuthConfig w' = (Ok (Auth cfg), w'))
  ∧ (∀ s r c cs u p,
     let a := mkAuthConfig s r c cs u p in
     let w' := saved w (mkConfig (Server cfg) (JWTToken cfg) (Some a)) in
     SetAuthConfig s r c cs u p w = (Ok (), w')
     ∧ GetAuthConfig w' = (Ok (Some a), w')
     ∧ GetRealm w' = (Ok r, w')
     ∧ GetServerURL w' = (Ok (Server cfg), w')
     ∧ GetJWTToken w' = (Ok (JWTToken cfg), w')).
Proof.
  intros L S.
  repeat split;
    unfold SetServerURL, SetJWTToken, SetAuthConfig, mbind, M_bind;
    rewrite ?(Load_stored _ _ L); now apply (Save_stored _ cfg).
Qed.

(** X6. A setter never overwrites a configuration file it cannot read: when
    the file is unreadable or is no YAML (or there is no home directory),
    every setter and every getter fails with the error of [Load], and
    nothing is written. *)
Theorem config_unreadable_file_kept (w : world) :
  stored_config w = None →
  ∃ e,
    (∀ u, SetServerURL u w = (Err e, w))
    ∧ (∀ t, SetJWTToken t w = (Err e, w))
    ∧ (∀ s r c cs u p, SetAuthConfig s r c cs u p w = (Err e, w))
    ∧ GetServerURL w = (Err e, w) ∧ GetJWTToken w = (Err e, w)
    ∧ GetAuthConfig w = (Err e, w) ∧ GetRealm w = (Err e, w).
Proof.
  intros L. destruct (Load_failure w L) as (e & E). exists e.
  repeat split; intros;
    unfold SetServerURL, SetJWTToken, SetAuthConfig, GetServerURL, GetJWTToken,
      GetAuthConfig, GetRealm, mbind, M_bind; now rewrite E.
Qed.

(** X7. [NewClient] needs a stored server URL: it returns a client for the
    stored URL when there is one; without a configuration file, and with a
    file that has no server, it fails and tells to run config set; when the
    file cannot be read it fails with the error of [Load]. *)
Theorem NewClient_needs_server (w : world) :
  (∀ cfg, stored_config w = Some cfg → Server cfg ≠ "" →
     NewClient w = (Ok (mkClient (Server cfg)), w))
  ∧ (∀ cfg, stored_config w = Some cfg → Server cfg = "" →
     NewClient w
     = (Err (Errorf "no server URL configured. Please run 'digit config set' to authenticate"),
        w))
  ∧ (disk w = NoFile →
     NewClient w
     = (Err (Errorf "no server URL configured. Please run 'digit config set' to authenticate"),
        w))
  ∧ (stored_config w = None →
     ∃ e, NewClient w = (Err (Wrapf "failed to get server URL" e), w)).
Proof.
  unfold NewClient, GetServerURL, wrap, mbind, M_bind.
  split; [|split; [|split]].
  - intros cfg L N. rewrite (Load_stored _ _ L). cbn. now rewrite eqb_neq_false.
  - intros cfg L E. rewrite (Load_stored _ _ L). cbn. now rewrite E.
  - intros D. unfold Load. now rewrite D.
  - intros L. destruct (Load_failure w L) as (e & E). exists e. now rewrite E.
Qed.

End ConfigFile.

(** ** Context files *)

Section ContextFiles.
Import context.

Lemma find_context_first (contexts : list Context) (name : string) (d : ContextDetail) :
  find_context contexts name = Some d →
  ∃ before after, contexts = before ++ mkContext name d :: after
    ∧ name ∉ map ctx_Name before.
Proof.
  induction contexts as [|[n d'] rest IH]; [discriminate|].
  cbn [find_context ctx_Name ctx_Context].
  destruct (String.eqb_spec n name) as [->|N].
  - intros [= ->]. exists [], rest. split; [reflexivity|]. cbn. set_solver.
  - intros H. destruct (IH H) as (before & after & -> & Hn).
    exists (mkContext n d' :: before), after. split; [reflexivity|].
    cbn. set_solver.
Qed.

Lemma find_context_none (contexts : list Context) (name : string) :
  find_context contexts name = None ↔ name ∉ map ctx_Name contexts.
Proof.
  induction contexts as [|[n d'] rest IH]; cbn [find_context ctx_Name ctx_Context map].
  - split; [set_solver|reflexivity].
  - destruct (String.eqb_spec n name) as [->|N].
    + split; [discriminate|]. set_solver.
    + rewrite IH. set_solver.
Qed.

(** X8. [GetContext] finds a context exactly when [ListContexts] lists its
    name; of several contexts with the name it returns the first; an
    unlisted name gives the not-found error. *)
Theorem GetContext_listed (cc : ContextConfig) (name : string) :
  (name ∈ ListContexts cc ↔ ∃ d, GetContext cc name = Ok d)
  ∧ (name ∉ ListContexts cc →
     GetContext cc name = Err (Errorf ("context '" +:+ name +:+ "' not found")))
  ∧ (∀ d, GetContext cc name = Ok d →
     ∃ before after, Contexts cc = before ++ mkContext name d :: after
       ∧ name ∉ map ctx_Name before).
Proof.
  unfold GetContext, ListContexts.
  pose proof (find_context_none (Contexts cc) name) as N.
  pose proof (find_context_first (Contexts cc) name) as F.
  destruct (find_context (Contexts cc) name) as [d|].
  - split; [|split].
    + split; [eauto|]. intros _.
      destruct (decide (name ∈ map ctx_Name (Contexts cc))) as [|Hn]; [assumption|].
      apply N in Hn. discriminate.
    + intros Hn. apply N in Hn. discriminate.
    + intros d' [= <-]. now apply F.
  - assert (Hn : name ∉ map ctx_Name (Contexts cc)) by now apply N.
    split; [|split].
    + split; [contradiction|]. intros (d & ?). discriminate.
    + reflexivity.
    + discriminate.
Qed.

End ContextFiles.

(** ** The calls of the workflow service *)

Section ServiceCalls.
Import GoStrings digit_workflow digit_process.
Variable net : network.
Variable sender : request → event.

Lemma eqb_append_slash (s : string) : String.eqb (s +:+ "/") "" = false.
Proof. destruct s; reflexivity. Qed.

Lemma TrimSuffixSlash_append (s : string) : TrimSuffixSlash (s +:+ "/") = s.
Proof.
  induction s as [|c s IH]; [reflexivity|].
  rewrite append_cons. cbn [TrimSuffixSlash].
  destruct s as [|d s]; [reflexivity|].
  rewrite append_cons in *. now rewrite IH.
Qed.

Lemma TrimSuffixSlash_id (s : string) :
  (∀ pre, s ≠ pre +:+ "/") → TrimSuffixSlash s = s.
Proof.
  induction s as [|c s IH]; [reflexivity|]. intros H.
  cbn [TrimSuffixSlash]. destruct s as [|d s].
  - destruct (Ascii.eqb_spec c "/") as [->|]; [|reflexivity].
    exfalso. now apply (H "").
  - f_equal. apply IH. intros pre E. apply (H (String c pre)).
    rewrite append_cons. now f_equal.
Qed.

(** X9. Every call validates its arguments before it sends anything: with an
    empty server URL or an empty tenant the five functions return the
    error for the first of the two that is empty, and with an empty
    identifier of the resource the error for it; the world is as it was. *)
Theorem calls_validate_before_sending (serverURL jwtToken tenantID : string) (w : world) :
  (serverURL = "" ∨ tenantID = "" →
   let e := Errorf (if String.eqb serverURL "" then "server URL is required"
                    else "tenant ID is required") in
   (∀ name code description version sla,
      CreateProcess net serverURL jwtToken tenantID name code description version sla w
      = (Err e, w))
   ∧ (∀ processID code name i p j sla,
      CreateState net serverURL jwtToken tenantID processID code name i p j sla w
      = (Err e, w))
   ∧ (∀ stateID name nextState roles check,
      CreateAction net serverURL jwtToken tenantID stateID name nextState roles check w
      = (Err e, w))
   ∧ (∀ processID,
      SearchProcessDefinition net sender serverURL jwtToken tenantID processID w = (Err e, w))
   ∧ (∀ code, DeleteProcess net sender serverURL jwtToken tenantID code w = (Err e, w)))
  ∧ (serverURL ≠ "" → tenantID ≠ "" →
     (∀ code name i p j sla,
        CreateState net serverURL jwtToken tenantID "" code name i p j sla w
        = (Err (Errorf "process ID is required"), w))
     ∧ (∀ name nextState roles check,
        CreateAction net serverURL jwtToken tenantID "" name nextState roles check w
        = (Err (Errorf "state ID is required"), w))
     ∧ SearchProcessDefinition net sender serverURL jwtToken tenantID "" w
       = (Err (Errorf "process ID is required"), w)
     ∧ DeleteProcess net sender serverURL jwtToken tenantID "" w
       = (Err (Errorf "process code is required"), w)).
Proof.
  split.
  - intros H. cbv zeta.
    unfold CreateProcess, CreateState, CreateAction, SearchProcessDefinition, DeleteProcess.
    destruct (String.eqb_spec serverURL "") as [|N]; [repeat split|].
    destruct H as [ | -> ]; [contradiction|]. repeat split.
  - intros N1 N2.
    unfold CreateState, CreateAction, SearchProcessDefinition, DeleteProcess.
    rewrite (eqb_neq_false _ N1), (eqb_neq_false _ N2). repeat split.
Qed.

Lemma exchange_answered (r : request) (failed : Z → bool) (w : world)
    (status : Z) (text : string) :
  url_ok net (req_url r) = true → answer net (trace w) r = Response status text →
  exchange net sender r failed w
  = (if failed status then Err (StatusError status text) else Ok text, sent w (sender r)).
Proof.
  intros U A. unfold exchange, send, mbind, M_bind. rewrite U. cbn [negb].
  rewrite A. cbn [trace]. now destruct (failed status).
Qed.

(** X10. The statuses the two functions take for a success: to
    [SearchProcessDefinition] every status from 200 to 299, as for the
    creation calls; to [DeleteProcess] only 200 and 204.  Either way one
    request was sent, and a refused answer is an error that carries the
    status and the body. *)
Theorem process_calls_status (serverURL jwtToken tenantID id : string) (w : world)
    (status : Z) (text : string) :
  serverURL ≠ "" → tenantID ≠ "" → id ≠ "" → (∀ url, url_ok net url = true) →
  (answer net (trace w) (definition_request serverURL jwtToken tenantID id)
     = Response status text →
   SearchProcessDefinition net sender serverURL jwtToken tenantID id w
   = (if (200 <=? status) && (status <? 300) then Ok text
      else Err (StatusError status text),
      sent w (sender (definition_request serverURL jwtToken tenantID id))))
  ∧ (answer net (trace w) (delete_request serverURL jwtToken tenantID id)
       = Response status text →
     DeleteProcess net sender serverURL jwtToken tenantID id w
     = (if (status =? 200) || (status =? 204) then Ok text
        else Err (StatusError status text),
        sent w (sender (delete_request serverURL jwtToken tenantID id)))).
Proof.
  intros N1 N2 N3 U.
  unfold SearchProcessDefinition, DeleteProcess.
  rewrite (eqb_neq_false _ N1), (eqb_neq_false _ N2), (eqb_neq_false _ N3).
  split; intros A; rewrite (exchange_answered _ _ _ _ _ (U _) A); f_equal.
  - unfold status_failed.
    destruct (Z.ltb_spec status 200), (Z.leb_spec 300 status),
      (Z.leb_spec 200 status), (Z.ltb_spec status 300); try lia; reflexivity.
  - unfold delete_failed. now destruct (status =? 200), (status =? 204).
Qed.

(** X11. One slash at the end of the server URL makes no difference: each of
    the five functions does with [serverURL/] what it does with
    [serverURL], when that one does not end with a slash. *)
Theorem trailing_slash_ignored (serverURL jwtToken tenantID : string) (w : world) :
  serverURL ≠ "" → (∀ pre, serverURL ≠ pre +:+ "/") →
  (∀ name code description version sla,
     CreateProcess net (serverURL +:+ "/") jwtToken tenantID name code description version
       sla w
     = CreateProcess net serverURL jwtToken tenantID name code description version sla w)
  ∧ (∀ processID code name i p j sla,
     CreateState net (serverURL +:+ "/") jwtToken tenantID processID code name i p j sla w
     = CreateState net serverURL jwtToken tenantID processID code name i p j sla w)
  ∧ (∀ stateID name nextState roles check,
     CreateAction net (serverURL +:+ "/") jwtToken tenantID stateID name nextState roles
       check w
     = CreateAction net serverURL jwtToken tenantID stateID name nextState roles check w)
  ∧ (∀ processID,
     SearchProcessDefinition net sender (serverURL +:+ "/") jwtToken tenantID processID w
     = SearchProcessDefinition net sender serverURL jwtToken tenantID processID w)
  ∧ (∀ code,
     DeleteProcess net sender (serverURL +:+ "/") jwtToken tenantID code w
     = DeleteProcess net sender serverURL jwtToken tenantID code w).
Proof.
  intros N E. apply TrimSuffixSlash_id in E.
  repeat split; intros;
    unfold CreateProcess, CreateState, CreateAction, SearchProcessDefinition, DeleteProcess,
      process_url, state_url, action_url, definition_request, delete_request,
      definition_url, delete_url;
    now rewrite eqb_append_slash, (eqb_neq_false _ N), TrimSuffixSlash_append, E.
Qed.

End ServiceCalls.

(** ** The API client *)

Section ApiClient.
Import jwt auth api.
Context {B : Type}.
Variable marshal : B → option string.
Variable net : network.
Variable now : Z.
Variable sender : request → event.

Lemma makeRequest_cases (c : Client) (method m endpoint json : string) (body : option B)
    (w : world) :
  request_method method = Some m → body_json marshal body = Some json →
  url_ok net (BaseURL c +:+ endpoint) = true →
  makeRequest marshal net now sender c method endpoint body w =
    match GetValidJWTToken net now w with
    | (Err e, w1) => (Err (Wrapf "failed to get authorization header" e), w1)
    | (Ok t, w1) =>
        (response_of (answer net (trace w1) (api_request c m endpoint body json t)),
         sent w1 (sender (api_request c m endpoint body json t)))
    end.
Proof.
  intros Hm Hj U. unfold makeRequest, mbind, M_bind.
  assert (Hb : match body with
               | Some b =>
                   match marshal b with
                   | Some jsonBody => mret jsonBody
                   | None => fail (Wrapf "failed to marshal request body" (LibError "json"))
                   end
               | None => mret ""
               end w = (Ok json, w)).
  { destruct body as [b|]; cbn [body_json] in Hj; [rewrite Hj|injection Hj as <-];
      reflexivity. }
  rewrite Hb, Hm, U. cbn [negb].
  unfold wrap, GetAuthorizationHeader, mbind, M_bind.
  destruct (GetValidJWTToken net now w) as [[t|e] w1]; [|reflexivity].
  cbn [mret M_ret]. unfold send, api_request, sent.
  cbn [trace disk save_error stdout].
  now destruct (answer net (trace w1) _).
Qed.


(** X13. What the client never sends.  When no valid token can be had, the
    client returns the error of [GetValidJWTToken] and sends no request of
    its own; when the body cannot be marshalled, the method is not a
    method or the URL is not a URL, it fails before it looks at the token:
    nothing is sent, nothing is refreshed, nothing is printed. *)
Theorem makeRequest_sends_nothing (c : Client) (method endpoint : string) (body : option B)
    (w : world) :
  (∀ m json e, request_method method = Some m → body_json marshal body = Some json →
     url_ok net (BaseURL c +:+ endpoint) = true →
     fst (GetValidJWTToken net now w) = Err e →
     makeRequest marshal net now sender c method endpoint body w
     = (Err (Wrapf "failed to get authorization header" e),
        snd (GetValidJWTToken net now w)))
  ∧ (body_json marshal body = None →
     makeRequest marshal net now sender c method endpoint body w
     = (Err (Wrapf "failed to marshal request body" (LibError "json")), w))
  ∧ (∀ json, body_json marshal body = Some json →
     request_method method = None ∨ url_ok net (BaseURL c +:+ endpoint) = false →
     makeRequest marshal net now sender c method endpoint body w
     = (Err (Wrapf "failed to create request" (LibError "http")), w)).
Proof.
  split; [|split].
  - intros m json e Hm Hj U E.
    rewrite (makeRequest_cases _ _ _ _ _ _ _ Hm Hj U).
    destruct (GetValidJWTToken net now w) as [[t|e'] w1]; cbn [fst snd] in *; congruence.
  - intros Hj. unfold makeRequest, mbind, M_bind.
    destruct body as [b|]; cbn [body_json] in Hj; [|discriminate]. now rewrite Hj.
  - intros json Hj H. unfold makeRequest, mbind, M_bind.
    assert (Hb : match body with
                 | Some b =>
                     match marshal b with
                     | Some jsonBody => mret jsonBody
                     | None => fail (Wrapf "failed to marshal request body" (LibError "json"))
                     end
                 | None => mret ""
                 end w = (Ok json, w)).
    { destruct body as [b|]; cbn [body_json] in Hj; [rewrite Hj|injection Hj as <-];
        reflexivity. }
    rewrite Hb. destruct H as [-> | ->]; [reflexivity|].
    now destruct (request_method method).
Qed.

End ApiClient.

(** ** The commands on the configuration *)

Section ConfigCommands.
Import config config_globals context cmd_config.
Variable net : network.
Variable files : string → context_file.

Lemma bind_ok {A C} (m : M A) (k : A → M C) (w w' : world) (a : A) :
  m w = (Ok a, w') → (m ≫= k) w = k a w'.
Proof. intros H. unfold mbind, M_bind. now rewrite H. Qed.

Lemma bind_err {A C} (m : M A) (k : A → M C) (w w' : world) (e : error) :
  m w = (Err e, w') → (m ≫= k) w = (Err e, w').
Proof. intros H. unfold mbind, M_bind. now rewrite H. Qed.

Lemma bind_print {C} (text : string) (k : unit → M C) (w : world) :
  (print text ≫= k) w = k () (printed w text).
Proof. reflexivity. Qed.

Lemma login_granted (v : ContextDetail) (storing done token : string) (w : world) :
  grants net w v token →
  login net v storing done w
  = (Ok token,
     logged_in w v token
       ["Authenticating with Keycloak..." +:+ nl; "✓ Authentication successful!" +:+ nl;
        storing; done; "Server URL: " +:+ ctx_Server v +:+ nl]).
Proof.
  intros (C & U & (text & fields & A & F & T) & [cfg L] & S).
  unfold login, mbind, M_bind, wrap.
  change (digit_auth.GetJWTToken net (ctx_Server v) (ctx_Realm v) (ctx_ClientID v)
            (ctx_ClientSecret v) (ctx_Username v) (ctx_Password v))
    with (digit_auth.GetJWTToken net (ServerURL (credentials_of v)) (Realm (credentials_of v))
            (ClientID (credentials_of v)) (ClientSecret (credentials_of v))
            (Username (credentials_of v)) (Password (credentials_of v))).
  destruct w as [d se tr out]. cbn [save_error trace] in *. subst se.
  unfold print at 1. cbn [disk save_error trace stdout].
  rewrite (GetJWTToken_complete net _ _ C U). cbn [trace]. rewrite A.
  cbn [Z.eqb Pos.eqb]. rewrite F, T.
  unfold stored_config in L. cbn [disk] in L.
  unfold logged_in, requested, SetServerURL, SetJWTToken, SetAuthConfig, Load, Save,
    print, mbind, M_bind, mret, M_ret.
  cbn [disk save_error trace stdout].
  destruct d; try discriminate; cbn [disk save_error trace stdout];
    repeat rewrite <- app_assoc; reflexivity.
Qed.

Lemma configSet_body_login (f : SetFlags) :
  configSet_body net files f =
    if String.eqb (f_file f) "" && some_flag_empty f then
      fail (Errorf "either --file flag or all of (--server, --account, --client-id, --client-secret, --username, --password) flags are required")
    else if negb (String.eqb (f_file f) "") && some_flag_given f then
      fail (Errorf "cannot use --file flag together with individual flags (--server, --account, --client-id, --client-secret, --username, --password)")
    else
      v ← set_values files f;
      _ ← print ("Server: " +:+ ctx_Server v +:+ nl);
      _ ← print ("Account: " +:+ ctx_Realm v +:+ nl);
      _ ← print ("Username: " +:+ ctx_Username v +:+ nl);
      login net v ("Storing configuration..." +:+ nl)
        ("✓ Configuration stored successfully!" +:+ nl).
Proof. reflexivity. Qed.

Lemma grants_printed (w : world) (v : ContextDetail) (token : string) (lines : list string) :
  grants net w v token → grants net (printed_all w lines) v token.
Proof. intros H. exact H. Qed.

Lemma set_values_chosen (f : SetFlags) (v : ContextDetail) (found : list string) (w : world) :
  chosen_values files f = Some (v, found) →
  set_values files f w = (Ok v, printed_all w found).
Proof.
  unfold chosen_values, set_values, LoadContextConfig, GetCurrentContext.
  destruct (String.eqb (f_file f) ""); cbn [negb].
  - intros [= <- <-]. reflexivity.
  - unfold mbind, M_bind, wrap, lift, print. cbn [disk save_error trace stdout].
    destruct (files (f_file f)) as [| | |cc]; try discriminate.
    destruct (String.eqb (CurrentContext cc) ""); [discriminate|].
    destruct (find_context (Contexts cc) (CurrentContext cc)); [|discriminate].
    intros [= <- <-]. unfold printed_all. cbn [disk save_error trace stdout mret M_ret].
    now rewrite <- app_assoc.
Qed.

Lemma configSet_body_granted (f : SetFlags) (v : ContextDetail) (found : list string)
    (token : string) (w : world) :
  flags_accepted f → chosen_values files f = Some (v, found) → grants net w v token →
  configSet_body net files f w = (Ok token, logged_in w v token (set_lines found v)).
Proof.
  intros Hf Hc G. rewrite configSet_body_login.
  assert (E : String.eqb (f_file f) "" && some_flag_empty f = false
            ∧ negb (String.eqb (f_file f) "") && some_flag_given f = false).
  { destruct Hf as [[-> ->]|[N ->]]; [split; reflexivity|].
    rewrite (eqb_neq_false _ N). split; reflexivity. }
  destruct E as [-> ->].
  unfold mbind at 1, M_bind at 1. rewrite (set_values_chosen _ _ _ _ Hc).
  unfold mbind at 1 2 3, M_bind at 1 2 3, print at 1 2 3.
  cbn [disk save_error trace stdout].
  match goal with |- login net v _ _ ?w1 = _ =>
    rewrite (login_granted v _ _ token w1 G) end.
  unfold logged_in, printed_all, set_lines. cbn [disk save_error trace stdout].
  repeat rewrite <- app_assoc. reflexivity.
Qed.

Lemma RefreshToken_trace (net' : network) (w : world) (cfg : Config) (a : AuthConfig) :
  disk w = File cfg → Auth cfg = Some a → complete a →
  url_ok net' (req_url (credentials_request a)) = true →
  trace (snd (auth.RefreshToken net' w)) = trace w ++ [TokenRequest (credentials_request a)].
Proof.
  intros D A C U. rewrite (RefreshToken_complete net' w cfg a D A C U).
  destruct (answer net' (trace w) (credentials_request a)) as [| |status text];
    try reflexivity.
  destruct (status =? 200); [|reflexivity].
  destruct (Json.Unmarshal digit_auth.token_schema text); [|reflexivity].
  destruct (save_error w); reflexivity.
Qed.

Lemma slice_to_long (s : string) (n : nat) :
  (n <= String.length s)%nat → slice_to s n = Some (substring 0 n s).
Proof. intros H. unfold slice_to. now rewrite (proj2 (Nat.leb_le _ _) H). Qed.

Lemma slice_to_short (s : string) (n : nat) :
  (String.length s < n)%nat → slice_to s n = None.
Proof. intros H. unfold slice_to. now rewrite (proj2 (Nat.leb_gt _ _) H). Qed.

(** X14. A successful [config set], with the six flags or with the current
    context of a file: when the token endpoint grants a token of fifty
    bytes or more, the command sends the one token request, stores the
    server, the token and the credentials it authenticated with, prints the
    first fifty bytes of the token and returns nil.  A later
    [RefreshToken] sends the same request again. *)
Theorem configSet_stores_credentials (f : SetFlags) (v : ContextDetail)
    (found : list string) (token : string) (w : world) :
  flags_accepted f → chosen_values files f = Some (v, found) → grants net w v token →
  (50 <= String.length token)%nat →
  configSet net files f w
  = (Returned None, logged_in w v token (set_lines found v ++ [token_line token]))
  ∧ ∀ net', url_ok net' (req_url (credentials_request (credentials_of v))) = true →
      trace (snd (auth.RefreshToken net'
                    (logged_in w v token (set_lines found v ++ [token_line token]))))
      = trace w ++ [TokenRequest (credentials_request (credentials_of v));
                    TokenRequest (credentials_request (credentials_of v))].
Proof.
  intros Hf Hc G L. split.
  - unfold configSet, print_token_head.
    rewrite (configSet_body_granted _ _ _ _ _ Hf Hc G), (slice_to_long _ _ L).
    unfold print, logged_in, token_line. cbn [snd disk save_error trace stdout].
    now rewrite <- app_assoc.
  - intros net' U.
    rewrite (RefreshToken_trace net'
               (logged_in w v token (set_lines found v ++ [token_line token]))
               (mkConfig (ctx_Server v) token (Some (credentials_of v)))
               (credentials_of v) eq_refl eq_refl (proj1 G) U).
    cbn [logged_in trace]. now rewrite <- app_assoc.
Qed.

(** X15. [config set] panics on a short token: when the token endpoint
    answers 200 with an access token of less than fifty bytes (an answer
    without an access token gives the empty one), the command stores the
    server, that token and the credentials, prints that the configuration
    was stored, and then panics on [jwtToken[:50]] instead of returning. *)
Theorem configSet_short_token_panics (f : SetFlags) (v : ContextDetail)
    (found : list string) (token : string) (w : world) :
  flags_accepted f → chosen_values files f = Some (v, found) → grants net w v token →
  (String.length token < 50)%nat →
  configSet net files f w
  = (Panicked "slice bounds out of range", logged_in w v token (set_lines found v)).
Proof.
  intros Hf Hc G L. unfold configSet, print_token_head.
  now rewrite (configSet_body_granted _ _ _ _ _ Hf Hc G), (slice_to_short _ _ L).
Qed.

(** X16. What makes [config set] fail before it authenticates: flags that
    are neither the file alone nor the six values alone, a file that does
    not exist, and a file whose current context is not set or is not among
    its contexts.  No request is sent and the stored configuration is not
    touched. *)
Theorem configSet_early_failures (f : SetFlags) (w : world) :
  (f_file f = "" → some_flag_empty f = true →
   configSet net files f w
   = (Returned (Some (Errorf "either --file flag or all of (--server, --account, --client-id, --client-secret, --username, --password) flags are required")),
      w))
  ∧ (f_file f ≠ "" → some_flag_given f = true →
     configSet net files f w
     = (Returned (Some (Errorf "cannot use --file flag together with individual flags (--server, --account, --client-id, --client-secret, --username, --password)")),
        w))
  ∧ (f_file f ≠ "" → some_flag_given f = false →
     (files (f_file f) = CtxMissing →
      configSet net files f w
      = (Returned (Some (Wrapf "failed to load config file"
                           (Errorf ("config file does not exist: " +:+ f_file f)))),
         printed w ("Loading configuration from: " +:+ f_file f +:+ nl)))
     ∧ (∀ cc, files (f_file f) = CtxFile cc →
        CurrentContext cc = "" ∨ CurrentContext cc ∉ ListContexts cc →
        ∃ e, configSet net files f w
             = (Returned (Some (Wrapf "failed to get current context" e)),
                printed w ("Loading configuration from: " +:+ f_file f +:+ nl)))).
Proof.
  unfold configSet, print_token_head. rewrite configSet_body_login.
  split; [|split].
  - intros -> ->. reflexivity.
  - intros N ->. rewrite (eqb_neq_false _ N). reflexivity.
  - intros N ->. rewrite (eqb_neq_false _ N). cbn [negb andb].
    unfold set_values, LoadContextConfig, mbind, M_bind, wrap, lift, print.
    rewrite (eqb_neq_false _ N). cbn [negb disk save_error trace stdout].
    split.
    + intros ->. reflexivity.
    + intros cc -> H. unfold GetCurrentContext.
      destruct (String.eqb_spec (CurrentContext cc) "") as [E|E]; [eexists; reflexivity|].
      destruct H as [H|H]; [contradiction|].
      apply find_context_none in H. rewrite H. eexists; reflexivity.
Qed.

Lemma configUseContext_body_login (contextName filePath : string) :
  configUseContext_body net files contextName filePath =
    if String.eqb filePath "" then fail (Errorf "--file flag is required")
    else
      _ ← print ("Loading configuration from: " +:+ filePath +:+ nl);
      contextConfig ← wrap "failed to load config file"
                        (lift (LoadContextConfig files filePath));
      ctx ← wrap ("failed to get context '" +:+ contextName +:+ "'")
              (lift (GetContext contextConfig contextName));
      _ ← print ("Switching to context: " +:+ contextName +:+ nl);
      _ ← print ("Server: " +:+ ctx_Server ctx +:+ nl);
      _ ← print ("Realm: " +:+ ctx_Realm ctx +:+ nl);
      _ ← print ("Username: " +:+ ctx_Username ctx +:+ nl);
      login net ctx ("Updating configuration..." +:+ nl)
        ("✓ Switched to context '" +:+ contextName +:+ "' successfully!" +:+ nl).
Proof. reflexivity. Qed.

(** X17. [config use-context] with a file that holds the contexts [cc]: a
    name that is not listed fails before anything is sent; a listed name
    authenticates with the credentials of the first context of that name
    and stores them with the token; as for [config set] the command returns
    nil for a token of fifty bytes or more and panics for a shorter one,
    after the configuration was stored. *)
Theorem configUseContext_spec (contextName filePath : string) (cc : ContextConfig)
    (w : world) :
  filePath ≠ "" → files filePath = CtxFile cc →
  (contextName ∉ ListContexts cc →
   configUseContext net files contextName filePath w
   = (Returned (Some (Wrapf ("failed to get context '" +:+ contextName +:+ "'")
                        (Errorf ("context '" +:+ contextName +:+ "' not found")))),
      printed w ("Loading configuration from: " +:+ filePath +:+ nl)))
  ∧ (∀ v token, GetContext cc contextName = Ok v → grants net w v token →
     configUseContext net files contextName filePath w
     = if (50 <=? String.length token)%nat
       then (Returned None,
             logged_in w v token (use_lines contextName filePath v ++ [token_line token]))
       else (Panicked "slice bounds out of range",
             logged_in w v token (use_lines contextName filePath v))).
Proof.
  intros N F. unfold configUseContext, print_token_head.
  rewrite configUseContext_body_login, (eqb_neq_false _ N), bind_print.
  assert (Ld : ∀ w1, wrap "failed to load config file"
                       (lift (LoadContextConfig files filePath)) w1 = (Ok cc, w1)).
  { intros w1. unfold wrap, lift, LoadContextConfig. now rewrite F. }
  rewrite (bind_ok _ _ _ _ _ (Ld _)). split.
  - intros H. unfold GetContext. apply find_context_none in H.
    erewrite bind_err; [reflexivity|]. unfold wrap, lift. now rewrite H.
  - intros v token Gc G.
    erewrite bind_ok; [|unfold wrap, lift; now rewrite Gc].
    rewrite !bind_print.
    match goal with |- context [login net v ?a ?b ?w1] =>
      rewrite (login_granted v a b token w1 G) end.
    unfold slice_to.
    destruct (50 <=? String.length token)%nat;
      unfold logged_in, use_lines, token_line, print, printed;
      cbn [snd disk save_error trace stdout];
      repeat rewrite <- app_assoc; reflexivity.
Qed.

Lemma substring_all (s : string) (n : nat) :
  (String.length s <= n)%nat → substring 0 n s = s.
Proof.
  revert n. induction s as [|c s IH]; intros n H; [now destruct n|].
  destruct n as [|n]; cbn [String.length] in H; [lia|].
  cbn [substring]. f_equal. apply IH. lia.
Qed.

Lemma substring_length (s : string) (n : nat) :
  (String.length (substring 0 n s) <= n)%nat.
Proof.
  revert n. induction s as [|c s IH]; intros n; [destruct n; cbn; lia|].
  destruct n as [|n]; cbn [substring String.length]; [lia|].
  specialize (IH n). lia.
Qed.

(** X18. [config show] never fails and shows at most the first fifty bytes
    of the token: it prints two lines and changes nothing else; the second
    line has the first fifty bytes of the stored token, followed by three
    dots when the token is longer; when the configuration cannot be read
    both lines say Not set. *)
Theorem configShow_never_fails (w : world) :
  ∃ l1 l2,
    configShow w = (Ok (), printed_all w [l1; l2])
    ∧ match stored_config w with
      | Some cfg =>
          l1 = "Server URL: " +:+ Server cfg +:+ nl
          ∧ l2 = "JWT Token: " +:+ substring 0 50 (JWTToken cfg)
                 +:+ (if (50 <? String.length (JWTToken cfg))%nat then "..." else "") +:+ nl
          ∧ (String.length (substring 0 50 (JWTToken cfg)) <= 50)%nat
      | None => l1 = "Server URL: Not set" +:+ nl ∧ l2 = "JWT Token: Not set" +:+ nl
      end.
Proof.
  unfold configShow. destruct (stored_config w) as [cfg|] eqn:L.
  - assert (G1 : GetServerURL w = (Ok (Server cfg), w)).
    { unfold GetServerURL. now rewrite (bind_ok _ _ _ _ _ (Load_stored _ _ L)). }
    assert (G2 : ∀ line, GetJWTToken (printed w line) = (Ok (JWTToken cfg), printed w line)).
    { intros line. unfold GetJWTToken.
      now rewrite (bind_ok _ _ _ _ _ (Load_stored (printed w line) cfg L)). }
    rewrite G1. cbv zeta. cbn [snd]. change (snd (print ?t w)) with (printed w t).
    rewrite G2.
    exists ("Server URL: " +:+ Server cfg +:+ nl).
    destruct (Nat.ltb_spec 50 (String.length (JWTToken cfg))) as [H|H]; eexists;
      (split; [|split; [reflexivity|split; [reflexivity|apply substring_length]]]).
    + unfold print, printed_all, printed. cbn [disk save_error trace stdout].
      now rewrite <- app_assoc.
    + rewrite (substring_all _ _ H).
      unfold print, printed_all, printed. cbn [disk save_error trace stdout].
      now rewrite <- app_assoc.
  - destruct (Load_failure w L) as (e & E).
    assert (G1 : GetServerURL w = (Err e, w)).
    { unfold GetServerURL. now rewrite (bind_err _ _ _ _ _ E). }
    rewrite G1. cbv zeta. cbn [snd]. change (snd (print ?t w)) with (printed w t).
    destruct (Load_failure (printed w ("Server URL: Not set" +:+ nl)) L) as (e' & E').
    unfold GetJWTToken. rewrite (bind_err _ _ _ _ _ E').
    do 2 eexists. split; [|split; reflexivity].
    unfold print, printed_all, printed. cbn [disk save_error trace stdout].
    now rewrite <- app_assoc.
Qed.

End ConfigCommands.

(** ** The create-workflow command *)

Section WorkflowCommand.
Import jwt config cmd cmd_workflow.
Variable net : network.
Variable ReadFile : string → option string.
Variable yaml_Unmarshal : string → option WorkflowDefinition.

Lemma server_and_token_cases (serverURL jwtToken : string) (w : world) :
  server_and_token serverURL jwtToken w =
    if String.eqb serverURL "" || String.eqb jwtToken "" then
      match Load w with
      | (Err e, _) => (Err (Wrapf "failed to load config" e), w)
      | (Ok cfg, _) =>
          if String.eqb (resolved serverURL (Server cfg)) "" then
            (Err (Errorf "server URL not configured. Use 'digit config set --server <url>' or provide --server flag"), w)
          else if String.eqb (resolved jwtToken (JWTToken cfg)) "" then
            (Err (Errorf "JWT token not configured. Use 'digit config set --jwt-token <token>' or provide --jwt-token flag"), w)
          else (Ok (resolved serverURL (Server cfg), resolved jwtToken (JWTToken cfg)), w)
      end
    else (Ok (serverURL, jwtToken), w).
Proof.
  unfold server_and_token, resolved.
  destruct (String.eqb serverURL "" || String.eqb jwtToken ""); [|reflexivity].
  unfold mbind, M_bind, wrap, Load.
  destruct (disk w); try reflexivity;
    destruct (String.eqb serverURL "") eqn:E1, (String.eqb jwtToken "") eqn:E2;
    cbn [mret M_ret fail]; rewrite ?E1, ?E2;
    repeat match goal with |- context [String.eqb ?s ""] => destruct (String.eqb s "") end;
    reflexivity.
Qed.

Lemma server_and_token_world (serverURL jwtToken : string) (w : world) :
  snd (server_and_token serverURL jwtToken w) = w.
Proof.
  rewrite server_and_token_cases.
  destruct (String.eqb serverURL "" || String.eqb jwtToken ""); [|reflexivity].
  unfold Load. destruct (disk w); cbn [snd]; try reflexivity;
    repeat match goal with |- context [String.eqb ?s ""] => destruct (String.eqb s "") end;
    reflexivity.
Qed.

(** X19. Where the commands of the workflow service take the server URL and
    the token from.  With both flags the configuration is not read at all,
    readable or not.  With a flag missing, the stored value stands in for
    it, a flag that is given wins over the stored value, and a value that is
    missing in both places is an error, the server first.  The stored token
    is used as it is, expired or not: nothing is refreshed, sent, written or
    printed. *)
Theorem server_and_token_spec (serverURL jwtToken : string) (w : world) :
  (serverURL ≠ "" → jwtToken ≠ "" →
   server_and_token serverURL jwtToken w = (Ok (serverURL, jwtToken), w))
  ∧ (∀ cfg, serverURL = "" ∨ jwtToken = "" → stored_config w = Some cfg →
     server_and_token serverURL jwtToken w
     = (if String.eqb (resolved serverURL (Server cfg)) "" then
          Err (Errorf "server URL not configured. Use 'digit config set --server <url>' or provide --server flag")
        else if String.eqb (resolved jwtToken (JWTToken cfg)) "" then
          Err (Errorf "JWT token not configured. Use 'digit config set --jwt-token <token>' or provide --jwt-token flag")
        else Ok (resolved serverURL (Server cfg), resolved jwtToken (JWTToken cfg)),
        w))
  ∧ (serverURL = "" ∨ jwtToken = "" → stored_config w = None →
     ∃ e, server_and_token serverURL jwtToken w = (Err (Wrapf "failed to load config" e), w))
  ∧ snd (server_and_token serverURL jwtToken w) = w.
Proof.
  split; [|split; [|split]].
  - intros N1 N2. rewrite server_and_token_cases.
    now rewrite (eqb_neq_false _ N1), (eqb_neq_false _ N2).
  - intros cfg H L. rewrite server_and_token_cases.
    replace (String.eqb serverURL "" || String.eqb jwtToken "") with true
      by (destruct H as [-> | ->]; [reflexivity|symmetry; apply orb_true_r]).
    rewrite (Load_stored _ _ L).
    now repeat match goal with |- context [String.eqb ?s ""] => destruct (String.eqb s "") end.
  - intros H L. rewrite server_and_token_cases.
    replace (String.eqb serverURL "" || String.eqb jwtToken "") with true
      by (destruct H as [-> | ->]; [reflexivity|symmetry; apply orb_true_r]).
    destruct (Load_failure w L) as (e & ->). eauto.
  - apply server_and_token_world.
Qed.

Lemma flags_valid_checks (f : WorkflowFlags) :
  flags_valid f →
  negb (wf_default f) && String.eqb (wf_file f) "" = false
  ∧ wf_default f && negb (String.eqb (wf_file f) "") = false
  ∧ wf_default f && String.eqb (wf_code f) "" = false.
Proof.
  unfold flags_valid. destruct (wf_default f); cbn [negb andb].
  - intros [-> N]. now rewrite (eqb_neq_false _ N).
  - intros N. now rewrite (eqb_neq_false _ N).
Qed.

Lemma createWorkflowCmd_cases (f : WorkflowFlags) (w : world) :
  flags_valid f →
  createWorkflowCmd net ReadFile yaml_Unmarshal f w =
    match server_and_token (wf_server f) (wf_jwt_token f) w with
    | (Err e, _) => (Err e, w)
    | (Ok (serverURL, jwtToken), _) =>
        match ExtractTenantID jwtToken with
        | Err e => (Err (Wrapf "failed to extract tenant ID from JWT token" e), w)
        | Ok tenantID =>
            match definition_text ReadFile f with
            | None => (Err (Wrapf "failed to read YAML file" (LibError "os")), w)
            | Some data =>
                match yaml_Unmarshal data with
                | None => (Err (Wrapf "failed to parse YAML" (LibError "yaml")),
                           printed_all w (default_notice f))
                | Some def =>
                    createWorkflow net serverURL jwtToken tenantID def
                      (printed_all w (default_notice f))
                end
            end
        end
    end.
Proof.
  intros V. destruct (flags_valid_checks f V) as (C1 & C2 & C3).
  unfold createWorkflowCmd. rewrite C1, C2, C3.
  unfold mbind at 1, M_bind at 1.
  pose proof (server_and_token_world (wf_server f) (wf_jwt_token f) w) as W.
  destruct (server_and_token (wf_server f) (wf_jwt_token f) w) as [[[serverURL jwtToken]|e] w1];
    cbn [snd] in W; subst w1; [|reflexivity].
  unfold mbind at 1, M_bind at 1, wrap, lift.
  destruct (ExtractTenantID jwtToken) as [tenantID|e]; [|reflexivity].
  unfold definition_text, default_notice, mbind, M_bind.
  destruct (wf_default f).
  - cbn [print mret M_ret]. unfold printed_all.
    now destruct (yaml_Unmarshal _).
  - assert (P : printed_all w [] = w).
    { destruct w. unfold printed_all. cbn. now rewrite app_nil_r. }
    rewrite P. destruct (ReadFile (wf_file f)) as [data|]; [|reflexivity].
    cbn [mret M_ret]. now destruct (yaml_Unmarshal data).
Qed.

(** X20. What makes [create-workflow] fail before it sends anything: flags
    that name neither a file nor the default definition, or both, or the
    default definition without a code; and, with flags it accepts, a server
    URL or a token that cannot be resolved, a token without a tenant (this
    is checked before the file is read), a file that cannot be read and a
    text that is no definition.  No request is sent and the configuration
    is not touched. *)
Theorem createWorkflowCmd_early_failures (f : WorkflowFlags) (w : world) :
  (wf_default f = false → wf_file f = "" →
   createWorkflowCmd net ReadFile yaml_Unmarshal f w
   = (Err (Errorf "either --file or --default flag is required"), w))
  ∧ (wf_default f = true → wf_file f ≠ "" →
     createWorkflowCmd net ReadFile yaml_Unmarshal f w
     = (Err (Errorf "cannot use both --file and --default flags together"), w))
  ∧ (wf_default f = true → wf_file f = "" → wf_code f = "" →
     createWorkflowCmd net ReadFile yaml_Unmarshal f w
     = (Err (Errorf "--code flag is required when using --default"), w))
  ∧ (flags_valid f →
     (∀ e, fst (server_and_token (wf_server f) (wf_jwt_token f) w) = Err e →
        createWorkflowCmd net ReadFile yaml_Unmarshal f w = (Err e, w))
     ∧ (∀ serverURL jwtToken,
        fst (server_and_token (wf_server f) (wf_jwt_token f) w) = Ok (serverURL, jwtToken) →
        (∀ e, ExtractTenantID jwtToken = Err e →
           createWorkflowCmd net ReadFile yaml_Unmarshal f w
           = (Err (Wrapf "failed to extract tenant ID from JWT token" e), w))
        ∧ (∀ tenantID, ExtractTenantID jwtToken = Ok tenantID →
           (definition_text ReadFile f = None →
            createWorkflowCmd net ReadFile yaml_Unmarshal f w
            = (Err (Wrapf "failed to read YAML file" (LibError "os")), w))
           ∧ (∀ data, definition_text ReadFile f = Some data →
              yaml_Unmarshal data = None →
              createWorkflowCmd net ReadFile yaml_Unmarshal f w
              = (Err (Wrapf "failed to parse YAML" (LibError "yaml")),
                 printed_all w (default_notice f)))))).
Proof.
  split; [|split; [|split]].
  - intros D F. unfold createWorkflowCmd. now rewrite D, F.
  - intros D F. unfold createWorkflowCmd. now rewrite D, (eqb_neq_false _ F).
  - intros D F C. unfold createWorkflowCmd. now rewrite D, F, C.
  - intros V. rewrite (createWorkflowCmd_cases f w V).
    destruct (server_and_token (wf_server f) (wf_jwt_token f) w) as [[[s t]|e] w1];
      cbn [fst]; (split; [intros e' [= <-]|intros serverURL jwtToken [= <- <-]]);
      try reflexivity.
    split; [now intros e ->|]. intros tenantID ->.
    split; [now intros ->|]. now intros data -> ->.
Qed.

(** X21. The requests of a [create-workflow] run, whatever the flags and the
    world: either the command sends nothing, or its flags are accepted, the
    text of its definition parses to a definition [def], and the calls it
    sends are the calls for [def] in order (the process, then the states,
    then the actions) or a beginning of them; they are all of them when the
    command returns nil, and then there is at least the call for the
    process. *)
Theorem createWorkflowCmd_calls (f : WorkflowFlags) (w : world) :
  ∃ issued,
    trace (snd (createWorkflowCmd net ReadFile yaml_Unmarshal f w)) = trace w ++ issued
    ∧ (issued = []
       ∨ ∃ data def, flags_valid f ∧ definition_text ReadFile f = Some data
           ∧ yaml_Unmarshal data = Some def
           ∧ map label_of issued `prefix_of` expected_calls def)
    ∧ (is_ok (fst (createWorkflowCmd net ReadFile yaml_Unmarshal f w)) = true →
       ∃ data def, flags_valid f ∧ definition_text ReadFile f = Some data
         ∧ yaml_Unmarshal data = Some def
         ∧ map label_of issued = expected_calls def).
Proof.
  assert (Nothing : ∀ e w', trace w' = trace w →
            createWorkflowCmd net ReadFile yaml_Unmarshal f w = (Err e, w') →
            ∃ issued,
              trace (snd (createWorkflowCmd net ReadFile yaml_Unmarshal f w))
                = trace w ++ issued
              ∧ (issued = []
                 ∨ ∃ data def, flags_valid f ∧ definition_text ReadFile f = Some data
                     ∧ yaml_Unmarshal data = Some def
                     ∧ map label_of issued `prefix_of` expected_calls def)
              ∧ (is_ok (fst (createWorkflowCmd net ReadFile yaml_Unmarshal f w)) = true →
                 ∃ data def, flags_valid f ∧ definition_text ReadFile f = Some data
                   ∧ yaml_Unmarshal data = Some def
                   ∧ map label_of issued = expected_calls def)).
  { intros e w' T E. exists []. rewrite E. cbn [fst snd is_ok].
    rewrite app_nil_r. split; [assumption|]. split; [now left|discriminate]. }
  assert (Dec : flags_valid f ∨ ¬ flags_valid f).
  { unfold flags_valid.
    destruct (wf_default f), (decide (wf_file f = "")), (decide (wf_code f = "")); tauto. }
  destruct Dec as [V|V].
  - pose proof (createWorkflowCmd_cases f w V) as C.
    destruct (server_and_token (wf_server f) (wf_jwt_token f) w) as [[[s t]|e] w1];
      [|now apply (Nothing _ w eq_refl C)].
    destruct (ExtractTenantID t) as [tenantID|e]; [|now apply (Nothing _ w eq_refl C)].
    assert (∃ o, definition_text ReadFile f = o) as [[data|] Dt] by eauto;
      rewrite Dt in C; [|now apply (Nothing _ w eq_refl C)].
    destruct (yaml_Unmarshal data) as [def|] eqn:Y;
      [|now apply (Nothing _ (printed_all w (default_notice f)) eq_refl C)].
    rewrite C.
    destruct (createWorkflow_orderly net s t tenantID def (printed_all w (default_notice f)))
      as (issued & T & O).
    exists issued. split; [exact T|]. unfold orderly in O.
    destruct (is_ok (fst (createWorkflow net s t tenantID def
                           (printed_all w (default_notice f))))).
    + destruct O as [O _]. split; [right|intros _]; exists data, def; repeat split;
        try assumption. now rewrite O.
    + destruct O as [O _]. split; [|discriminate].
      right. exists data, def. repeat split; assumption.
  - unfold flags_valid in V. unfold createWorkflowCmd in *.
    destruct (wf_default f); cbn [negb andb] in *.
    + destruct (String.eqb_spec (wf_file f) "") as [F|F]; cbn [negb] in *;
        [|eapply (Nothing _ w eq_refl); reflexivity].
      destruct (String.eqb_spec (wf_code f) "") as [Cd|Cd];
        [eapply (Nothing _ w eq_refl); reflexivity|].
      exfalso. now apply V.
    + destruct (String.eqb_spec (wf_file f) "") as [F|F];
        [eapply (Nothing _ w eq_refl); reflexivity|].
      exfalso. now apply V.
Qed.

End WorkflowCommand.

(** ** Instances of the further properties *)

Section FurtherInstances.
Import GoStrings jwt auth config config_globals context digit_workflow digit_process api
  cmd_config.

(** A payload with a plus sign is no base64url. *)
Lemma DecodeJWT_rejects_plus :
  DecodeJWT "e30.a+b_.sig" = Err (Wrapf "failed to decode JWT payload" (LibError "base64")).
Proof.
  destruct (DecodeJWT_rejects_foreign_byte "e30.a+b_.sig" "e30" "a+b_" "sig") as [E _].
  - repeat split.
  - apply Exists_cons_tl, Exists_cons_hd. repeat split. discriminate.
  - exact E.
Defined.

(** The empty claim set, with and without the padding of its payload. *)
Lemma DecodeJWT_padded_e30 :
  DecodeJWT ("h" +:+ "." +:+ add_padding "e30" +:+ "." +:+ "s")
  = DecodeJWT ("h" +:+ "." +:+ "e30" +:+ "." +:+ "s")
  ∧ add_padding "e30" = "e30=".
Proof.
  split; [|reflexivity].
  exact (DecodeJWT_padded_payload "h" "e30" "s" eq_refl eq_refl eq_refl).
Defined.

(** [token_acme], expired 29 seconds before its expiry, is expired in
    2065. *)
Lemma IsTokenExpired_later :
  fst (IsTokenExpired (Unix 3000000000) token_acme) = true.
Proof.
  destruct (IsTokenExpired_monotone (Unix 1999999971) (Unix 3000000000) token_acme)
    as [H _].
  - discriminate.
  - apply H. vm_compute. reflexivity.
Defined.

(** The subject and the realm of a token issued for the realm ACME. *)
Lemma ids_of_acme_token :
  ExtractClientID
    (issued_token "e30"
       (mkClaims "u-1" "https://host/keycloak/realms/ACME" "" "" "" "" "" 2000000000 0) "sig")
  = Ok "u-1"
  ∧ ExtractTenantID
      (issued_token "e30"
         (mkClaims "u-1" "https://host/keycloak/realms/ACME" "" "" "" "" "" 2000000000 0)
         "sig")
    = Ok "ACME".
Proof.
  destruct (ids_of_issued_token
              (mkClaims "u-1" "https://host/keycloak/realms/ACME" "" "" "" "" "" 2000000000 0)
              "e30" "sig") as (S & _ & T).
  - unfold ascii_claims, ascii_string, int64. cbn.
    repeat split; repeat constructor; discriminate.
  - reflexivity.
  - reflexivity.
  - split; [apply S; discriminate|].
    apply (T "https://host/keycloak" "ACME"); [reflexivity|reflexivity|discriminate].
Defined.

(** The first [SetServerURL] on a machine without a configuration file
    creates the file with the server alone. *)
Lemma config_first_server :
  SetServerURL "https://srv" fresh_world
  = (Ok (), saved fresh_world (mkConfig "https://srv" "" None))
  ∧ GetRealm (saved fresh_world (mkConfig "https://srv" "" None))
    = (Ok "", saved fresh_world (mkConfig "https://srv" "" None)).
Proof.
  destruct (config_set_then_get fresh_world empty_config eq_refl eq_refl) as (S & _ & _).
  destruct (S "https://srv") as (E & _). split; [exact E|reflexivity].
Defined.

(** A configuration file that is no YAML is left as it is. *)
Lemma config_bad_yaml_kept :
  snd (SetJWTToken "T" (mkWorld BadYaml None [] [])) = mkWorld BadYaml None [] []
  ∧ is_ok (fst (SetJWTToken "T" (mkWorld BadYaml None [] []))) = false.
Proof.
  destruct (config_unreadable_file_kept (mkWorld BadYaml None [] []) eq_refl)
    as (e & _ & H & _).
  rewrite (H "T"). split; reflexivity.
Defined.

(** The status 202 is a success of the search and a failure of the
    deletion. *)
Lemma status_202 :
  fst (SearchProcessDefinition net_202 ProcessCall "http://srv" "jwt" "ACME" "p1" fresh_world)
  = Ok "{}"
  ∧ fst (DeleteProcess net_202 ProcessCall "http://srv" "jwt" "ACME" "p1" fresh_world)
    = Err (StatusError 202 "{}").
Proof.
  destruct (process_calls_status net_202 ProcessCall "http://srv" "jwt" "ACME" "p1"
              fresh_world 202 "{}") as (S & D); try discriminate; try reflexivity.
  rewrite (S eq_refl), (D eq_refl). split; reflexivity.
Defined.

(** The server URL with and without its last slash. *)
Lemma trailing_slash_srv :
  SearchProcessDefinition net_202 ProcessCall ("http://srv" +:+ "/") "jwt" "ACME" "p1"
    fresh_world
  = SearchProcessDefinition net_202 ProcessCall "http://srv" "jwt" "ACME" "p1" fresh_world.
Proof.
  destruct (trailing_slash_ignored net_202 ProcessCall "http://srv" "jwt" "ACME" fresh_world)
    as (_ & _ & _ & S & _).
  - discriminate.
  - intros pre H. pose proof (f_equal TrimSuffixSlash H) as H'.
    rewrite TrimSuffixSlash_append in H'. subst pre. discriminate H.
  - apply S.
Defined.


(** [config set] with the six flags on a machine without a configuration
    file, against an endpoint that grants [token_acme]. *)
Lemma configSet_sample :
  fst (configSet net_acme (λ _, CtxMissing) sample_flags fresh_world) = Returned None
  ∧ disk (snd (configSet net_acme (λ _, CtxMissing) sample_flags fresh_world))
    = File (mkConfig "https://srv" token_acme (Some sample_credentials)).
Proof.
  destruct (configSet_stores_credentials net_acme (λ _, CtxMissing) sample_flags
              (flag_values sample_flags)
              ["Using configuration from command-line flags" +:+ nl] token_acme fresh_world)
    as (E & _).
  - left. split; reflexivity.
  - reflexivity.
  - split; [repeat split; discriminate|]. split; [reflexivity|].
    split; [|split; [eexists; reflexivity|reflexivity]].
    exists (json_member "access_token" token_acme),
      (<["access_token" := Json.FStr token_acme]> ∅).
    split; [reflexivity|]. split; vm_compute; reflexivity.
  - apply Nat.leb_le. reflexivity.
  - rewrite E. split; reflexivity.
Defined.

(** The same command against an endpoint that grants the token T2: the
    configuration is stored and the command panics. *)
Lemma configSet_T2_panics :
  fst (configSet net_T2 (λ _, CtxMissing) sample_flags fresh_world)
  = Panicked "slice bounds out of range"
  ∧ disk (snd (configSet net_T2 (λ _, CtxMissing) sample_flags fresh_world))
    = File (mkConfig "https://srv" "T2" (Some sample_credentials)).
Proof.
  rewrite (configSet_short_token_panics net_T2 (λ _, CtxMissing) sample_flags
             (flag_values sample_flags)
             ["Using configuration from command-line flags" +:+ nl] "T2" fresh_world).
  - split; reflexivity.
  - left. split; reflexivity.
  - reflexivity.
  - split; [repeat split; discriminate|]. split; [reflexivity|].
    split; [|split; [eexists; reflexivity|reflexivity]].
    exists (json_member "access_token" "T2"), (<["access_token" := Json.FStr "T2"]> ∅).
    split; [reflexivity|]. split; vm_compute; reflexivity.
  - apply Nat.ltb_lt. reflexivity.
Defined.

(** [config use-context dev] with a file that has the context, against the
    endpoint that grants [token_acme]. *)
Lemma configUseContext_dev :
  fst (configUseContext net_acme (λ _, CtxFile sample_contexts) "dev" "ctx.yaml" fresh_world)
  = Returned None
  ∧ disk (snd (configUseContext net_acme (λ _, CtxFile sample_contexts) "dev" "ctx.yaml"
                 fresh_world))
    = File (mkConfig "https://srv" token_acme (Some sample_credentials)).
Proof.
  destruct (configUseContext_spec net_acme (λ _, CtxFile sample_contexts) "dev" "ctx.yaml"
              sample_contexts fresh_world) as (_ & E).
  - discriminate.
  - reflexivity.
  - rewrite (E (mkContextDetail "https://srv" "ACME" "cli" "secret" "user" "pw") token_acme).
    + split; reflexivity.
    + reflexivity.
    + split; [repeat split; discriminate|]. split; [reflexivity|].
      split; [|split; [eexists; reflexivity|reflexivity]].
      exists (json_member "access_token" token_acme),
        (<["access_token" := Json.FStr token_acme]> ∅).
      split; [reflexivity|]. split; vm_compute; reflexivity.
Defined.

End FurtherInstances.

(** ** The bodies of the creation calls *)

Section RequestBodies.
Import Json digit_workflow.

Lemma skip_space_spaces (ws s : list ascii) :
  Forall (λ c, is_space c = true) ws → skip_space (ws ++ s) = skip_space s.
Proof.
  induction 1 as [|c ws Hc _ IH]; [reflexivity|]. cbn [app skip_space]. now rewrite Hc.
Qed.

Lemma skip_space_stop (c : ascii) (s : list ascii) :
  is_space c = false → skip_space (c :: s) = c :: s.
Proof. intros H. cbn [skip_space]. now rewrite H. Qed.

Lemma verbatim_byte_facts (c : ascii) :
  verbatim_byte c →
  Ascii.eqb c "034" = false ∧ Ascii.eqb c "\" = false ∧ (code c <? 32) = false
  ∧ (code c <? 128) = true.
Proof.
  intros (R & Q & B). repeat split.
  - now apply Ascii.eqb_neq.
  - now apply Ascii.eqb_neq.
  - apply Z.ltb_ge. lia.
  - apply Z.ltb_lt. lia.
Qed.

Lemma parse_string_verbatim (l rest : list ascii) :
  Forall verbatim_byte l → parse_string (l ++ "034"%char :: rest) = Some (l, rest).
Proof.
  induction 1 as [|c l Hc _ IH]; [reflexivity|].
  destruct (verbatim_byte_facts c Hc) as (Q & B & C & A).
  cbn [app parse_string]. rewrite Q, B, C. unfold utf8_size. rewrite A. now rewrite IH.
Qed.

Lemma parse_value_quoted (f : nat) (depth : Z) (ws : list ascii) (s : string)
    (rest : list ascii) :
  Forall (λ c, is_space c = true) ws → verbatim s →
  parse_value (S f) depth (ws ++ "034"%char :: list_ascii_of_string s ++ "034"%char :: rest)
  = Some (VStr (list_ascii_of_string s), rest).
Proof.
  intros W V. cbn [parse_value]. rewrite (skip_space_spaces _ _ W), skip_space_stop by reflexivity.
  change (Ascii.eqb "034" "034") with true. cbv iota.
  now rewrite (parse_string_verbatim _ _ V).
Qed.

Lemma strip_prefix_app (p : string) (rest : list ascii) :
  strip_prefix p (list_ascii_of_string p ++ rest) = Some rest.
Proof.
  unfold strip_prefix. rewrite take_app_length, drop_app_length.
  now rewrite decide_True.
Qed.

Lemma parse_value_bool (f : nat) (depth : Z) (ws : list ascii) (b : bool)
    (rest : list ascii) :
  Forall (λ c, is_space c = true) ws →
  parse_value (S f) depth (ws ++ list_ascii_of_string (fmt_bool b) ++ rest)
  = Some (VBool b, rest).
Proof.
  intros W. cbn [parse_value]. rewrite (skip_space_spaces _ _ W).
  destruct b; cbn [fmt_bool list_ascii_of_string app];
    rewrite skip_space_stop by reflexivity.
  - change (Ascii.eqb "t" "034") with false. change (Ascii.eqb "t" "{") with false.
    change (Ascii.eqb "t" "[") with false. change (Ascii.eqb "t" "t") with true.
    cbv iota. change ("r" :: "u" :: "e" :: rest)%char with (list_ascii_of_string "rue" ++ rest).
    now rewrite strip_prefix_app.
  - change (Ascii.eqb "f" "034") with false. change (Ascii.eqb "f" "{") with false.
    change (Ascii.eqb "f" "[") with false. change (Ascii.eqb "f" "t") with false.
    change (Ascii.eqb "f" "f") with true. cbv iota.
    change ("a" :: "l" :: "s" :: "e" :: rest)%char
      with (list_ascii_of_string "alse" ++ rest).
    now rewrite strip_prefix_app.
Qed.

Lemma parse_number_before (sign d : list ascii) (c : ascii) (r : list ascii) :
  decimal d → number_end c → sign = [] ∨ sign = ["-"%char] →
  parse_number (sign ++ d ++ c :: r) = Some (sign ++ d, c :: r).
Proof.
  intros (F & d0 & dt & -> & Lead) (Hdig & Hdot & He & HE) Hsign.
  assert (Hd0 : is_digit d0 = true) by now inversion F.
  destruct (digit_facts d0 Hd0) as (Hm & _ & _ & _ & _ & _ & _ & _ & Hz).
  apply Ascii.eqb_neq in Hdot, He, HE.
  assert (Z0 : Ascii.eqb d0 "0" && negb (length dt =? 0)%nat = false).
  { destruct Lead as [Hne | ->]; [|apply andb_false_r].
    destruct (Ascii.eqb d0 "0"); [exfalso; apply Hne, Hz; reflexivity|reflexivity]. }
  destruct Hsign as [-> | ->]; unfold parse_number; cbn [app].
  - rewrite Hm. change (d0 :: dt ++ c :: r) with ((d0 :: dt) ++ c :: r).
    rewrite (span_digits_app _ _ _ F Hdig), Z0, Hdot, He, HE. cbn [orb app].
    now rewrite app_nil_r.
  - change (Ascii.eqb "-" "-") with true. cbv iota.
    change (d0 :: dt ++ c :: r) with ((d0 :: dt) ++ c :: r).
    rewrite (span_digits_app _ _ _ F Hdig), Z0, Hdot, He, HE. cbn [orb app].
    now rewrite app_nil_r.
Qed.

Lemma one_space : Forall (λ c, is_space c = true) [" "%char].
Proof. now constructor. Qed.

Lemma parse_value_int (z : Z) :
  int64 z →
  ∃ lit, parse_int64 lit = Some z
    ∧ ∀ (f : nat) (depth : Z) (c : ascii) (rest : list ascii),
        number_end c →
        parse_value (S f) depth (" "%char :: list_ascii_of_string (fmt_int z) ++ c :: rest)
        = Some (VNum lit, c :: rest).
Proof.
  intros Hz. destruct (fmt_int_literal z Hz) as (sign & d & E & D & Hs & P).
  exists (sign ++ d). split; [exact P|]. intros f depth c rest N.
  change (" "%char :: list_ascii_of_string (fmt_int z) ++ c :: rest)
    with ([" "%char] ++ list_ascii_of_string (fmt_int z) ++ c :: rest).
  pose proof one_space as W. revert W. generalize [" "%char]. intros ws W.
  rewrite E, <- app_assoc.
  pose proof (parse_number_before sign d c rest D N Hs) as PN.
  destruct D as (F & d0 & dt & -> & Lead).
  assert (Hd0 : is_digit d0 = true) by now inversion F.
  destruct (digit_facts d0 Hd0) as (Hm & Hsp & Hq & Hb & Hk & Ht & Hf & Hn & _).
  cbn [parse_value]. rewrite (skip_space_spaces _ _ W).
  destruct Hs as [-> | ->]; cbn [app] in *.
  - rewrite (skip_space_stop _ _ Hsp), Hq, Hb, Hk, Ht, Hf, Hn. now rewrite PN.
  - rewrite skip_space_stop by reflexivity.
    change (Ascii.eqb "-" "034") with false. change (Ascii.eqb "-" "{") with false.
    change (Ascii.eqb "-" "[") with false. change (Ascii.eqb "-" "t") with false.
    change (Ascii.eqb "-" "f") with false. change (Ascii.eqb "-" "n") with false.
    cbv iota. now rewrite PN.
Qed.

(** One member of an object: the key, the colon, the value, and the comma
    or the brace that follows it. *)
Lemma parse_members_step (f : nat) (depth : Z) (ws : list ascii) (key : string)
    (r1 r2 r3 : list ascii) (v : value) (d : ascii) :
  Forall (λ c, is_space c = true) ws → verbatim key →
  parse_value f depth r1 = Some (v, r2) → skip_space r2 = d :: r3 →
  parse_members (S f) depth
    (ws ++ "034"%char :: list_ascii_of_string key ++ "034"%char :: ":"%char :: r1)
  = if Ascii.eqb d ","
    then match parse_members f depth r3 with
         | Some (ms, r4) => Some ((list_ascii_of_string key, v) :: ms, r4)
         | None => None
         end
    else if Ascii.eqb d "}" then Some ([(list_ascii_of_string key, v)], r3) else None.
Proof.
  intros W K V S. cbn [parse_members].
  rewrite (skip_space_spaces _ _ W), skip_space_stop by reflexivity.
  change (Ascii.eqb "034" "034") with true. cbv iota.
  rewrite (parse_string_verbatim _ _ K), skip_space_stop by reflexivity.
  change (Ascii.eqb ":" ":") with true. cbv iota. now rewrite V, S.
Qed.

Lemma spaces (n : nat) : Forall (λ c, is_space c = true) ("010"%char :: repeat " "%char n).
Proof. constructor; [reflexivity|]. induction n; now constructor. Qed.

(** A line that a comma follows, and the last line of an object. *)
Lemma parse_line_more (f : nat) (depth : Z) (indent : nat) (key : string)
    (body rest : list ascii) (v : value) :
  verbatim key →
  parse_value (S f) depth (" "%char :: body) = Some (v, ","%char :: rest) →
  parse_members (S (S f)) depth (line indent key body)
  = match parse_members (S f) depth rest with
    | Some (ms, r) => Some ((list_ascii_of_string key, v) :: ms, r)
    | None => None
    end.
Proof.
  intros K V. unfold line.
  now rewrite (parse_members_step (S f) depth _ key _ _ rest v ","%char (spaces indent) K V
                 eq_refl).
Qed.

Lemma parse_line_last (f : nat) (depth : Z) (indent close : nat) (key : string)
    (body rest : list ascii) (v : value) :
  verbatim key →
  parse_value (S f) depth (" "%char :: body) = Some (v, closing close rest) →
  parse_members (S (S f)) depth (line indent key body)
  = Some ([(list_ascii_of_string key, v)], rest).
Proof.
  intros K V. unfold line.
  rewrite (parse_members_step (S f) depth _ key _ _ rest v "}"%char (spaces indent) K V);
    [reflexivity|].
  unfold closing. change ("010"%char :: repeat " "%char close ++ "}"%char :: rest)
    with (("010"%char :: repeat " "%char close) ++ "}"%char :: rest).
  now rewrite (skip_space_spaces _ _ (spaces close)).
Qed.

Lemma parse_string_value (f : nat) (depth : Z) (s : string) (rest : list ascii) :
  verbatim s →
  parse_value (S f) depth (" "%char :: quoted_text s ++ rest)
  = Some (VStr (list_ascii_of_string s), rest).
Proof.
  intros V. unfold quoted_text. cbn [app]. rewrite <- app_assoc. cbn [app].
  apply (parse_value_quoted f depth [" "%char] s rest); [|exact V].
  now constructor.
Qed.

Lemma parse_bool_value (f : nat) (depth : Z) (b : bool) (rest : list ascii) :
  parse_value (S f) depth (" "%char :: list_ascii_of_string (fmt_bool b) ++ rest)
  = Some (VBool b, rest).
Proof. apply (parse_value_bool f depth [" "%char] b rest). now constructor. Qed.

Lemma number_end_closing : number_end "010".
Proof. repeat split; discriminate. Qed.

(** An object as a value: the brace and the lines of its members. *)
Lemma parse_object (f : nat) (depth : Z) (ws : list ascii) (indent : nat) (key : string)
    (rest : list ascii) :
  Forall (λ c, is_space c = true) ws → depth < maxNestingDepth →
  parse_value (S f) depth (ws ++ "{"%char :: line indent key rest)
  = match parse_members f (depth + 1) (line indent key rest) with
    | Some (ms, r) => Some (VObj ms, r)
    | None => None
    end.
Proof.
  intros W D. cbn [parse_value]. rewrite (skip_space_spaces _ _ W).
  rewrite skip_space_stop by reflexivity.
  change (Ascii.eqb "{" "034") with false. change (Ascii.eqb "{" "{") with true. cbv iota.
  unfold line at 1. rewrite (skip_space_spaces _ _ (spaces indent)).
  rewrite skip_space_stop by reflexivity.
  replace (maxNestingDepth <=? depth) with false by (symmetry; apply Z.leb_gt; exact D).
  change (Ascii.eqb "034" "}") with false. cbv iota. reflexivity.
Qed.

Lemma parse_object_top (f : nat) (indent : nat) (key : string) (rest : list ascii) :
  parse_value (S f) 0 ("{"%char :: line indent key rest)
  = match parse_members f 1 (line indent key rest) with
    | Some (ms, r) => Some (VObj ms, r)
    | None => None
    end.
Proof. exact (parse_object f 0 [] indent key rest (Forall_nil_2 _) eq_refl). Qed.

Lemma parse_object_value (f : nat) (depth : Z) (indent : nat) (key : string)
    (rest : list ascii) :
  depth < maxNestingDepth →
  parse_value (S f) depth (" "%char :: "{"%char :: line indent key rest)
  = match parse_members f (depth + 1) (line indent key rest) with
    | Some (ms, r) => Some (VObj ms, r)
    | None => None
    end.
Proof. apply (parse_object f depth [" "%char] indent key rest). now constructor. Qed.

Lemma verbatim_keys :
  verbatim "name" ∧ verbatim "code" ∧ verbatim "description" ∧ verbatim "version"
  ∧ verbatim "sla" ∧ verbatim "isInitial" ∧ verbatim "isParallel" ∧ verbatim "isJoin"
  ∧ verbatim "nextState" ∧ verbatim "attributeValidation" ∧ verbatim "attributes"
  ∧ verbatim "roles" ∧ verbatim "assigneeCheck".
Proof.
  unfold verbatim, verbatim_byte. cbn [list_ascii_of_string].
  repeat split; repeat constructor; (discriminate || (intros H; discriminate H)).
Qed.

Lemma process_body_text (name code description version : string) (sla : Z) :
  list_ascii_of_string (process_body name code description version sla)
  = "{"%char
    :: line 2 "name" (quoted_text name ++ ","%char
    :: line 2 "code" (quoted_text code ++ ","%char
    :: line 2 "description" (quoted_text description ++ ","%char
    :: line 2 "version" (quoted_text version ++ ","%char
    :: line 2 "sla" (list_ascii_of_string (fmt_int sla) ++ closing 0 []))))).
Proof.
  unfold process_body, concat_lines, quoted, dq, nl, line, closing, quoted_text.
  rewrite ?list_ascii_of_string_append.
  cbn [list_ascii_of_string app repeat]. rewrite <- ?app_assoc. cbn [app]. reflexivity.
Qed.

Lemma parse_process_body (name code description version : string) (sla : Z) :
  verbatim name → verbatim code → verbatim description → verbatim version → int64 sla →
  ∃ lit, parse_int64 lit = Some sla
    ∧ parse (process_body name code description version sla)
      = Some (process_object name code description version lit).
Proof.
  intros Vn Vc Vd Vv Hs.
  destruct verbatim_keys as (Kn & Kc & Kd & Kv & Ks & _).
  destruct (parse_value_int sla Hs) as (lit & P & N). exists lit. split; [exact P|].
  assert (Nc : ∀ f depth close rest,
            parse_value (S f) depth
              (" "%char :: list_ascii_of_string (fmt_int sla) ++ closing close rest)
            = Some (VNum lit, closing close rest))
    by (intros; apply N, number_end_closing).
  unfold parse. rewrite process_body_text.
  match goal with |- context [S (length ?t)] =>
    assert (∃ m, length t = (6 + m)%nat) as [m ->]
      by (eexists; unfold line, closing; cbn [length app repeat list_ascii_of_string];
          reflexivity)
  end.
  cbn [Nat.add]. rewrite parse_object_top.
  rewrite (parse_line_more _ _ _ _ _ _ _ Kn (parse_string_value _ _ _ _ Vn)).
  rewrite (parse_line_more _ _ _ _ _ _ _ Kc (parse_string_value _ _ _ _ Vc)).
  rewrite (parse_line_more _ _ _ _ _ _ _ Kd (parse_string_value _ _ _ _ Vd)).
  rewrite (parse_line_more _ _ _ _ _ _ _ Kv (parse_string_value _ _ _ _ Vv)).
  rewrite (parse_line_last _ _ _ _ _ _ _ _ Ks (Nc _ _ _ _)).
  reflexivity.
Qed.

Lemma state_body_text (code name : string) (isInitial isParallel isJoin : bool) (sla : Z) :
  list_ascii_of_string (state_body code name isInitial isParallel isJoin sla)
  = "{"%char
    :: line 2 "code" (quoted_text code ++ ","%char
    :: line 2 "name" (quoted_text name ++ ","%char
    :: line 2 "isInitial" (list_ascii_of_string (fmt_bool isInitial) ++ ","%char
    :: line 2 "isParallel" (list_ascii_of_string (fmt_bool isParallel) ++ ","%char
    :: line 2 "isJoin" (list_ascii_of_string (fmt_bool isJoin) ++ ","%char
    :: line 2 "sla" (list_ascii_of_string (fmt_int sla) ++ closing 0 [])))))).
Proof.
  unfold state_body, concat_lines, quoted, dq, nl, line, closing, quoted_text.
  rewrite ?list_ascii_of_string_append.
  cbn [list_ascii_of_string app repeat]. rewrite <- ?app_assoc. cbn [app]. reflexivity.
Qed.

Lemma parse_state_body (code name : string) (isInitial isParallel isJoin : bool) (sla : Z) :
  verbatim code → verbatim name → int64 sla →
  ∃ lit, parse_int64 lit = Some sla
    ∧ parse (state_body code name isInitial isParallel isJoin sla)
      = Some (state_object code name isInitial isParallel isJoin lit).
Proof.
  intros Vc Vn Hs.
  destruct verbatim_keys as (Kn & Kc & _ & _ & Ks & Ki & Kp & Kj & _).
  destruct (parse_value_int sla Hs) as (lit & P & N). exists lit. split; [exact P|].
  assert (Nc : ∀ f depth close rest,
            parse_value (S f) depth
              (" "%char :: list_ascii_of_string (fmt_int sla) ++ closing close rest)
            = Some (VNum lit, closing close rest))
    by (intros; apply N, number_end_closing).
  unfold parse. rewrite state_body_text.
  match goal with |- context [S (length ?t)] =>
    assert (∃ m, length t = (7 + m)%nat) as [m ->]
      by (eexists; unfold line, closing; cbn [length app repeat list_ascii_of_string];
          reflexivity)
  end.
  cbn [Nat.add]. rewrite parse_object_top.
  rewrite (parse_line_more _ _ _ _ _ _ _ Kc (parse_string_value _ _ _ _ Vc)).
  rewrite (parse_line_more _ _ _ _ _ _ _ Kn (parse_string_value _ _ _ _ Vn)).
  rewrite (parse_line_more _ _ _ _ _ _ _ Ki (parse_bool_value _ _ _ _)).
  rewrite (parse_line_more _ _ _ _ _ _ _ Kp (parse_bool_value _ _ _ _)).
  rewrite (parse_line_more _ _ _ _ _ _ _ Kj (parse_bool_value _ _ _ _)).
  rewrite (parse_line_last _ _ _ _ _ _ _ _ Ks (Nc _ _ _ _)).
  reflexivity.
Qed.

Lemma roles_items_cons (i : nat) (r : string) (rs : list string) :
  list_ascii_of_string (roles_items i (r :: rs))
  = (if (0 <? i)%nat then [","%char; " "%char] else [])
    ++ quoted_text r ++ list_ascii_of_string (roles_items (S i) rs).
Proof.
  cbn [roles_items]. unfold quoted, dq, quoted_text.
  rewrite ?list_ascii_of_string_append.
  destruct (0 <? i)%nat; cbn [list_ascii_of_string app]; rewrite <- ?app_assoc; reflexivity.
Qed.

Lemma roles_items_length (rs : list string) (i : nat) :
  (length rs <= length (list_ascii_of_string (roles_items i rs)))%nat.
Proof.
  revert i. induction rs as [|r rs IH]; intros i; [cbn; lia|].
  rewrite roles_items_cons, !length_app. unfold quoted_text. cbn [length].
  specialize (IH (S i)). lia.
Qed.

Lemma parse_elems_step (f : nat) (depth : Z) (s : list ascii) :
  parse_elems (S f) depth s
  = match parse_value f depth s with
    | Some (v, r) =>
        match skip_space r with
        | d :: r1 =>
            if Ascii.eqb d ","%char then
              match parse_elems f depth r1 with
              | Some (vs, r2) => Some (v :: vs, r2)
              | None => None
              end
            else if Ascii.eqb d "]"%char then Some ([v], r1)
            else None
        | [] => None
        end
    | None => None
    end.
Proof. reflexivity. Qed.

(** The elements of the array of roles, from the first one on. *)
Lemma parse_roles (rs : list string) :
  ∀ (r : string) (f : nat) (depth : Z) (ws : list ascii) (i : nat) (rest : list ascii),
  Forall verbatim (r :: rs) → Forall (λ c, is_space c = true) ws →
  parse_elems (S (S (length rs + f))) depth
    (ws ++ quoted_text r ++ list_ascii_of_string (roles_items (S i) rs)
        ++ "]"%char :: rest)
  = Some (map (λ r, VStr (list_ascii_of_string r)) (r :: rs), rest).
Proof.
  induction rs as [|r2 rs IH]; intros r f depth ws i rest V W;
    inversion V as [|? ? Vr Vrs]; subst.
  - cbn [length Nat.add roles_items list_ascii_of_string app]. rewrite parse_elems_step.
    unfold quoted_text. cbn [app]. rewrite <- app_assoc. cbn [app].
    rewrite (parse_value_quoted _ _ _ _ _ W Vr), skip_space_stop by reflexivity.
    reflexivity.
  - cbn [length Nat.add]. rewrite parse_elems_step.
    rewrite roles_items_cons. cbn [Nat.ltb Nat.leb app].
    unfold quoted_text at 1. cbn [app]. rewrite <- !app_assoc. cbn [app].
    rewrite (parse_value_quoted _ _ _ _ _ W Vr), skip_space_stop by reflexivity.
    change (Ascii.eqb "," ",") with true. cbv iota.
    change (" "%char :: quoted_text r2
              ++ list_ascii_of_string (roles_items (S (S i)) rs) ++ "]"%char :: rest)
      with ([" "%char] ++ quoted_text r2
              ++ list_ascii_of_string (roles_items (S (S i)) rs) ++ "]"%char :: rest).
    now rewrite (IH r2 f depth [" "%char] (S i) rest Vrs one_space).
Qed.

Lemma parse_array_empty (f : nat) (depth : Z) (ws rest : list ascii) :
  Forall (λ c, is_space c = true) ws → depth < maxNestingDepth →
  parse_value (S f) depth (ws ++ "["%char :: "]"%char :: rest) = Some (VArr [], rest).
Proof.
  intros W D. cbn [parse_value]. rewrite (skip_space_spaces _ _ W).
  rewrite !skip_space_stop by reflexivity.
  change (Ascii.eqb "[" "034") with false. change (Ascii.eqb "[" "{") with false.
  change (Ascii.eqb "[" "[") with true. cbv iota.
  now replace (maxNestingDepth <=? depth) with false by (symmetry; apply Z.leb_gt; exact D).
Qed.

Lemma parse_array_strings (f : nat) (depth : Z) (ws rest : list ascii) :
  Forall (λ c, is_space c = true) ws → depth < maxNestingDepth →
  parse_value (S f) depth (ws ++ "["%char :: "034"%char :: rest)
  = match parse_elems f (depth + 1) ("034"%char :: rest) with
    | Some (vs, r) => Some (VArr vs, r)
    | None => None
    end.
Proof.
  intros W D. cbn [parse_value]. rewrite (skip_space_spaces _ _ W).
  rewrite !skip_space_stop by reflexivity.
  change (Ascii.eqb "[" "034") with false. change (Ascii.eqb "[" "{") with false.
  change (Ascii.eqb "[" "[") with true. cbv iota.
  now replace (maxNestingDepth <=? depth) with false by (symmetry; apply Z.leb_gt; exact D).
Qed.

(** The array of roles as a value. *)
Lemma parse_roles_value (roles : list string) (f : nat) (depth : Z) (rest : list ascii) :
  Forall verbatim roles → depth < maxNestingDepth →
  parse_value (S (S (S (length roles + f)))) depth
    (" "%char :: list_ascii_of_string (rolesJSON roles) ++ rest)
  = Some (VArr (map (λ r, VStr (list_ascii_of_string r)) roles), rest).
Proof.
  intros V D. unfold rolesJSON. rewrite !list_ascii_of_string_append.
  cbn [list_ascii_of_string app]. rewrite <- app_assoc. cbn [app].
  destruct roles as [|r rs].
  - cbn [roles_items list_ascii_of_string app].
    apply (parse_array_empty _ depth [" "%char] rest one_space D).
  - rewrite roles_items_cons. cbn [Nat.ltb Nat.leb app].
    unfold quoted_text at 1. cbn [app].
    match goal with |- parse_value (S ?F) _ (_ :: _ :: _ :: ?x) = _ =>
      pose proof (parse_array_strings F depth [" "%char] x one_space D) as H;
      cbn [app] in H; rewrite H; clear H
    end.
    cbn [length Nat.add].
    replace (S (length rs + f)) with (length rs + S f)%nat by lia.
    match goal with |- match ?p with _ => _ end = _ =>
      replace p with (Some (map (λ r, VStr (list_ascii_of_string r)) (r :: rs), rest));
        [reflexivity|]
    end.
    rewrite <- (app_assoc (list_ascii_of_string r ++ ["034"%char])).
    symmetry. exact (parse_roles rs r (S f) (depth + 1) [] 0 rest V (Forall_nil_2 _)).
Qed.

Lemma action_body_text (name nextState : string) (roles : list string) (check : bool) :
  list_ascii_of_string (action_body name nextState roles check)
  = "{"%char
    :: line 2 "name" (quoted_text name ++ ","%char
    :: line 2 "nextState" (quoted_text nextState ++ ","%char
    :: line 2 "attributeValidation" ("{"%char
    :: line 4 "attributes" ("{"%char
    :: line 6 "roles" (list_ascii_of_string (rolesJSON roles) ++ closing 4 (","%char
    :: line 4 "assigneeCheck" (list_ascii_of_string (fmt_bool check)
         ++ closing 2 (closing 0 [])))))))).
Proof.
  unfold action_body, concat_lines, quoted, dq, nl, line, closing, quoted_text.
  rewrite ?list_ascii_of_string_append.
  cbn [list_ascii_of_string app repeat]. rewrite <- ?app_assoc. cbn [app]. reflexivity.
Qed.

Lemma parse_action_body (name nextState : string) (roles : list string) (check : bool) :
  verbatim name → verbatim nextState → Forall verbatim roles →
  parse (action_body name nextState roles check)
  = Some (action_object name nextState roles check).
Proof.
  intros Vn Vx Vr.
  destruct verbatim_keys as (Kn & _ & _ & _ & _ & _ & _ & _ & Kx & Kav & Kat & Kr & Kas).
  unfold parse. rewrite action_body_text.
  match goal with |- context [S (length ?t)] =>
    assert (∃ k, length t = (10 + (length roles + k))%nat) as [k ->]
  end.
  { match goal with |- ∃ k, ?n = _ => exists (n - 10 - length roles)%nat;
      enough (10 + length roles <= n)%nat by lia end.
    pose proof (roles_items_length roles 0) as L.
    unfold line, closing, quoted_text, rolesJSON.
    rewrite ?list_ascii_of_string_append.
    repeat (progress cbn [length app repeat list_ascii_of_string] || rewrite length_app).
    lia. }
  cbn [Nat.add]. set (n := (length roles + k)%nat).
  assert (Hr : ∀ rest,
            parse_value (S (S (S n))) 3
              (" "%char :: list_ascii_of_string (rolesJSON roles) ++ rest)
            = Some (VArr (map (λ r, VStr (list_ascii_of_string r)) roles), rest))
    by (intros; now apply parse_roles_value).
  assert (Ha : ∀ rest,
            parse_value (S (S (S (S (S n))))) 2
              (" "%char :: "{"%char
               :: line 6 "roles" (list_ascii_of_string (rolesJSON roles) ++ closing 4 rest))
            = Some (VObj [(list_ascii_of_string "roles",
                           VArr (map (λ r, VStr (list_ascii_of_string r)) roles))], rest)).
  { intros rest. rewrite parse_object_value by reflexivity.
    now rewrite (parse_line_last _ _ _ _ _ _ _ _ Kr (Hr _)). }
  assert (Hv : ∀ rest,
            parse_value (S (S (S (S (S (S (S n))))))) 1
              (" "%char :: "{"%char
               :: line 4 "attributes" ("{"%char
               :: line 6 "roles" (list_ascii_of_string (rolesJSON roles)
                    ++ closing 4 (","%char
               :: line 4 "assigneeCheck" (list_ascii_of_string (fmt_bool check)
                    ++ closing 2 rest)))))
            = Some (VObj [(list_ascii_of_string "attributes",
                           VObj [(list_ascii_of_string "roles",
                                  VArr (map (λ r, VStr (list_ascii_of_string r)) roles))]);
                          (list_ascii_of_string "assigneeCheck", VBool check)], rest)).
  { intros rest. rewrite parse_object_value by reflexivity.
    rewrite (parse_line_more _ _ _ _ _ _ _ Kat (Ha _)).
    now rewrite (parse_line_last _ _ _ _ _ _ _ _ Kas (parse_bool_value _ _ _ _)). }
  rewrite parse_object_top.
  rewrite (parse_line_more _ _ _ _ _ _ _ Kn (parse_string_value _ _ _ _ Vn)).
  rewrite (parse_line_more _ _ _ _ _ _ _ Kx (parse_string_value _ _ _ _ Vx)).
  rewrite (parse_line_last _ _ _ _ _ _ _ _ Kav (Hv _)).
  reflexivity.
Qed.

Lemma post_trace (net : network) (sender : request → event)
    (url text jwtToken tenantID : string) (w : world) :
  url_ok net url = true →
  trace (snd (post net sender url text jwtToken tenantID w))
  = trace w ++ [sender (mkRequest "POST" url (json_headers jwtToken tenantID) (Raw text))].
Proof.
  intros U. unfold post, send, mbind, M_bind. rewrite U. cbn [negb].
  destruct (answer net (trace w) _) as [| |status text']; try reflexivity.
  now destruct (status_failed status).
Qed.

(** X22. The bodies of the three creation calls are assembled with [%s]
    between quotes, without a JSON encoder.  For strings of ASCII without
    control characters, quotes and backslashes this gives the JSON text of
    the object meant: the request of [CreateProcess] carries the five
    members of the process, that of [CreateState] the six members of the
    state, that of [CreateAction] the name, the next state and the nested
    attribute validation with the array of roles. *)
Theorem creation_bodies_are_json (net : network) (serverURL jwtToken tenantID : string)
    (w : world) :
  serverURL ≠ "" → tenantID ≠ "" → (∀ url, url_ok net url = true) →
  (∀ name code description version sla,
     verbatim name → verbatim code → verbatim description → verbatim version →
     int64 sla →
     ∃ r lit,
       trace (snd (CreateProcess net serverURL jwtToken tenantID name code description
                     version sla w)) = trace w ++ [ProcessCall r]
       ∧ parse_int64 lit = Some sla
       ∧ parse (body_text r) = Some (process_object name code description version lit))
  ∧ (∀ processID code name isInitial isParallel isJoin sla,
     processID ≠ "" → verbatim code → verbatim name → int64 sla →
     ∃ r lit,
       trace (snd (CreateState net serverURL jwtToken tenantID processID code name
                     isInitial isParallel isJoin sla w)) = trace w ++ [StateCall code r]
       ∧ parse_int64 lit = Some sla
       ∧ parse (body_text r)
         = Some (state_object code name isInitial isParallel isJoin lit))
  ∧ (∀ stateID name nextState roles check,
     stateID ≠ "" → verbatim name → verbatim nextState → Forall verbatim roles →
     ∃ r,
       trace (snd (CreateAction net serverURL jwtToken tenantID stateID name nextState
                     roles check w)) = trace w ++ [ActionCall name r]
       ∧ parse (body_text r) = Some (action_object name nextState roles check)).
Proof.
  intros Ns Nt U. split; [|split].
  - intros name code description version sla Vn Vc Vd Vv Hs.
    destruct (parse_process_body name code description version sla Vn Vc Vd Vv Hs)
      as (lit & P & J).
    eexists _, lit. unfold CreateProcess.
    rewrite (eqb_neq_false _ Ns), (eqb_neq_false _ Nt), (post_trace _ _ _ _ _ _ _ (U _)).
    split; [reflexivity|]. split; [exact P|exact J].
  - intros processID code name isInitial isParallel isJoin sla Np Vc Vn Hs.
    destruct (parse_state_body code name isInitial isParallel isJoin sla Vc Vn Hs)
      as (lit & P & J).
    eexists _, lit. unfold CreateState.
    rewrite (eqb_neq_false _ Ns), (eqb_neq_false _ Nt), (eqb_neq_false _ Np),
      (post_trace _ _ _ _ _ _ _ (U _)).
    split; [reflexivity|]. split; [exact P|exact J].
  - intros stateID name nextState roles check Np Vn Vx Vr.
    eexists. unfold CreateAction.
    rewrite (eqb_neq_false _ Ns), (eqb_neq_false _ Nt), (eqb_neq_false _ Np),
      (post_trace _ _ _ _ _ _ _ (U _)).
    split; [reflexivity|]. exact (parse_action_body name nextState roles check Vn Vx Vr).
Qed.

Lemma parse_members_first (f : nat) (depth : Z) (ws : list ascii) (key : string)
    (r1 r2 : list ascii) (v : value) :
  Forall (λ c, is_space c = true) ws → verbatim key →
  parse_value f depth r1 = Some (v, r2) →
  ∀ ms r,
    parse_members (S f) depth
      (ws ++ "034"%char :: list_ascii_of_string key ++ "034"%char :: ":"%char :: r1)
    = Some (ms, r) →
    ∃ ms', ms = (list_ascii_of_string key, v) :: ms'.
Proof.
  intros W K V ms r. cbn [parse_members].
  rewrite (skip_space_spaces _ _ W), skip_space_stop by reflexivity.
  change (Ascii.eqb "034" "034") with true. cbv iota.
  rewrite (parse_string_verbatim _ _ K), skip_space_stop by reflexivity.
  change (Ascii.eqb ":" ":") with true. cbv iota. rewrite V.
  destruct (skip_space r2) as [|d r3]; [discriminate|].
  destruct (Ascii.eqb d ",").
  - destruct (parse_members f depth r3) as [[ms' r4]|]; [|discriminate].
    intros [= <- <-]. eauto.
  - destruct (Ascii.eqb d "}"); [|discriminate]. intros [= <- <-]. eauto.
Qed.

(** X23. A double quote in the name is not escaped.  When the name of the
    process has a double quote, after a beginning [pre] that is written as
    it is, the body [CreateProcess] sends is not the JSON text of that
    name: whatever a JSON decoder reads from the body, if it reads
    anything, has the name [pre], the part before the quote. *)
Theorem quote_in_name_is_not_escaped (net : network)
    (serverURL jwtToken tenantID pre post code description version : string) (sla : Z)
    (w : world) :
  serverURL ≠ "" → tenantID ≠ "" → (∀ url, url_ok net url = true) → verbatim pre →
  ∃ r,
    trace (snd (CreateProcess net serverURL jwtToken tenantID (pre +:+ dq +:+ post) code
                  description version sla w)) = trace w ++ [ProcessCall r]
    ∧ ∀ v, parse (body_text r) = Some v →
        ∃ members, v = VObj (string_member "name" pre :: members).
Proof.
  intros Ns Nt U Vp. eexists. unfold CreateProcess.
  rewrite (eqb_neq_false _ Ns), (eqb_neq_false _ Nt), (post_trace _ _ _ _ _ _ _ (U _)).
  split; [reflexivity|]. cbn [body_text req_body]. intros v.
  unfold parse. rewrite process_body_text.
  match goal with |- context [S (length ?t)] =>
    assert (∃ m, length t = (2 + m)%nat) as [m ->]
      by (eexists; unfold line, closing; cbn [length app repeat list_ascii_of_string];
          reflexivity)
  end.
  cbn [Nat.add]. rewrite parse_object_top.
  destruct verbatim_keys as (Kn & _).
  match goal with |- context [parse_members (S ?f) 1 (line 2 "name" ?body)] =>
    pose proof (λ r2 v, parse_members_first f 1 ("010"%char :: repeat " "%char 2) "name"
                          (" "%char :: body) r2 v) as F;
    destruct (parse_members (S f) 1 (line 2 "name" body)) as [[ms r]|] eqn:E;
      [|discriminate]
  end.
  unfold line in E. unfold quoted_text, dq in F.
  rewrite !list_ascii_of_string_append in F. cbn [list_ascii_of_string app] in F.
  rewrite <- !app_assoc in F. cbn [app] in F.
  unfold quoted_text, dq in E.
  rewrite !list_ascii_of_string_append in E. cbn [list_ascii_of_string app] in E.
  rewrite <- !app_assoc in E. cbn [app] in E.
  destruct (F _ (VStr (list_ascii_of_string pre)) (spaces 2) Kn
              (parse_value_quoted _ 1 [" "%char] pre _ one_space Vp) ms r E) as (ms' & ->).
  destruct (skip_space r); [|discriminate]. intros [= <-]. eauto.
Qed.

End RequestBodies.

(** ** Instances for the bodies *)

Section BodyInstances.
Import Json digit_workflow.

(** The body of an action with two roles. *)
Lemma action_body_example :
  ∃ r,
    trace (snd (CreateAction net_accepting "http://srv" "jwt" "ACME" "s1" "GO" "s2"
                  ["CITIZEN"; "CSR"] false fresh_world))
    = [ActionCall "GO" r]
    ∧ parse (body_text r) = Some (action_object "GO" "s2" ["CITIZEN"; "CSR"] false).
Proof.
  destruct (creation_bodies_are_json net_accepting "http://srv" "jwt" "ACME" fresh_world)
    as (_ & _ & A); [discriminate|discriminate|reflexivity|].
  apply (A "s1" "GO" "s2" ["CITIZEN"; "CSR"] false); [discriminate|..];
    unfold verbatim, verbatim_byte; cbn [list_ascii_of_string];
    repeat constructor; (discriminate || (intros H; discriminate H)).
Defined.

(** A name that closes its own quotes and opens a second member: the
    body is JSON, and the name it gives first is x. *)
Lemma quote_in_name_example :
  ∃ r members,
    trace (snd (CreateProcess net_accepting "http://srv" "jwt" "ACME"
                  ("x" +:+ dq +:+ ("," +:+ quoted "name" +:+ ":" +:+ dq +:+ "y"))
                  "WF1" "" "1.0" 0 fresh_world))
    = [ProcessCall r]
    ∧ parse (body_text r) = Some (VObj (string_member "name" "x" :: members)).
Proof.
  destruct (quote_in_name_is_not_escaped net_accepting "http://srv" "jwt" "ACME" "x"
              ("," +:+ quoted "name" +:+ ":" +:+ dq +:+ "y") "WF1" "" "1.0" 0 fresh_world)
    as (r & T & H); [discriminate|discriminate|reflexivity| |].
  { unfold verbatim, verbatim_byte; cbn [list_ascii_of_string];
      repeat constructor; (discriminate || (intros H; discriminate H)). }
  exists r.
  assert (∃ v, parse (body_text r) = Some v) as [v E].
  { vm_compute in T. injection T as <-. vm_compute. eexists. reflexivity. }
  destruct (H v E) as [members ->]. exists members. split; [exact T|exact E].
Defined.

End BodyInstances.

(** ** A token endpoint that grants no token *)

Section EmptyToken.
Import jwt auth.

(** X24. An answer of the token endpoint with the status 200 and no access
    token counts as a success.  When the cached token is expired and the
    endpoint answers so, [GetValidJWTToken] returns the empty token without
    an error, [GetAuthorizationHeader] returns the header with the word
    Bearer alone, and the empty token replaces the cached one: from then on
    [GetValidJWTToken] fails with the error of a missing token, at every
    instant and against every endpoint, and does not refresh. *)
Theorem empty_access_token_accepted (net : network) (now : Z) (w : world) (cfg : Config)
    (cl : JWTClaims) (a : AuthConfig) (text : string) (fields : gmap string Json.fval) :
  disk w = File cfg → JWTToken cfg ≠ "" → DecodeJWT (JWTToken cfg) = Ok cl →
  Unix (Exp cl) < now + 30 * second →
  Auth cfg = Some a → complete a → url_ok net (req_url (credentials_request a)) = true →
  answer net (trace w) (credentials_request a) = Response 200 text →
  Json.Unmarshal digit_auth.token_schema text = Some fields →
  Json.get_string fields "access_token" = "" → save_error w = None →
  ∃ w',
    GetValidJWTToken net now w = (Ok "", w')
    ∧ GetAuthorizationHeader net now w = (Ok "Bearer ", w')
    ∧ disk w' = File (mkConfig (Server cfg) "" (Auth cfg))
    ∧ trace w' = trace w ++ [TokenRequest (credentials_request a)]
    ∧ ∀ net' now',
        GetValidJWTToken net' now' w'
        = (Err (Errorf "no JWT token found. Please run 'digit config set' to authenticate"),
           w').
Proof.
  intros D N Dec X A C U R F T S.
  assert (G : GetValidJWTToken net now w
              = (Ok "",
                 printed (stored (requested (printed w ("JWT token expired, refreshing..."
                                                        +:+ nl)) a) cfg "")
                   ("✓ Token refreshed successfully!" +:+ nl))).
  { rewrite (GetValidJWTToken_cases _ _ _ _ D), (eqb_neq_false _ N), Dec.
    replace (Unix (Exp cl) <? now + 30 * second) with true
      by (symmetry; apply Z.ltb_lt; lia).
    rewrite (RefreshToken_complete net (printed w ("JWT token expired, refreshing..." +:+ nl))
               cfg a D A C U).
    cbn [printed trace save_error]. rewrite R. cbn [Z.eqb Pos.eqb]. now rewrite F, S, T. }
  eexists. split; [exact G|]. split; [|split; [reflexivity|split; [reflexivity|]]].
  - unfold GetAuthorizationHeader, mbind, M_bind. now rewrite G.
  - intros net' now'.
    match goal with |- GetValidJWTToken _ _ ?w1 = _ =>
      now rewrite (GetValidJWTToken_cases net' now' w1 (mkConfig (Server cfg) "" (Auth cfg))
                     eq_refl)
    end.
Qed.

(** The expired [token_acme] and an endpoint that answers with an empty
    object. *)
Lemma empty_access_token_example :
  fst (GetAuthorizationHeader net_empty_object (Unix 2000000001)
         (world_of (mkConfig "https://srv" token_acme (Some sample_credentials))))
  = Ok "Bearer "
  ∧ disk (snd (GetAuthorizationHeader net_empty_object (Unix 2000000001)
                 (world_of (mkConfig "https://srv" token_acme (Some sample_credentials)))))
    = File (mkConfig "https://srv" "" (Some sample_credentials)).
Proof.
  destruct (empty_access_token_accepted net_empty_object (Unix 2000000001)
              (world_of (mkConfig "https://srv" token_acme (Some sample_credentials)))
              (mkConfig "https://srv" token_acme (Some sample_credentials))
              (mkClaims "u-123" "https://host/x/realms/ACME" "" "" "" "" "" 2000000000 0)
              sample_credentials "{}" ∅)
    as (w' & _ & H & D & _);
    [reflexivity|discriminate|reflexivity|reflexivity|reflexivity|
     repeat split; discriminate|reflexivity|reflexivity|reflexivity|reflexivity|reflexivity|].
  rewrite H. split; [reflexivity|exact D].
Defined.

End EmptyToken.

(** ** A login that fails *)

Section FailedLogin.
Import config config_globals context cmd_config.
Variable net : network.
Variable files : string → context_file.

Lemma GetJWTToken_refused (a : AuthConfig) (w : world) :
  complete a → url_ok net (req_url (credentials_request a)) = true →
  refused (answer net (trace w) (credentials_request a)) →
  ∃ e, digit_auth.GetJWTToken net (ServerURL a) (Realm a) (ClientID a) (ClientSecret a)
         (Username a) (Password a) w = (Err e, requested w a).
Proof.
  intros C U R. rewrite (GetJWTToken_complete net a w C U).
  destruct (answer net (trace w) (credentials_request a)) as [| |status text]; eauto.
  cbn [refused] in R. destruct (Z.eqb_spec status 200) as [E|E]; [|eauto].
  destruct R as [R|R]; [contradiction|]. rewrite R. eauto.
Qed.

Lemma GetJWTToken_incomplete (a : AuthConfig) (w : world) :
  ¬ complete a →
  ∃ e, digit_auth.GetJWTToken net (ServerURL a) (Realm a) (ClientID a) (ClientSecret a)
         (Username a) (Password a) w = (Err e, w).
Proof.
  intros N. unfold digit_auth.GetJWTToken.
  destruct (String.eqb_spec (ServerURL a) ""); [eexists; reflexivity|].
  destruct (String.eqb_spec (Realm a) ""); [eexists; reflexivity|].
  destruct (String.eqb_spec (ClientID a) ""); [eexists; reflexivity|].
  destruct (String.eqb_spec (ClientSecret a) ""); [eexists; reflexivity|].
  destruct (String.eqb_spec (Username a) ""); [eexists; reflexivity|].
  destruct (String.eqb_spec (Password a) ""); [eexists; reflexivity|].
  exfalso. apply N. repeat split; assumption.
Qed.

(** X25. A login that fails leaves the stored configuration as it is.
    With accepted flags and the values [v]: when a value is empty,
    [config set] fails without sending anything; when the token endpoint
    refuses (no answer, a status other than 200, a body that is no token
    response), it fails after its one token request.  Either way the error
    is the authentication error and nothing was written: the server, the
    token and the credentials of an earlier login are still there. *)
Theorem configSet_failed_login_keeps_config (f : SetFlags) (v : ContextDetail)
    (found : list string) (w : world) :
  flags_accepted f → chosen_values files f = Some (v, found) →
  (¬ complete (credentials_of v) →
   ∃ e w',
     configSet net files f w
     = (Returned (Some (Wrapf "failed to authenticate with Keycloak" e)), w')
     ∧ disk w' = disk w ∧ trace w' = trace w)
  ∧ (complete (credentials_of v) →
     url_ok net (req_url (credentials_request (credentials_of v))) = true →
     refused (answer net (trace w) (credentials_request (credentials_of v))) →
     ∃ e w',
       configSet net files f w
       = (Returned (Some (Wrapf "failed to authenticate with Keycloak" e)), w')
       ∧ disk w' = disk w
       ∧ trace w' = trace w ++ [TokenRequest (credentials_request (credentials_of v))]).
Proof.
  intros Hf Hc.
  assert (E : String.eqb (f_file f) "" && some_flag_empty f = false
            ∧ negb (String.eqb (f_file f) "") && some_flag_given f = false).
  { destruct Hf as [[-> ->]|[N ->]]; [split; reflexivity|].
    rewrite (eqb_neq_false _ N). split; reflexivity. }
  destruct E as [E1 E2].
  assert (Run : ∀ e w1,
            digit_auth.GetJWTToken net (ServerURL (credentials_of v))
              (Realm (credentials_of v)) (ClientID (credentials_of v))
              (ClientSecret (credentials_of v)) (Username (credentials_of v))
              (Password (credentials_of v))
              (printed_all w (found ++ ["Server: " +:+ ctx_Server v +:+ nl;
                                        "Account: " +:+ ctx_Realm v +:+ nl;
                                        "Username: " +:+ ctx_Username v +:+ nl;
                                        "Authenticating with Keycloak..." +:+ nl]))
            = (Err e, w1) →
            configSet net files f w
            = (Returned (Some (Wrapf "failed to authenticate with Keycloak" e)), w1)).
  { intros e w1 G. unfold configSet, print_token_head.
    rewrite configSet_body_login, E1, E2.
    rewrite (bind_ok _ _ _ _ _ (set_values_chosen files f v found w Hc)).
    rewrite !bind_print. unfold login. rewrite bind_print.
    erewrite bind_err; [reflexivity|]. unfold wrap.
    change (digit_auth.GetJWTToken net (ctx_Server v) (ctx_Realm v) (ctx_ClientID v)
              (ctx_ClientSecret v) (ctx_Username v) (ctx_Password v))
      with (digit_auth.GetJWTToken net (ServerURL (credentials_of v))
              (Realm (credentials_of v)) (ClientID (credentials_of v))
              (ClientSecret (credentials_of v)) (Username (credentials_of v))
              (Password (credentials_of v))).
    match goal with |- context [digit_auth.GetJWTToken _ _ _ _ _ _ _ ?w0] =>
      replace w0 with
        (printed_all w (found ++ ["Server: " +:+ ctx_Server v +:+ nl;
                                  "Account: " +:+ ctx_Realm v +:+ nl;
                                  "Username: " +:+ ctx_Username v +:+ nl;
                                  "Authenticating with Keycloak..." +:+ nl]))
    end.
    - now rewrite G.
    - unfold printed_all, printed. cbn [disk save_error trace stdout].
      now rewrite <- !app_assoc. }
  split.
  - intros N.
    destruct (GetJWTToken_incomplete (credentials_of v)
                (printed_all w (found ++ ["Server: " +:+ ctx_Server v +:+ nl;
                                          "Account: " +:+ ctx_Realm v +:+ nl;
                                          "Username: " +:+ ctx_Username v +:+ nl;
                                          "Authenticating with Keycloak..." +:+ nl])) N)
      as (e & G).
    exists e. eexists. split; [exact (Run _ _ G)|]. split; reflexivity.
  - intros C U R.
    destruct (GetJWTToken_refused (credentials_of v)
                (printed_all w (found ++ ["Server: " +:+ ctx_Server v +:+ nl;
                                          "Account: " +:+ ctx_Realm v +:+ nl;
                                          "Username: " +:+ ctx_Username v +:+ nl;
                                          "Authenticating with Keycloak..." +:+ nl])) C U R)
      as (e & G).
    exists e. eexists. split; [exact (Run _ _ G)|]. split; reflexivity.
Qed.

End FailedLogin.

Section FailedLoginInstance.
Import config context cmd_config.

(** A login that the endpoint refuses with the status 202, on a machine
    that has a configuration. *)
Lemma configSet_refused_example :
  disk (snd (configSet net_202 (λ _, CtxMissing) sample_flags
               (world_of (mkConfig "https://old" "old-token" None))))
  = File (mkConfig "https://old" "old-token" None)
  ∧ ∃ e, fst (configSet net_202 (λ _, CtxMissing) sample_flags
                (world_of (mkConfig "https://old" "old-token" None)))
         = Returned (Some (Wrapf "failed to authenticate with Keycloak" e)).
Proof.
  destruct (configSet_failed_login_keeps_config net_202 (λ _, CtxMissing) sample_flags
              (flag_values sample_flags)
              ["Using configuration from command-line flags" +:+ nl]
              (world_of (mkConfig "https://old" "old-token" None)))
    as (_ & H).
  - left. split; reflexivity.
  - reflexivity.
  - destruct H as (e & w' & E & D & _).
    + repeat split; discriminate.
    + reflexivity.
    + left. discriminate.
    + rewrite E. split; [exact D|]. exists e. reflexivity.
Defined.

End FailedLoginInstance.

(** ** The requests of a run *)

Section RunRequests.
Import GoStrings digit_workflow cmd.
Variable net : network.
Variables serverURL jwtToken tenantID : string.

Lemma sends_only_refl (w w' : world) : trace w' = trace w → sends_only serverURL jwtToken tenantID w' w.
Proof. intros E. exists []. rewrite app_nil_r. split; [exact E|constructor]. Qed.

Lemma sends_only_trans (w1 w2 w3 : world) :
  sends_only serverURL jwtToken tenantID w2 w1 → sends_only serverURL jwtToken tenantID w3 w2 → sends_only serverURL jwtToken tenantID w3 w1.
Proof.
  intros (i1 & E1 & F1) (i2 & E2 & F2). exists (i1 ++ i2).
  rewrite E2, E1, app_assoc. split; [reflexivity|]. now apply Forall_app.
Qed.

Lemma post_sends_only (sender : request → event) (path text : string) (w : world) :
  (∀ r, request_of (sender r) = r) →
  sends_only serverURL jwtToken tenantID
    (snd (post net sender (TrimSuffixSlash serverURL +:+ "/workflow/v1/" +:+ path) text
            jwtToken tenantID w)) w.
Proof.
  intros S. unfold post, send, mbind, M_bind.
  destruct (url_ok net _); cbn [negb]; [|now apply sends_only_refl].
  match goal with |- context [sender ?r] =>
    assert (P : creation_request serverURL jwtToken tenantID (sender r))
      by (unfold creation_request; rewrite S; cbn; eauto)
  end.
  destruct (answer net (trace w) _) as [| |status text'];
    [| |destruct (status_failed status)];
    (eexists [_]; split; [reflexivity|]; constructor; [exact P|constructor]).
Qed.

Lemma CreateProcess_sends_only (name code description version : string) (sla : Z)
    (w : world) :
  sends_only serverURL jwtToken tenantID
    (snd (CreateProcess net serverURL jwtToken tenantID name code description version sla w))
    w.
Proof.
  unfold CreateProcess.
  destruct (String.eqb serverURL ""); [now apply sends_only_refl|].
  destruct (String.eqb tenantID ""); [now apply sends_only_refl|].
  now apply (post_sends_only ProcessCall "process").
Qed.

Lemma CreateState_sends_only (processID code name : string) (i p j : bool) (sla : Z)
    (w : world) :
  sends_only serverURL jwtToken tenantID
    (snd (CreateState net serverURL jwtToken tenantID processID code name i p j sla w)) w.
Proof.
  unfold CreateState.
  destruct (String.eqb serverURL ""); [now apply sends_only_refl|].
  destruct (String.eqb tenantID ""); [now apply sends_only_refl|].
  destruct (String.eqb processID ""); [now apply sends_only_refl|].
  now apply (post_sends_only (StateCall code) ("process/" +:+ processID +:+ "/state")).
Qed.

Lemma CreateAction_sends_only (stateID name nextState : string) (roles : list string)
    (check : bool) (w : world) :
  sends_only serverURL jwtToken tenantID
    (snd (CreateAction net serverURL jwtToken tenantID stateID name nextState roles check w))
    w.
Proof.
  unfold CreateAction.
  destruct (String.eqb serverURL ""); [now apply sends_only_refl|].
  destruct (String.eqb tenantID ""); [now apply sends_only_refl|].
  destruct (String.eqb stateID ""); [now apply sends_only_refl|].
  now apply (post_sends_only (ActionCall name) ("state/" +:+ stateID +:+ "/action")).
Qed.

Lemma create_states_sends_only (processID : string) (states : list StateDef) :
  ∀ (m : gmap string string) (w : world),
  sends_only serverURL jwtToken tenantID (snd (create_states net serverURL jwtToken tenantID processID states m w)) w.
Proof.
  induction states as [|s rest IH]; intros m w; [now apply sends_only_refl|].
  cbn [create_states]. unfold mbind, M_bind, wrap.
  pose proof (CreateState_sends_only processID (s_Code s) (s_Name s) (s_IsInitial s)
                (s_IsParallel s) (s_IsJoin s) (s_SLA s) w) as C.
  destruct (CreateState net serverURL jwtToken tenantID processID _ _ _ _ _ _ w)
    as [[text|e] w1]; cbn [snd] in C; [|exact C].
  destruct (unmarshal_map text) as [ms|]; [|exact C].
  destruct (id_string ms) as [stateID|]; [|exact C].
  cbn [print]. eapply sends_only_trans; [exact C|].
  eapply sends_only_trans; [|apply IH]. now apply sends_only_refl.
Qed.

Lemma create_actions_sends_only (m : gmap string string) (actions : list ActionDef) :
  ∀ w : world,
  sends_only serverURL jwtToken tenantID (snd (create_actions net serverURL jwtToken tenantID actions m w)) w.
Proof.
  induction actions as [|a rest IH]; intros w; [now apply sends_only_refl|].
  cbn [create_actions].
  destruct (m !! a_CurrentState a) as [cur|]; [|now apply sends_only_refl].
  destruct (m !! a_NextState a) as [next|]; [|now apply sends_only_refl].
  unfold mbind, M_bind, wrap.
  pose proof (CreateAction_sends_only cur (a_Name a) next (a_AttributeRoles a)
                (a_AssigneeCheck a) w) as C.
  destruct (CreateAction net serverURL jwtToken tenantID cur _ next _ _ w)
    as [[text|e] w1]; cbn [snd] in C; [|exact C].
  cbn [print]. eapply sends_only_trans; [exact C|].
  eapply sends_only_trans; [|apply IH]. now apply sends_only_refl.
Qed.

(** X26. Every request of a create-workflow run is a creation: a POST under
    [/workflow/v1/] of the server, with the token and the tenant of the
    run in its headers.  A run that fails half way sends nothing else:
    what it created before stays created, nothing is deleted or undone; and
    it leaves the configuration file alone. *)
Theorem createWorkflow_only_creates (def : WorkflowDefinition) (w : world) :
  (∃ issued,
     trace (snd (createWorkflow net serverURL jwtToken tenantID def w)) = trace w ++ issued
     ∧ Forall (creation_request serverURL jwtToken tenantID) issued)
  ∧ (∀ ev, ev ∈ trace (snd (createWorkflow net serverURL jwtToken tenantID def w)) →
     ev ∈ trace w ∨ req_method (request_of ev) ≠ "DELETE").
Proof.
  assert (S : sends_only serverURL jwtToken tenantID (snd (createWorkflow net serverURL jwtToken tenantID def w)) w).
  { rewrite createWorkflow_cases.
    pose proof (CreateProcess_sends_only (p_Name (Process def)) (p_Code (Process def))
                  (p_Description (Process def)) (p_Version (Process def))
                  (p_SLA (Process def)) (printed w ("Creating workflow process..." +:+ nl)))
      as C.
    destruct (CreateProcess net serverURL jwtToken tenantID _ _ _ _ _ _)
      as [[text|e] w1]; cbn [snd] in C; [|exact C].
    destruct (unmarshal_map text) as [ms|]; [|exact C].
    destruct (id_string ms) as [processID|]; [|exact C].
    eapply sends_only_trans; [exact C|].
    pose proof (create_states_sends_only processID (States def) ∅
                  (printed_all w1 ["✓ Process created with ID: " +:+ processID +:+ nl;
                                   "Creating workflow states..." +:+ nl])) as St.
    destruct (create_states net serverURL jwtToken tenantID processID _ _ _)
      as [[m|e] w2]; cbn [snd] in St; [|exact St].
    eapply sends_only_trans; [exact St|].
    pose proof (create_actions_sends_only m (Actions def)
                  (printed w2 ("Creating workflow actions..." +:+ nl))) as Ac.
    destruct (create_actions net serverURL jwtToken tenantID _ _ _) as [[u|e] w3];
      cbn [snd] in Ac; [|exact Ac].
    eapply sends_only_trans; [exact Ac|]. now apply sends_only_refl. }
  split; [exact S|].
  destruct S as (issued & E & F). intros ev. rewrite E, elem_of_app.
  intros [H|H]; [now left|right].
  rewrite Forall_forall in F. destruct (F ev H) as (M & _). rewrite M. discriminate.
Qed.

End RunRequests.
